(** * Swap routing and trade derivation of the Uniswap interface (Polywrap fork)

    A shallow embedding of the trade comparator and price breakdown
    ([src/utils/trades.ts]), the swap-call builder and gas-estimation
    orchestrator ([useSwapCallback]), the permit signer ([useERC20Permit])
    and the client-side route selection ([useClientSideV3Trade]), with the
    properties the specification states about them.

    Further modules embed the submission of the swap ([onSwap]), the
    permit signer across renders and [useERC20PermitFromTrade], the mapping
    to the wrapper's types and the call data of the quotes,
    [useRoutingAPITrade], and the range, deposits and error of
    [useV3DerivedMintInfo], with properties read off the code. *)

From Stdlib Require Import ZArith QArith Qpower List String Bool Lia.
Import ListNotations.

Local Open Scope Z_scope.

(** ** JavaScript values the hooks branch on *)

Module Js.

(** What an [async] function or a hook body produces: a value, or a thrown
    [Error] carrying its message. *)
Inductive Result (A : Type) : Type :=
| Ok (a : A)
| Throw (message : string).
Arguments Ok {A} a.
Arguments Throw {A} message.

Definition bind {A B} (r : Result A) (k : A -> Result B) : Result B :=
  match r with
  | Ok a => k a
  | Throw m => Throw m
  end.

(** [!s] on a string is true for the empty string. *)
Definition truthy_string (s : string) : bool :=
  negb (String.eqb s EmptyString).

(** [!n] on a number is true for [0] (numbers here are integers). *)
Definition truthy_number (n : Z) : bool := negb (n =? 0).

(** [x] of type [T | undefined | null] tested with [!x]. *)
Definition present {A} (truthy : A -> bool) (x : option A) : bool :=
  match x with
  | Some a => truthy a
  | None => false
  end.

(** An object reference is always truthy. *)
Definition is_some {A} (x : option A) : bool :=
  match x with Some _ => true | None => false end.

(** [Number.MAX_SAFE_INTEGER]; [BigNumber.toNumber] throws beyond it. *)
Definition MAX_SAFE_INTEGER : Z := 2 ^ 53 - 1.

Definition toNumber (b : Z) : Result Z :=
  if Z.abs b <=? MAX_SAFE_INTEGER then Ok b else Throw "overflow".

(** [Array.prototype.find], whose callback receives the element, its index
    and the whole array. *)
Fixpoint find_from {A} (pred : A -> nat -> list A -> bool)
         (whole : list A) (ix : nat) (rest : list A) : option A :=
  match rest with
  | [] => None
  | el :: tl =>
      if pred el ix whole then Some el else find_from pred whole (S ix) tl
  end.

Definition find {A} (pred : A -> nat -> list A -> bool) (l : list A)
  : option A :=
  find_from pred l 0%nat l.

(** [Array.prototype.reduce] with the index passed to the callback. *)
Fixpoint reduce_from {A B} (f : B -> A -> nat -> B)
         (ix : nat) (l : list A) (acc : B) : B :=
  match l with
  | [] => acc
  | x :: tl => reduce_from f (S ix) tl (f acc x ix)
  end.

Definition reduce {A B} (f : B -> A -> nat -> B) (l : list A) (init : B) : B :=
  reduce_from f 0%nat l init.

End Js.

(** ** decimal.js

    A [Decimal] is NaN, an infinity, or a finite decimal floating-point number
    [coefficient * 10 ^ exponent].  Arithmetic computes the exact result and
    rounds it to [precision] significant digits, half away from zero (the
    library's defaults: precision 20, ROUND_HALF_UP; the sources never
    reconfigure them).  Comparisons are exact.  The library also strips
    trailing zeros of the coefficient, which changes neither the value nor the
    result of rounding, and it keeps a sign on zero that no comparison sees;
    exponents stay far inside the library's range of 9e15. *)

Module DecimalJs.

Inductive Decimal : Type :=
| DNaN
| DInf (negative : bool)
| DFin (coefficient exponent : Z).

Definition precision : Z := 20.

(** Number of decimal digits of a natural number, [0] for [0]. *)
Fixpoint ndigits_fuel (fuel : nat) (n : Z) : Z :=
  match fuel with
  | O => 0
  | S fuel' => if n =? 0 then 0 else 1 + ndigits_fuel fuel' (n / 10)
  end.

Definition ndigits (n : Z) : Z :=
  ndigits_fuel (S (Z.to_nat (Z.log2 (Z.abs n)))) (Z.abs n).

(** Trailing zeros of the coefficient move into the exponent; zero is
    [0e0]. *)
Fixpoint strip_fuel (fuel : nat) (c e : Z) : Decimal :=
  match fuel with
  | O => DFin c e
  | S fuel' =>
      if c =? 0 then DFin 0 0
      else if c mod 10 =? 0 then strip_fuel fuel' (c / 10) (e + 1)
      else DFin c e
  end.

Definition strip (c e : Z) : Decimal :=
  strip_fuel (S (Z.to_nat (Z.log2 (Z.abs c)))) c e.

(** [finalise]: round the coefficient to [precision] significant digits. *)
Definition finalise (c e : Z) : Decimal :=
  let n := ndigits c in
  if n <=? precision then strip c e
  else
    let k := n - precision in
    let m := 10 ^ k in
    strip (Z.sgn c * ((Z.abs c + m / 2) / m)) (e + k).

Definition ofZ (n : Z) : Decimal := strip n 0.

(** The rational a finite decimal denotes. *)
Definition Qval (c e : Z) : Q := (inject_Z c * (10 # 1) ^ e)%Q.

Definition value (d : Decimal) : option Q :=
  match d with
  | DFin c e => Some (Qval c e)
  | _ => None
  end.

(** [cmp]: [None] stands for the NaN the library returns when either
    operand is NaN. *)
Definition cmp (x y : Decimal) : option comparison :=
  match x, y with
  | DNaN, _ | _, DNaN => None
  | DInf nx, DInf ny =>
      Some (if Bool.eqb nx ny then Eq else if nx then Lt else Gt)
  | DInf nx, DFin _ _ => Some (if nx then Lt else Gt)
  | DFin _ _, DInf ny => Some (if ny then Gt else Lt)
  | DFin c1 e1, DFin c2 e2 => Some (Qcompare (Qval c1 e1) (Qval c2 e2))
  end.

Definition lessThan (x y : Decimal) : bool :=
  match cmp x y with Some Lt => true | _ => false end.

Definition equals (x y : Decimal) : bool :=
  match cmp x y with Some Eq => true | _ => false end.

Definition negate (x : Decimal) : Decimal :=
  match x with
  | DNaN => DNaN
  | DInf n => DInf (negb n)
  | DFin c e => DFin (- c) e
  end.

Definition add (x y : Decimal) : Decimal :=
  match x, y with
  | DNaN, _ | _, DNaN => DNaN
  | DInf nx, DInf ny => if Bool.eqb nx ny then DInf nx else DNaN
  | DInf nx, DFin _ _ => DInf nx
  | DFin _ _, DInf ny => DInf ny
  | DFin c1 e1, DFin c2 e2 =>
      let e := Z.min e1 e2 in
      finalise (c1 * 10 ^ (e1 - e) + c2 * 10 ^ (e2 - e)) e
  end.

Definition sub (x y : Decimal) : Decimal := add x (negate y).

Definition mul (x y : Decimal) : Decimal :=
  match x, y with
  | DNaN, _ | _, DNaN => DNaN
  | DInf nx, DInf ny => DInf (xorb nx ny)
  | DInf nx, DFin c _ =>
      if c =? 0 then DNaN else DInf (xorb nx (c <? 0))
  | DFin c _, DInf ny =>
      if c =? 0 then DNaN else DInf (xorb (c <? 0) ny)
  | DFin c1 e1, DFin c2 e2 => finalise (c1 * c2) (e1 + e2)
  end.

(** Division: the quotient is developed to more digits than [precision]
    keeps and then rounded; rounding half up only looks at the first digit
    dropped. *)
Definition div (x y : Decimal) : Decimal :=
  match x, y with
  | DNaN, _ | _, DNaN => DNaN
  | DInf _, DInf _ => DNaN
  | DInf nx, DFin c _ => DInf (xorb nx (c <? 0))
  | DFin _ _, DInf _ => DFin 0 0
  | DFin c1 e1, DFin c2 e2 =>
      if c2 =? 0 then
        if c1 =? 0 then DNaN else DInf (xorb (c1 <? 0) (c2 <? 0))
      else
        let s := precision + 1 + ndigits c2 in
        finalise (Z.sgn c1 * Z.sgn c2 * ((Z.abs c1 * 10 ^ s) / Z.abs c2))
                 (e1 - e2 - s)
  end.

(** [x] is finite and denotes the rational [q]. *)
Definition exact (x : Decimal) (q : Q) : Prop :=
  match x with
  | DFin c e => (Qval c e == q)%Q
  | _ => False
  end.

(** The order of the non-NaN decimals, as a proposition. *)
Definition le (x y : Decimal) : Prop :=
  match cmp x y with
  | Some Lt | Some Eq => True
  | _ => False
  end.

End DecimalJs.

(** ** The SDK's exact fractions

    [Fraction] of @uniswap/sdk: a numerator and a denominator, both
    arbitrary-precision integers, never reduced. *)

Module SdkFraction.

Record Fraction : Type := mkFraction { numerator : Z; denominator : Z }.

(** [new Percent(a, b)] builds the same object. *)
Definition Percent : Type := Fraction.

Definition multiply (x y : Fraction) : Fraction :=
  mkFraction (numerator x * numerator y) (denominator x * denominator y).

Definition subtract (x y : Fraction) : Fraction :=
  if denominator x =? denominator y
  then mkFraction (numerator x - numerator y) (denominator x)
  else mkFraction
         (numerator x * denominator y - numerator y * denominator x)
         (denominator x * denominator y).

(** [JSBI.divide] truncates toward zero. *)
Definition quotient (x : Fraction) : Z :=
  Z.quot (numerator x) (denominator x).

Definition ofInteger (n : Z) : Fraction := mkFraction n 1.

(** The rational a fraction with a positive denominator denotes. *)
Definition toQ (x : Fraction) : Q :=
  Qmake (numerator x) (Z.to_pos (denominator x)).

End SdkFraction.

(** [q] to the power [n], by repeated multiplication. *)
Fixpoint Qpow (q : Q) (n : nat) : Q :=
  match n with
  | O => 1%Q
  | S n' => (q * Qpow q n')%Q
  end.

(** ** src/utils/trades.ts *)

Module Trades.
Import Js DecimalJs.

(** *** The wrapper's data types *)

Record W3Currency : Type := mkCurrency {
  decimals : Z;
  symbol : option string;
  name : option string
}.

Record W3Token : Type := mkToken {
  chainId : Z;
  address : string;
  currency : W3Currency
}.

(** [amount] is the decimal rendering of an integer. *)
Record W3TokenAmount : Type := mkTokenAmount {
  token : W3Token;
  amount : Z
}.

Record W3Pair : Type := mkPair {
  tokenAmount0 : W3TokenAmount;
  tokenAmount1 : W3TokenAmount
}.

Record W3Route : Type := mkRoute {
  pairs : list W3Pair;
  path : list W3Token
}.

Inductive W3TradeType : Type := EXACT_INPUT | EXACT_OUTPUT.

Definition W3TradeType_eqb (x y : W3TradeType) : bool :=
  match x, y with
  | EXACT_INPUT, EXACT_INPUT | EXACT_OUTPUT, EXACT_OUTPUT => true
  | _, _ => false
  end.

Record W3Trade : Type := mkTrade {
  route : W3Route;
  inputAmount : W3TokenAmount;
  outputAmount : W3TokenAmount;
  tradeType : W3TradeType
}.

Definition option_eqb {A} (eqb : A -> A -> bool) (x y : option A) : bool :=
  match x, y with
  | Some a, Some b => eqb a b
  | None, None => true
  | _, _ => false
  end.

(** Modelled from the spec: [currencyEquals] of polywrap/utils, which is
    not among the sources; the spec makes a currency an immutable value
    whose equality is structural. *)
Definition w3currencyEquals (a b : W3Currency) : bool :=
  (decimals a =? decimals b)
  && option_eqb String.eqb (symbol a) (symbol b)
  && option_eqb String.eqb (name a) (name b).

(** Modelled from the spec: the constants [W3_ZERO_PERCENT] and
    [W3_ONE_HUNDRED_PERCENT] of ../constants, which is not among the
    sources; the spec's comparator multiplies by (1 + minimumDelta) and
    takes a minimumDelta of 0 as its default. *)
Definition W3_ZERO_PERCENT : Decimal := ofZ 0.
Definition W3_ONE_HUNDRED_PERCENT : Decimal := ofZ 1.

(** *** w3IsTradeBetter *)

Section Comparator.

(** [w3TradeExecutionPrice(client, trade)]: an invocation of the wrapper,
    which answers with a price or rejects. *)
Variable w3TradeExecutionPrice : W3Trade -> Result Decimal.

Definition w3IsTradeBetter (tradeA tradeB : option W3Trade)
           (minimumDelta : option Decimal) : Result (option bool) :=
  let minimumDelta :=
    match minimumDelta with Some d => d | None => W3_ZERO_PERCENT end in
  if is_some tradeA && negb (is_some tradeB) then Ok (Some false)
  else if is_some tradeB && negb (is_some tradeA) then Ok (Some true)
  else
    match tradeA, tradeB with
    | Some tradeA, Some tradeB =>
        if negb (W3TradeType_eqb (tradeType tradeA) (tradeType tradeB))
           || negb (w3currencyEquals
                      (currency (token (inputAmount tradeA)))
                      (currency (token (inputAmount tradeB))))
           || negb (w3currencyEquals
                      (currency (token (outputAmount tradeB)))
                      (currency (token (outputAmount tradeB))))
        then Throw "Trades are not comparable"
        else
          bind (w3TradeExecutionPrice tradeA) (fun executionPriceA =>
          bind (w3TradeExecutionPrice tradeB) (fun executionPriceB =>
            if equals minimumDelta W3_ZERO_PERCENT
            then Ok (Some (lessThan executionPriceA executionPriceB))
            else Ok (Some (lessThan
                             (mul executionPriceA
                                  (add minimumDelta W3_ONE_HUNDRED_PERCENT))
                             executionPriceB))))
    | _, _ => Ok None
    end.

End Comparator.

(** Which trade an answer of the comparator favours.  The answer tells
    whether [tradeB] is better than [tradeA]: with only [tradeB] present
    the function answers [true], with only [tradeA] present [false]. *)
Inductive Favoured : Type := TradeA | TradeB.

Definition favoured (r : Result (option bool)) : option Favoured :=
  match r with
  | Ok (Some true) => Some TradeB
  | Ok (Some false) => Some TradeA
  | _ => None
  end.

(** *** computeTradePriceBreakdown, on the SDK's fractions *)

Import SdkFraction.

Definition BASE_FEE : Percent := mkFraction 30 10000.
Definition ONE_HUNDRED_PERCENT : Percent := mkFraction 10000 10000.
Definition INPUT_FRACTION_AFTER_FEE : Fraction :=
  subtract ONE_HUNDRED_PERCENT BASE_FEE.

(** The SDK's amounts: of a token, or of ether. *)
Inductive CurrencyAmount : Type :=
| TokenAmount (token : W3Token) (raw : Z)
| EtherAmount (raw : Z).

Definition raw (a : CurrencyAmount) : Z :=
  match a with TokenAmount _ r | EtherAmount r => r end.

Record Trade : Type := mkSdkTrade {
  sdk_pairs : list W3Pair;
  sdk_inputAmount : CurrencyAmount;
  sdk_priceImpact : Percent
}.

(** The constant [realizedLPFee] of the function body, for a trade that is
    present. *)
Definition realizedLPFee_fraction (trade : Trade) : Fraction :=
  subtract ONE_HUNDRED_PERCENT
    (reduce (fun (currentFee : Fraction) (_ : W3Pair) (_ : nat) =>
               multiply currentFee INPUT_FRACTION_AFTER_FEE)
            (sdk_pairs trade) ONE_HUNDRED_PERCENT).

Record PriceBreakdown : Type := mkBreakdown {
  priceImpactWithoutFee : option Percent;
  realizedLPFee : option CurrencyAmount
}.

(** The amounts built here stay between 0 and the trade's input amount, so
    the constructors' uint256 validation cannot fail on them. *)
Definition computeTradePriceBreakdown (trade : option Trade)
  : PriceBreakdown :=
  match trade with
  | None => mkBreakdown None None
  | Some trade =>
      let realizedLPFee := realizedLPFee_fraction trade in
      let priceImpactWithoutFeeFraction :=
        subtract (sdk_priceImpact trade) realizedLPFee in
      let priceImpactWithoutFeePercent :=
        mkFraction (numerator priceImpactWithoutFeeFraction)
                   (denominator priceImpactWithoutFeeFraction) in
      let fee :=
        quotient (multiply realizedLPFee
                           (ofInteger (raw (sdk_inputAmount trade)))) in
      let realizedLPFeeAmount :=
        match sdk_inputAmount trade with
        | TokenAmount tok _ => TokenAmount tok fee
        | EtherAmount _ => EtherAmount fee
        end in
      mkBreakdown (Some priceImpactWithoutFeePercent)
                  (Some realizedLPFeeAmount)
  end.

(** *** w3computeTradePriceBreakdown, on decimals *)

Definition W3BASE_FEE : Decimal := div (ofZ 30) (ofZ 10000).
Definition W3ONE_HUNDRED_PERCENT : Decimal := div (ofZ 10000) (ofZ 10000).
Definition W3INPUT_FRACTION_AFTER_FEE : Decimal :=
  sub W3ONE_HUNDRED_PERCENT W3BASE_FEE.

(** The constant [realizedLPFee] of the function body, for a trade that is
    present. *)
Definition w3realizedLPFee (trade : W3Trade) : Decimal :=
  sub W3ONE_HUNDRED_PERCENT
    (reduce (fun (currentFee : Decimal) (_ : W3Pair) (_ : nat) =>
               mul currentFee W3INPUT_FRACTION_AFTER_FEE)
            (pairs (route trade)) W3ONE_HUNDRED_PERCENT).

(** *** warningSeverity *)

Section Severity.

(** The four thresholds of ../constants, which is not among the
    sources. *)
Variables W3ALLOWED_PRICE_IMPACT_LOW W3ALLOWED_PRICE_IMPACT_MEDIUM
          W3ALLOWED_PRICE_IMPACT_HIGH W3BLOCKED_PRICE_IMPACT_NON_EXPERT
  : Decimal.

(** [!priceImpact?.lessThan(t)]: the optional call yields [undefined],
    which negates to [true], when there is no price impact. *)
Definition not_lessThan (priceImpact : option Decimal) (t : Decimal)
  : bool :=
  match priceImpact with
  | None => true
  | Some p => negb (lessThan p t)
  end.

Definition warningSeverity (priceImpact : option Decimal) : Z :=
  if not_lessThan priceImpact W3BLOCKED_PRICE_IMPACT_NON_EXPERT then 4
  else if not_lessThan priceImpact W3ALLOWED_PRICE_IMPACT_HIGH then 3
  else if not_lessThan priceImpact W3ALLOWED_PRICE_IMPACT_MEDIUM then 2
  else if not_lessThan priceImpact W3ALLOWED_PRICE_IMPACT_LOW then 1
  else 0.

End Severity.

End Trades.

(** ** useSwapCallback: the swap-call builder and the gas-estimation
       orchestrator *)

Module SwapCallback.
Import Js DecimalJs Trades.

Inductive Version : Type := v1 | v2.

Inductive SwapCallbackState : Type := INVALID | LOADING | VALID.

(** The options handed to the two encoders. *)
Record W3TradeOptions : Type := mkW3Options {
  feeOnTransfer : bool;
  w3allowedSlippage : Decimal;
  w3recipient : string;
  w3deadline : Z
}.

Record V1TradeOptions : Type := mkV1Options {
  v1allowedSlippage : SdkFraction.Percent;
  v1recipient : string;
  v1deadline : Z
}.

(** What a descriptor's [parameters] field is built from: the promise of
    [w3SwapCallParameters(trade, options)], or [v1SwapArguments] applied to
    the trade mapped back to the SDK. *)
Inductive SwapMethod : Type :=
| W3SwapCallParameters (trade : W3Trade) (options : W3TradeOptions)
| V1SwapArguments (trade : W3Trade) (options : V1TradeOptions).

Record SwapParameters : Type := mkSwapParameters {
  methodName : string;
  args : list string;
  value : string
}.

Section Builder.

Variables Contract Library : Type.

(** Constants of ../constants and the router lookup of ../utils, none of
    them among the sources. *)
Variable INITIAL_ALLOWED_SLIPPAGE : Z.
Variable W3BIPS_BASE : Decimal.
Variable BIPS_BASE : Z.
Variable getRouterContract : Z -> Library -> string -> Contract.

Record SwapCallAsync : Type := mkSwapCallAsync {
  async_parameters : SwapMethod;
  async_contract : Contract
}.

(** What the hook reads from its surroundings. *)
Record BuilderContext : Type := mkBuilderContext {
  account : option string;
  chainId : option Z;
  library : option Library;
  toggledVersion : Version;
  recipientAddress : option string;   (* useENS(...).address *)
  deadline : option Z;                (* useTransactionDeadline() *)
  v1Exchange : option Contract        (* useV1ExchangeContract(...) *)
}.

Definition resolveRecipient (ctx : BuilderContext)
           (recipientAddressOrName : option string) : option string :=
  match recipientAddressOrName with
  | None => account ctx
  | Some _ => recipientAddress ctx
  end.

Definition useSwapCallArguments (ctx : BuilderContext)
           (trade : option W3Trade) (allowedSlippage : option Z)
           (recipientAddressOrName : option string)
  : Result (list SwapCallAsync) :=
  let allowedSlippage :=
    match allowedSlippage with
    | Some s => s
    | None => INITIAL_ALLOWED_SLIPPAGE
    end in
  let recipient := resolveRecipient ctx recipientAddressOrName in
  let tradeVersion := toggledVersion ctx in
  match trade, recipient, library ctx, account ctx, chainId ctx,
        deadline ctx with
  | Some trade, Some recipient, Some library, Some account, Some chainId,
    Some deadline =>
      if negb (truthy_string recipient) || negb (truthy_string account)
         || negb (truthy_number chainId)
      then Ok []
      else
        let contract : option Contract :=
          match tradeVersion with
          | v2 => Some (getRouterContract chainId library account)
          | v1 => v1Exchange ctx
          end in
        match contract with
        | None => Ok []
        | Some contract =>
            bind
              (match tradeVersion with
               | v2 =>
                   bind (toNumber deadline) (fun d =>
                     let standard :=
                       W3SwapCallParameters trade
                         (mkW3Options false
                            (div (ofZ allowedSlippage) W3BIPS_BASE)
                            recipient d) in
                     if W3TradeType_eqb (tradeType trade) EXACT_INPUT
                     then
                       bind (toNumber deadline) (fun d' =>
                         Ok [standard;
                             W3SwapCallParameters trade
                               (mkW3Options true
                                  (div (ofZ allowedSlippage) W3BIPS_BASE)
                                  recipient d')])
                     else Ok [standard])
               | v1 =>
                   bind (toNumber deadline) (fun d =>
                     Ok [V1SwapArguments trade
                           (mkV1Options
                              (SdkFraction.mkFraction allowedSlippage
                                                      BIPS_BASE)
                              recipient d)])
               end)
              (fun swapMethods =>
                 Ok (map (fun parameters =>
                            mkSwapCallAsync parameters contract)
                         swapMethods))
        end
  | _, _, _, _, _, _ => Ok []
  end.

(** The memo of [useSwapCallback], up to the callback it returns: the state
    and the error message. *)
Definition useSwapCallbackState (ctx : BuilderContext)
           (trade : option W3Trade) (recipientAddressOrName : option string)
  : SwapCallbackState * option string :=
  let recipient := resolveRecipient ctx recipientAddressOrName in
  if negb (is_some trade) || negb (is_some (library ctx))
     || negb (present truthy_string (account ctx))
     || negb (present truthy_number (chainId ctx))
  then (INVALID, Some "Missing dependencies"%string)
  else if negb (present truthy_string recipient)
  then
    if is_some recipientAddressOrName
    then (INVALID, Some "Invalid recipient"%string)
    else (LOADING, None)
  else (VALID, None).

Definition isFeeOnTransfer (c : SwapCallAsync) : bool :=
  match async_parameters c with
  | W3SwapCallParameters _ o => feeOnTransfer o
  | V1SwapArguments _ _ => false
  end.

End Builder.

(** *** Estimation and selection inside [onSwap] *)

Section Orchestrator.

Variable Contract : Type.

Record SwapCall : Type := mkSwapCall {
  contract : Contract;
  parameters : SwapParameters
}.

Inductive EstimatedSwapCall : Type :=
| SuccessfulCall (call : SwapCall) (gasEstimate : Z)
| FailedCall (call : SwapCall) (error : string).

(** The provider: [contract.estimateGas[methodName](...args, options)]
    resolves with an estimate or rejects; [contract.callStatic[...]]
    resolves or rejects with an error whose [reason] may be undefined. *)
Inductive StaticOutcome : Type :=
| StaticResolved
| StaticRejected (reason : option string).

Variable estimateGas : SwapCall -> option Z.
Variable callStatic : SwapCall -> StaticOutcome.

Definition slippageMessage : string :=
  "This transaction will not succeed either due to price movement or fee on transfer. Try increasing your slippage tolerance.".

Definition errorMessage (reason : option string) : string :=
  match reason with
  | Some "UniswapV2Router: INSUFFICIENT_OUTPUT_AMOUNT"%string
  | Some "UniswapV2Router: EXCESSIVE_INPUT_AMOUNT"%string =>
      slippageMessage
  | _ =>
      ("The transaction cannot succeed due to error: "
         ++ match reason with Some r => r | None => "undefined" end
         ++ ". This is probably an issue with one of the tokens you are swapping.")%string
  end.

Definition estimate (call : SwapCall) : EstimatedSwapCall :=
  match estimateGas call with
  | Some gasEstimate => SuccessfulCall call gasEstimate
  | None =>
      match callStatic call with
      | StaticResolved =>
          FailedCall call
            "Unexpected issue with estimating the gas. Please try again."
      | StaticRejected reason => FailedCall call (errorMessage reason)
      end
  end.

(** ['gasEstimate' in el] and ['error' in call]. *)
Definition hasGasEstimate (el : EstimatedSwapCall) : bool :=
  match el with SuccessfulCall _ _ => true | FailedCall _ _ => false end.

Definition hasError (el : EstimatedSwapCall) : bool :=
  match el with SuccessfulCall _ _ => false | FailedCall _ _ => true end.

(** The callback given to [find].  [lst[ix + 1]] is only read when [ix]
    is not the last index, so it is never undefined. *)
Definition isSuccessfulEstimation (el : EstimatedSwapCall) (ix : nat)
           (lst : list EstimatedSwapCall) : bool :=
  hasGasEstimate el
  && ((ix =? List.length lst - 1)%nat
      || match nth_error lst (ix + 1) with
         | Some next => hasGasEstimate next
         | None => false
         end).

Definition noneThrew : string :=
  "Unexpected error. Please contact support: none of the calls threw an error".

(** From the estimated calls to the call that is sent, or the error that
    is thrown instead. *)
Definition selectEstimation (estimatedCalls : list EstimatedSwapCall)
  : Result EstimatedSwapCall :=
  match find isSuccessfulEstimation estimatedCalls with
  | Some successfulEstimation => Ok successfulEstimation
  | None =>
      let errorCalls := filter hasError estimatedCalls in
      if (0 <? List.length errorCalls)%nat then
        match nth_error errorCalls (List.length errorCalls - 1) with
        | Some (FailedCall _ error) => Throw error
        | _ => Throw noneThrew
        end
      else Throw noneThrew
  end.

(** [onSwap] up to the choice of the call: every candidate is estimated,
    then one is selected. *)
Definition estimateAndSelect (swapCalls : list SwapCall)
  : Result EstimatedSwapCall :=
  selectEstimation (map estimate swapCalls).

End Orchestrator.

End SwapCallback.

(** ** The SDK core's currencies and amounts *)

Module SdkCore.

(** A currency is the chain's native asset or a token at an address. *)
Inductive Currency : Type :=
| NativeCurrency (chainId : Z)
| Token (chainId : Z) (address : string).

(** [Currency.equals]: native against native of the same chain, token
    against token of the same chain and address. *)
Definition equals (a b : Currency) : bool :=
  match a, b with
  | NativeCurrency ca, NativeCurrency cb => ca =? cb
  | Token ca aa, Token cb ab => (ca =? cb) && String.eqb aa ab
  | _, _ => false
  end.

Record CurrencyAmount : Type := mkCurrencyAmount {
  currency : Currency;
  quotient : Z
}.

Definition fromRawAmount (c : Currency) (rawAmount : Z) : CurrencyAmount :=
  mkCurrencyAmount c rawAmount.

Inductive TradeType : Type := EXACT_INPUT | EXACT_OUTPUT.

End SdkCore.

(** ** useERC20Permit *)

Module ERC20Permit.
Import Js SdkCore.

Inductive PermitType : Type := AMOUNT | ALLOWED.

Definition PERMIT_VALIDITY_BUFFER : Z := 20 * 60.

Record PermitInfo : Type := mkPermitInfo {
  type : PermitType;
  name : string;
  version : option string
}.

Inductive UseERC20PermitState : Type :=
| NOT_APPLICABLE | LOADING | NOT_SIGNED | SIGNED.

(** [StandardSignatureData] carries [amount], the decimal rendering of an
    integer; [AllowedSignatureData] carries [allowed: true]. *)
Inductive SignedValue : Type :=
| Amount (amount : Z)
| Allowed.

Record SignatureData : Type := mkSignatureData {
  v : Z;
  r : string;
  s : string;
  sig_deadline : Z;
  nonce : Z;
  owner : string;
  sig_spender : string;
  sig_chainId : Z;
  sig_tokenAddress : string;
  permitType : PermitType;
  signedValue : SignedValue
}.

(** [useSingleCallResult(eip2612Contract, 'nonces', [account])]; [result0]
    is [result?.[0]], a BigNumber when it is there. *)
Record CallState : Type := mkCallState {
  valid : bool;
  loading : bool;
  result0 : option Z
}.

Section Hook.

Variables Provider Contract : Type.

(** The allow-list: its keys are addresses of ../constants/tokens, which
    is not among the sources. *)
Variable PERMITTABLE_TOKENS : Z -> string -> option PermitInfo.

(** What the hook reads from its surroundings, and its own state. *)
Record HookContext : Type := mkHookContext {
  account : option string;
  chainId : option Z;
  provider : option Provider;
  isArgentWallet : bool;
  eip2612Contract : option Contract;
  tokenNonceState : CallState;
  signatureData : option SignatureData
}.

Record PermitResult : Type := mkPermitResult {
  out_signatureData : option SignatureData;
  state : UseERC20PermitState;
  (** [gatherPermitSignature], as the record it stores for the signature
      [(v, r, s)] the wallet returns. *)
  gatherPermitSignature : option (Z -> string -> string -> Result SignatureData)
}.

Definition tokenAddress (currencyAmount : option CurrencyAmount)
  : option string :=
  match currencyAmount with
  | Some a =>
      match currency a with
      | Token _ address => Some address
      | NativeCurrency _ => None
      end
  | None => None
  end.

Definition permitInfo (ctx : HookContext)
           (currencyAmount : option CurrencyAmount)
           (overridePermitInfo : option PermitInfo) : option PermitInfo :=
  match overridePermitInfo with
  | Some info => Some info
  | None =>
      match chainId ctx, tokenAddress currencyAmount with
      | Some chainId, Some tokenAddress =>
          if truthy_number chainId && truthy_string tokenAddress
          then PERMITTABLE_TOKENS chainId tokenAddress
          else None
      | _, _ => None
      end
  end.

(** The first test of the memo: when it holds the permit flow does not
    apply. *)
Definition notApplicable (ctx : HookContext)
           (currencyAmount : option CurrencyAmount)
           (spender : option string) (transactionDeadline : option Z)
           (overridePermitInfo : option PermitInfo) : bool :=
  isArgentWallet ctx
  || negb (is_some currencyAmount)
  || negb (is_some (eip2612Contract ctx))
  || negb (present truthy_string (account ctx))
  || negb (present truthy_number (chainId ctx))
  || negb (is_some transactionDeadline)
  || negb (is_some (provider ctx))
  || negb (valid (tokenNonceState ctx))
  || negb (present truthy_string (tokenAddress currencyAmount))
  || negb (present truthy_string spender)
  || negb (is_some (permitInfo ctx currencyAmount overridePermitInfo)).

(** The chain of [&&] that computes [isSignatureDataValid]; the
    transaction deadline is converted only once the owner matched. *)
Definition isSignatureDataValid (signatureData : option SignatureData)
           (account tokenAddress spender : string)
           (transactionDeadline nonceNumber : Z)
           (currencyAmount : CurrencyAmount) : Result bool :=
  match signatureData with
  | None => Ok false
  | Some signatureData =>
      if negb (String.eqb (owner signatureData) account) then Ok false
      else
        bind (toNumber transactionDeadline) (fun deadlineNumber =>
          Ok ((deadlineNumber <=? sig_deadline signatureData)
              && String.eqb (sig_tokenAddress signatureData) tokenAddress
              && (nonce signatureData =? nonceNumber)
              && String.eqb (sig_spender signatureData) spender
              && match signedValue signatureData with
                 | Allowed => true
                 | Amount amount => amount =? quotient currencyAmount
                 end))
  end.

Definition gather (info : PermitInfo) (account spender tokenAddress : string)
           (chainId transactionDeadline nonceNumber : Z)
           (currencyAmount : CurrencyAmount)
           (sig_v : Z) (sig_r sig_s : string) : Result SignatureData :=
  let allowed :=
    match type info with ALLOWED => true | AMOUNT => false end in
  bind (toNumber transactionDeadline) (fun deadlineNumber =>
    let signatureDeadline := deadlineNumber + PERMIT_VALIDITY_BUFFER in
    let value := quotient currencyAmount in
    Ok (mkSignatureData sig_v sig_r sig_s signatureDeadline nonceNumber
          account spender chainId tokenAddress (type info)
          (if allowed then Allowed else Amount value))).

Definition useERC20Permit (ctx : HookContext)
           (currencyAmount : option CurrencyAmount)
           (spender : option string) (transactionDeadline : option Z)
           (overridePermitInfo : option PermitInfo) : Result PermitResult :=
  if notApplicable ctx currencyAmount spender transactionDeadline
                   overridePermitInfo
  then Ok (mkPermitResult None NOT_APPLICABLE None)
  else
    match currencyAmount, account ctx, chainId ctx, transactionDeadline,
          tokenAddress currencyAmount, spender,
          permitInfo ctx currencyAmount overridePermitInfo with
    | Some amount, Some account, Some chainId, Some transactionDeadline,
      Some tokenAddress, Some spender, Some info =>
        bind (match result0 (tokenNonceState ctx) with
              | Some n => bind (toNumber n) (fun k => Ok (Some k))
              | None => Ok None
              end)
             (fun nonceNumber =>
                match nonceNumber with
                | Some nonceNumber =>
                    if loading (tokenNonceState ctx)
                    then Ok (mkPermitResult None LOADING None)
                    else
                      bind (isSignatureDataValid (signatureData ctx) account
                              tokenAddress spender transactionDeadline
                              nonceNumber amount)
                           (fun isValid =>
                              Ok (mkPermitResult
                                    (if isValid then signatureData ctx
                                     else None)
                                    (if isValid then SIGNED else NOT_SIGNED)
                                    (Some (gather info account spender
                                             tokenAddress chainId
                                             transactionDeadline nonceNumber
                                             amount))))
                | None => Ok (mkPermitResult None LOADING None)
                end)
    | _, _, _, _, _, _, _ => Ok (mkPermitResult None NOT_APPLICABLE None)
    end.

End Hook.

End ERC20Permit.

(** ** useClientSideV3Trade *)

Module ClientSideV3Trade.
Import Js SdkCore.

Inductive TradeState : Type :=
| LOADING | INVALID | NO_ROUTE_FOUND | VALID | SYNCING.

(** The decoded answer of the quoter contract for one call. *)
Record QuoteResult : Type := mkQuoteResult {
  res_amountIn : option Z;
  res_amountOut : option Z
}.

(** One entry of [useSingleContractWithCallData]. *)
Record CallState : Type := mkCallState {
  valid : bool;
  loading : bool;
  result : option QuoteResult
}.

Section Hook.

(** The wrapper's routes and trades, and the two endpoint tests made on
    the best route: [bestRoute.input] is there and, mapped back and
    wrapped, equals the wrapped currency of the amount (likewise for
    [bestRoute.output]). *)
Variables Uni_Route Uni_Trade : Type.
Variable inputMatches : Uni_Route -> Currency -> bool.
Variable outputMatches : Uni_Route -> Currency -> bool.

Record TradeResult : Type := mkTradeResult {
  state : TradeState;
  trade : option Uni_Trade
}.

(** What one run of the second effect does: it stores a result, leaves
    the stored result as it is, or asks the wrapper for the trade. *)
Inductive Effect : Type :=
| SetResult (r : TradeResult)
| NoUpdate
| CreateUncheckedTrade (route : Uni_Route)
    (inputAmount outputAmount : CurrencyAmount) (tradeType : TradeType).

Record Best : Type := mkBest {
  bestRoute : option Uni_Route;
  amountIn : option CurrencyAmount;
  amountOut : option CurrencyAmount
}.

Definition initialBest : Best := mkBest None None None.

(** The callback given to [quotesResults.reduce]. *)
Definition pickBetter (tradeType : TradeType)
           (amountSpecified : CurrencyAmount)
           (currencyIn currencyOut : Currency) (routes : list Uni_Route)
           (currentBest : Best) (q : CallState) (i : nat) : Best :=
  match result q with
  | None => currentBest
  | Some result =>
      match tradeType with
      | EXACT_INPUT =>
          match res_amountOut result with
          | None => currentBest
          | Some amountOutStr =>
              let quoted := fromRawAmount currencyOut amountOutStr in
              if match amountOut currentBest with
                 | None => true
                 | Some best => quotient best <? quotient quoted
                 end
              then mkBest (nth_error routes i) (Some amountSpecified)
                          (Some quoted)
              else currentBest
          end
      | EXACT_OUTPUT =>
          match res_amountIn result with
          | None => currentBest
          | Some amountInStr =>
              let quoted := fromRawAmount currencyIn amountInStr in
              if match amountIn currentBest with
                 | None => true
                 | Some best => quotient best >? quotient quoted
                 end
              then mkBest (nth_error routes i) (Some quoted)
                          (Some amountSpecified)
              else currentBest
          end
      end
  end.

Definition bestQuote (tradeType : TradeType)
           (amountSpecified : CurrencyAmount)
           (currencyIn currencyOut : Currency) (routes : list Uni_Route)
           (quotesResults : list CallState) : Best :=
  reduce (pickBetter tradeType amountSpecified currencyIn currencyOut routes)
         quotesResults initialBest.

(** [currencyIn] and [currencyOut], from the side the amount is on. *)
Definition endpoints (tradeType : TradeType)
           (amountSpecified : option CurrencyAmount)
           (otherCurrency : option Currency)
  : option Currency * option Currency :=
  match tradeType with
  | EXACT_INPUT => (option_map currency amountSpecified, otherCurrency)
  | EXACT_OUTPUT => (otherCurrency, option_map currency amountSpecified)
  end.

(** The body of the second effect, up to the request for the trade. *)
Definition deriveTrade (tradeType : TradeType)
           (amountSpecified : option CurrencyAmount)
           (otherCurrency : option Currency)
           (routes : list Uni_Route) (routesLoading : bool)
           (quotesResults : list CallState) : Effect :=
  let (currencyIn, currencyOut) :=
    endpoints tradeType amountSpecified otherCurrency in
  match amountSpecified, currencyIn, currencyOut with
  | Some amountSpecified, Some currencyIn, Some currencyOut =>
      if existsb (fun q => negb (valid q)) quotesResults
         || match tradeType with
            | EXACT_INPUT => equals (currency amountSpecified) currencyOut
            | EXACT_OUTPUT => equals (currency amountSpecified) currencyIn
            end
      then SetResult (mkTradeResult INVALID None)
      else if routesLoading || existsb loading quotesResults
      then SetResult (mkTradeResult LOADING None)
      else
        let best := bestQuote tradeType amountSpecified currencyIn
                              currencyOut routes quotesResults in
        match bestRoute best, amountIn best, amountOut best with
        | Some bestRoute, Some amountIn, Some amountOut =>
            if negb (inputMatches bestRoute (currency amountIn))
            then NoUpdate
            else if negb (outputMatches bestRoute (currency amountOut))
            then NoUpdate
            else CreateUncheckedTrade bestRoute amountIn amountOut tradeType
        | _, _, _ => SetResult (mkTradeResult NO_ROUTE_FOUND None)
        end
  | _, _, _ => SetResult (mkTradeResult INVALID None)
  end.

(** When the wrapper answers: a cancelled promise and an error leave the
    stored result alone, a trade is stored as VALID. *)
Definition settleTrade (invoke : option (Result Uni_Trade)) : Effect :=
  match invoke with
  | None => NoUpdate
  | Some (Throw _) => NoUpdate
  | Some (Ok data) => SetResult (mkTradeResult VALID (Some data))
  end.

End Hook.

End ClientSideV3Trade.

(** ** The selection rule of the orchestrator, stated on the list of
       outcomes *)

Module SelectionRule.
Import Js SwapCallback.

Section Rule.

Variable Contract : Type.

(** The candidate at index [i] succeeded gas estimation. *)
Definition succeeded (l : list (EstimatedSwapCall Contract)) (i : nat)
  : Prop :=
  exists call gasEstimate,
    nth_error l i = Some (SuccessfulCall Contract call gasEstimate).

(** It succeeded, and it is the last candidate or the candidate right
    after it succeeded too. *)
Definition qualifies (l : list (EstimatedSwapCall Contract)) (i : nat)
  : Prop :=
  succeeded l i /\ (S i = List.length l \/ succeeded l (S i)).

(** The error of the last candidate that failed, if one failed. *)
Fixpoint lastError (l : list (EstimatedSwapCall Contract))
  : option string :=
  match l with
  | [] => None
  | el :: tl =>
      match lastError tl with
      | Some e => Some e
      | None =>
          match el with
          | FailedCall _ _ e => Some e
          | SuccessfulCall _ _ _ => None
          end
      end
  end.

End Rule.

End SelectionRule.

(** ** When a stored permit signature matches the current context *)

Module PermitRule.
Import SdkCore ERC20Permit.

Definition matchesContext (sig : SignatureData)
           (account tokenAddress spender : string)
           (transactionDeadline nonceNumber : Z) (amount : CurrencyAmount)
  : Prop :=
  owner sig = account
  /\ sig_tokenAddress sig = tokenAddress
  /\ sig_spender sig = spender
  /\ nonce sig = nonceNumber
  /\ transactionDeadline <= sig_deadline sig
  /\ match signedValue sig with
     | Amount signed => signed = quotient amount
     | Allowed => True
     end.

End PermitRule.

(** ** The order in which quotes are compared *)

Module RouteRule.
Import SdkCore ClientSideV3Trade.

(** The amount a quote carries for the trade type: the output amount of an
    exact-input quote, the input amount of an exact-output quote. *)
Definition quoted (tradeType : TradeType) (q : CallState) : option Z :=
  match result q with
  | None => None
  | Some r =>
      match tradeType with
      | EXACT_INPUT => res_amountOut r
      | EXACT_OUTPUT => res_amountIn r
      end
  end.

(** [a] is at least as good as [b]: no smaller output, no larger input. *)
Definition noWorse (tradeType : TradeType) (a b : Z) : Prop :=
  match tradeType with
  | EXACT_INPUT => b <= a
  | EXACT_OUTPUT => a <= b
  end.

Definition strictlyBetter (tradeType : TradeType) (a b : Z) : Prop :=
  match tradeType with
  | EXACT_INPUT => b < a
  | EXACT_OUTPUT => a < b
  end.

(** The input and output amounts of the trade built from a quote [a]. *)
Definition tradeAmounts (tradeType : TradeType)
           (amountSpecified : CurrencyAmount) (otherCurrency : Currency)
           (a : Z) : CurrencyAmount * CurrencyAmount :=
  match tradeType with
  | EXACT_INPUT => (amountSpecified, fromRawAmount otherCurrency a)
  | EXACT_OUTPUT => (fromRawAmount otherCurrency a, amountSpecified)
  end.

Section Accumulator.

Variable Uni_Route : Type.
Variable tradeType : TradeType.
Variable amountSpecified : CurrencyAmount.
Variables currencyIn currencyOut : Currency.
Variable routes : list Uni_Route.

(** The accumulator after the quote [a] of the route at index [i] was
    taken. *)
Definition taken (a : Z) (i : nat) : Best Uni_Route :=
  match tradeType with
  | EXACT_INPUT =>
      mkBest Uni_Route (nth_error routes i) (Some amountSpecified)
             (Some (fromRawAmount currencyOut a))
  | EXACT_OUTPUT =>
      mkBest Uni_Route (nth_error routes i)
             (Some (fromRawAmount currencyIn a)) (Some amountSpecified)
  end.

(** What the accumulator holds after the quotes [seen]: nothing when
    none of them carries an amount, and otherwise the first of the best
    amounts. *)
Definition summarizes (seen : list CallState) (acc : Best Uni_Route)
  : Prop :=
  ((forall j q, nth_error seen j = Some q -> quoted tradeType q = None)
   /\ acc = initialBest Uni_Route)
  \/ exists i q a,
      nth_error seen i = Some q
      /\ quoted tradeType q = Some a
      /\ acc = taken a i
      /\ (forall j q' b, nth_error seen j = Some q' ->
                         quoted tradeType q' = Some b ->
                         noWorse tradeType a b)
      /\ (forall j q' b, (j < i)%nat -> nth_error seen j = Some q' ->
                         quoted tradeType q' = Some b ->
                         strictlyBetter tradeType a b).

End Accumulator.

End RouteRule.

(** ** Concrete trades, thresholds and calls used to evaluate the functions *)

Module Samples.
Import Js DecimalJs Trades.

Definition DAI : W3Token :=
  mkToken 1 "0x6B175474E89094C44Da98b954EedeAC495271d0F"
          (mkCurrency 18 (Some "DAI"%string) (Some "Dai Stablecoin"%string)).
Definition USDC : W3Token :=
  mkToken 1 "0xA0b86991c6218b36c1d19D4a2e9Eb0cE3606eB48"
          (mkCurrency 6 (Some "USDC"%string) (Some "USD Coin"%string)).
Definition WETH : W3Token :=
  mkToken 1 "0xC02aaA39b223FE8D0A0e5C4F27eAD9083C756Cc2"
          (mkCurrency 18 (Some "WETH"%string) (Some "Wrapped Ether"%string)).

Definition pool (a b : W3Token) : W3Pair :=
  mkPair (mkTokenAmount a 1000000) (mkTokenAmount b 1000000).

Definition swap (tt : W3TradeType) (hops : list W3Pair)
           (tin : W3Token) (ain : Z) (tout : W3Token) (aout : Z) : W3Trade :=
  mkTrade (mkRoute hops [tin; tout]) (mkTokenAmount tin ain)
          (mkTokenAmount tout aout) tt.

(** An execution-price oracle: output amount over input amount. *)
Definition outputPerInput (t : W3Trade) : Result Decimal :=
  Ok (div (ofZ (amount (outputAmount t))) (ofZ (amount (inputAmount t)))).

(** DAI to USDC at a price of 1, and at a price of 2. *)
Definition daiUsdcAt1 : W3Trade :=
  swap EXACT_INPUT [pool DAI USDC] DAI 1000 USDC 1000.
Definition daiUsdcAt2 : W3Trade :=
  swap EXACT_INPUT [pool DAI USDC] DAI 1000 USDC 2000.
(** DAI to WETH: the same input currency, another output currency. *)
Definition daiWeth : W3Trade :=
  swap EXACT_INPUT [pool DAI WETH] DAI 1000 WETH 2.
Definition daiUsdcExactOut : W3Trade :=
  swap EXACT_OUTPUT [pool DAI USDC] DAI 1000 USDC 1000.

(** Routes of two and of seven hops. *)
Definition twoHops : W3Trade :=
  swap EXACT_INPUT [pool DAI WETH; pool WETH USDC] DAI 1000 USDC 990.
Definition sevenHops : W3Trade :=
  swap EXACT_INPUT (repeat (pool DAI WETH) 7) DAI 1000 USDC 970.
Definition twoHopsSdk : Trade :=
  mkSdkTrade [pool DAI WETH; pool WETH USDC] (TokenAmount DAI 1000000)
             (SdkFraction.mkFraction 1 100).

(** Price-impact thresholds of 1%, 3%, 5% and 15%. *)
Definition LOW : Decimal := DFin 1 (-2).
Definition MEDIUM : Decimal := DFin 3 (-2).
Definition HIGH : Decimal := DFin 5 (-2).
Definition BLOCKED : Decimal := DFin 15 (-2).

(** A builder context with every input present, for the v1 exchange and
    for the v2 router; contracts are named by strings. *)
Definition builderContext (version : SwapCallback.Version)
  : SwapCallback.BuilderContext string unit :=
  SwapCallback.mkBuilderContext string unit
    (Some "0xd8dA6BF26964aF9D7eEd9e03E53415D37aA96045"%string) (Some 1)
    (Some tt) version None (Some 1700000000) (Some "v1Exchange"%string).

Definition routerContract (_ : Z) (_ : unit) (_ : string) : string :=
  "router"%string.

(** Two swap calls on the router. *)
Definition callA : SwapCallback.SwapCall string :=
  SwapCallback.mkSwapCall string "router"%string
    (SwapCallback.mkSwapParameters "swapExactTokensForTokens"%string []
                                   "0x0"%string).
Definition callB : SwapCallback.SwapCall string :=
  SwapCallback.mkSwapCall string "router"%string
    (SwapCallback.mkSwapParameters
       "swapExactTokensForTokensSupportingFeeOnTransferTokens"%string []
       "0x0"%string).

(** A permit context for 1000 units of USDC approved to a router, with a
    stored signature over exactly that. *)
Definition holder : string := "0xd8dA6BF26964aF9D7eEd9e03E53415D37aA96045".
Definition usdcAddress : string :=
  "0xA0b86991c6218b36c1d19D4a2e9Eb0cE3606eB48".
Definition routerAddress : string :=
  "0xE592427A0AEce92De3Edee1F18E0157C05861564".

Definition usdcAmount (q : Z) : SdkCore.CurrencyAmount :=
  SdkCore.mkCurrencyAmount (SdkCore.Token 1 usdcAddress) q.

Definition permitTable (chain : Z) (tokenAddress : string)
  : option ERC20Permit.PermitInfo :=
  if (chain =? 1) && String.eqb tokenAddress usdcAddress
  then Some (ERC20Permit.mkPermitInfo ERC20Permit.AMOUNT "USD Coin"
                                      (Some "2"%string))
  else None.

Definition storedSignature : ERC20Permit.SignatureData :=
  ERC20Permit.mkSignatureData 27 "0x1" "0x2" 1700001200 7 holder
    routerAddress 1 usdcAddress ERC20Permit.AMOUNT (ERC20Permit.Amount 1000).

Definition permitContext : ERC20Permit.HookContext unit unit :=
  ERC20Permit.mkHookContext unit unit (Some holder) (Some 1) (Some tt) false
    (Some tt) (ERC20Permit.mkCallState true false (Some 7))
    (Some storedSignature).

(** Three quotes of an exact-input swap: 90, 100 and again 100 out; routes
    are named by strings. *)
Definition quote (amountOut : Z) : ClientSideV3Trade.CallState :=
  ClientSideV3Trade.mkCallState true false
    (Some (ClientSideV3Trade.mkQuoteResult None (Some amountOut))).

Definition threeQuotes : list ClientSideV3Trade.CallState :=
  [quote 90; quote 100; quote 100].

Definition threeRoutes : list string :=
  ["direct"%string; "viaWETH"%string; "viaDAI"%string].

Definition anyRoute (_ : string) (_ : SdkCore.Currency) : bool := true.

End Samples.

(** ** Promises awaited together *)

Module Promises.
Import Js.

(** [Promise.all] over a mapped list: the results in order, or a
    rejection (when several promises reject, the first in list order is
    the one kept here). *)
Fixpoint awaitAll {A B} (f : A -> Result B) (l : list A) : Result (list B) :=
  match l with
  | [] => Ok []
  | x :: tl =>
      bind (f x) (fun y => bind (awaitAll f tl) (fun ys => Ok (y :: ys)))
  end.

End Promises.

(** ** onSwap: from the candidates to the transaction *)

Module SwapSubmission.
Import Js Promises Trades SwapCallback.

Section OnSwap.

Variables Contract Library : Type.

(** The two encoders and the helpers of ../utils, none of them among the
    sources.  [w3SwapCallParameters] returns a promise, which may
    reject. *)
Variable w3SwapCallParameters :
  W3Trade -> W3TradeOptions -> Result SwapParameters.
Variable v1SwapArguments : W3Trade -> V1TradeOptions -> SwapParameters.
Variable isZero : string -> bool.
Variable calculateGasMargin : Z -> Z.

(** The provider. *)
Variable estimateGas : SwapCall Contract -> option Z.
Variable callStatic : SwapCall Contract -> StaticOutcome.

(** The options of the transaction that is sent. *)
Record SendOptions : Type := mkSendOptions {
  gasLimit : Z;
  sentValue : option string;
  from : string
}.

(** [contract[methodName](...args, options)] resolves with a response, of
    which the hash is returned, or rejects with an error. *)
Inductive SendOutcome : Type :=
| Sent (hash : string)
| SendRejected (code : option Z) (message : option string).

Variable send : SwapCall Contract -> SendOptions -> SendOutcome.

(** What follows a response: the summary is formatted and the transaction
    registered with [addTransaction]; an error thrown there reaches the
    same [catch] as a rejection of the wallet. *)
Variable registerTransaction :
  string -> option (option Z * option string).

(** [await callAsync.parameters] when the parameters are a promise. *)
Definition awaitParameters (callAsync : SwapCallAsync Contract)
  : Result (SwapCall Contract) :=
  match async_parameters Contract callAsync with
  | W3SwapCallParameters trade options =>
      bind (w3SwapCallParameters trade options) (fun parameters =>
        Ok (mkSwapCall Contract (async_contract Contract callAsync)
                       parameters))
  | V1SwapArguments trade options =>
      Ok (mkSwapCall Contract (async_contract Contract callAsync)
                     (v1SwapArguments trade options))
  end.

Definition rejectionMessage (code : option Z) (message : option string)
  : string :=
  match code with
  | Some 4001 => "Transaction rejected."
  | _ =>
      ("Swap failed: "
         ++ match message with Some m => m | None => "undefined" end)%string
  end.

(** The callback [onSwap]: what it resolves with, the hash of the
    transaction, or the error it rejects with. *)
Definition onSwap (account : string)
           (swapCalls : list (SwapCallAsync Contract)) : Result string :=
  bind (awaitAll awaitParameters swapCalls) (fun calls =>
  bind (selectEstimation Contract
          (map (estimate Contract estimateGas callStatic) calls))
       (fun successfulEstimation =>
          match successfulEstimation with
          | SuccessfulCall _ call gasEstimate =>
              let value := value (parameters Contract call) in
              match send call
                         (mkSendOptions
                            (calculateGasMargin gasEstimate)
                            (if truthy_string value && negb (isZero value)
                             then Some value else None)
                            account) with
              | Sent hash =>
                  match registerTransaction hash with
                  | None => Ok hash
                  | Some (code, message) =>
                      Throw (rejectionMessage code message)
                  end
              | SendRejected code message =>
                  Throw (rejectionMessage code message)
              end
          | FailedCall _ call error =>
              (* not reached: [find] returns entries with a gas estimate *)
              Throw error
          end)).

(** The constants and the router lookup the builder needs. *)
Variable INITIAL_ALLOWED_SLIPPAGE : Z.
Variable W3BIPS_BASE : DecimalJs.Decimal.
Variable BIPS_BASE : Z.
Variable getRouterContract : Z -> Library -> string -> Contract.

Record SwapCallbackResult : Type := mkSwapCallbackResult {
  state : SwapCallbackState;
  callback : option (Result string);   (* the outcome of calling it *)
  error : option string
}.

(** The hook: the candidates are built during the render, then the memo
    decides the state and whether there is a callback. *)
Definition useSwapCallback (ctx : BuilderContext Contract Library)
           (trade : option W3Trade) (allowedSlippage : option Z)
           (recipientAddressOrName : option string)
  : Result SwapCallbackResult :=
  bind (useSwapCallArguments Contract Library INITIAL_ALLOWED_SLIPPAGE
                             W3BIPS_BASE BIPS_BASE getRouterContract ctx
                             trade allowedSlippage recipientAddressOrName)
       (fun swapCalls =>
          match useSwapCallbackState Contract Library ctx trade
                                     recipientAddressOrName with
          | (VALID, error) =>
              Ok (mkSwapCallbackResult
                    VALID
                    (Some (onSwap
                             (match account Contract Library ctx with
                              | Some a => a
                              | None => EmptyString
                              end)
                             swapCalls))
                    error)
          | (state, error) => Ok (mkSwapCallbackResult state None error)
          end).

End OnSwap.

End SwapSubmission.

(** ** useERC20Permit across renders, and useERC20PermitFromTrade *)

Module ERC20PermitFromTrade.
Import Js SdkCore ERC20Permit.

Section FromTrade.

Variables Provider Contract : Type.
Variable PERMITTABLE_TOKENS : Z -> string -> option PermitInfo.

(** [setSignatureData(...)]: the next render reads the stored record. *)
Definition setSignatureData (ctx : HookContext Provider Contract)
           (sig : SignatureData) : HookContext Provider Contract :=
  mkHookContext Provider Contract
    (account Provider Contract ctx) (chainId Provider Contract ctx)
    (provider Provider Contract ctx) (isArgentWallet Provider Contract ctx)
    (eip2612Contract Provider Contract ctx)
    (tokenNonceState Provider Contract ctx) (Some sig).

(** The router address tables of ../constants/addresses and the type
    guard [isTrade] of ../polywrap-utils, none of them among the sources;
    the trades of the two SDKs and of the wrapper are kept abstract. *)
Variables V3_ROUTER_ADDRESS SWAP_ROUTER_ADDRESSES : Z -> option string.
Variables V2Trade RouterTrade PolyTrade : Type.
Variable isTradeUndefined : bool.   (* isTrade(undefined) *)

(** The three members of the union the hook accepts. *)
Inductive AnyTrade : Type :=
| IsV2Trade (t : V2Trade)
| IsPolyTrade (t : PolyTrade)
| IsRouterTrade (t : RouterTrade).

Definition swapRouterAddress (chainId : option Z) (trade : option AnyTrade)
  : option string :=
  if present truthy_number chainId
  then
    match chainId with
    | Some chainId =>
        match trade with
        | Some (IsV2Trade _) => None
        | Some (IsPolyTrade _) => V3_ROUTER_ADDRESS chainId
        | Some (IsRouterTrade _) => SWAP_ROUTER_ADDRESSES chainId
        | None =>
            if isTradeUndefined then V3_ROUTER_ADDRESS chainId
            else SWAP_ROUTER_ADDRESSES chainId
        end
    | None => None
    end
  else None.

(** [trade.maximumAmountIn(allowedSlippage)] on the SDK trades, and what
    the promise of the wrapper's [tradeMaximumAmountIn] leads to: no
    update when it was cancelled or failed, and otherwise the amount of
    its answer mapped back, which may be undefined. *)
Variable Percent : Type.
Variable v2MaximumAmountIn : V2Trade -> Percent -> CurrencyAmount.
Variable routerMaximumAmountIn : RouterTrade -> Percent -> CurrencyAmount.
Variable tradeMaximumAmountIn :
  PolyTrade -> Percent -> option (option CurrencyAmount).

(** The effect that keeps [amountToApprove]: the state after it ran. *)
Definition amountToApproveEffect (trade : option AnyTrade)
           (allowedSlippage : Percent)
           (amountToApprove : option CurrencyAmount)
  : option CurrencyAmount :=
  match trade with
  | None => None
  | Some (IsV2Trade t) => Some (v2MaximumAmountIn t allowedSlippage)
  | Some (IsRouterTrade t) => Some (routerMaximumAmountIn t allowedSlippage)
  | Some (IsPolyTrade t) =>
      match tradeMaximumAmountIn t allowedSlippage with
      | None => amountToApprove
      | Some maxAmountIn => maxAmountIn
      end
  end.

Definition useERC20PermitFromTrade (ctx : HookContext Provider Contract)
           (trade : option AnyTrade)
           (amountToApprove : option CurrencyAmount)
           (transactionDeadline : option Z) : Result PermitResult :=
  useERC20Permit Provider Contract PERMITTABLE_TOKENS ctx amountToApprove
                 (swapRouterAddress (chainId Provider Contract ctx) trade)
                 transactionDeadline None.

End FromTrade.

End ERC20PermitFromTrade.

(** ** Mapping SDK values to the wrapper's types *)

Module PolywrapMapping.
Import Js.

Inductive ChainIdEnum : Type := MAINNET | ROPSTEN | RINKEBY | GOERLI | KOVAN.

Inductive TradeTypeEnum : Type := EXACT_INPUT | EXACT_OUTPUT.

(** The [chainId] field of a wrapper token: typed by the enumeration, it
    is a number at run time, and [mapToken] also writes the number 999
    into it. *)
Inductive ChainIdValue : Type :=
| Member (c : ChainIdEnum)
| Number (n : Z).

Record Currency : Type := mkCurrency {
  decimals : Z;
  symbol : option string;
  name : option string
}.

Record Token : Type := mkToken {
  chainId : ChainIdValue;
  address : string;
  currency : Currency
}.

(** [amount] is the decimal rendering of an integer. *)
Record TokenAmount : Type := mkTokenAmount {
  token : Token;
  amount : Z
}.

(** A currency of the SDK core with the fields the mapping reads, and an
    amount of it. *)
Record UniCurrency : Type := mkUniCurrency {
  sdk : SdkCore.Currency;
  uni_decimals : Z;
  uni_symbol : option string;
  uni_name : option string
}.

Record UniCurrencyAmount : Type := mkUniCurrencyAmount {
  uni_currency : UniCurrency;
  numerator : Z
}.

Definition ETHER : Currency :=
  mkCurrency 18 (Some "ETH"%string) (Some "Ether"%string).

Definition mapChainId (input : Z) : Result ChainIdEnum :=
  match input with
  | 1 => Ok MAINNET
  | 3 => Ok ROPSTEN
  | 4 => Ok RINKEBY
  | 5 => Ok GOERLI
  | 42 => Ok KOVAN
  | _ => Throw "Unknown chain ID. This should never happen."
  end.

Definition mapCurrency (input : UniCurrency) : Currency :=
  mkCurrency (uni_decimals input) (uni_symbol input) (uni_name input).

Section Mapping.

(** [currencyEquals] of ./utils, which is not among the sources. *)
Variable currencyEquals : Currency -> Currency -> bool.

Definition mapToken (input : UniCurrency) (backupChainId : option Z)
  : Result Token :=
  let currency := mapCurrency input in
  match sdk input with
  | SdkCore.Token chainId address =>
      bind (mapChainId chainId) (fun c =>
        Ok (mkToken (Member c)
                    (if currencyEquals currency ETHER then EmptyString
                     else address)
                    currency))
  | SdkCore.NativeCurrency _ =>
      bind (if present truthy_number backupChainId
            then match backupChainId with
                 | Some b => bind (mapChainId b) (fun c => Ok (Member c))
                 | None => Ok (Number 999)
                 end
            else Ok (Number 999))
           (fun c => Ok (mkToken c EmptyString currency))
  end.

Definition mapTokenAmount (input : option UniCurrencyAmount)
           (backupChainId : option Z) : Result (option TokenAmount) :=
  match input with
  | None => Ok None
  | Some input =>
      bind (mapToken (uni_currency input) backupChainId) (fun token =>
        Ok (Some (mkTokenAmount token (numerator input))))
  end.

End Mapping.

Definition mapTradeType (input : SdkCore.TradeType) : TradeTypeEnum :=
  match input with
  | SdkCore.EXACT_OUTPUT => EXACT_OUTPUT
  | SdkCore.EXACT_INPUT => EXACT_INPUT
  end.

End PolywrapMapping.

(** ** useClientSideV3Trade: the call data of the quotes *)

Module QuoteCalls.
Import Js Promises PolywrapMapping.

Section Hook.

Variable Uni_Route : Type.
Variable currencyEquals : Currency -> Currency -> bool.

(** [Uni_Module.quoteCallParameters(...)], reduced to what the hook reads
    of its answer, [invoke.data?.calldata]. *)
Variable quoteCallParameters :
  Uni_Route -> option TokenAmount -> TradeTypeEnum -> option string.

(** The promise made for one route. *)
Definition calldata (amountSpecified : UniCurrencyAmount)
           (tradeType : SdkCore.TradeType) (route : Uni_Route)
  : Result (option string) :=
  bind (mapTokenAmount currencyEquals (Some amountSpecified) None)
       (fun amount =>
          Ok (quoteCallParameters route amount (mapTradeType tradeType))).

(** [params.filter((v) => v !== undefined)]. *)
Fixpoint definedParams (params : list (option string)) : list string :=
  match params with
  | [] => []
  | Some v :: tl => v :: definedParams tl
  | None :: tl => definedParams tl
  end.

(** What one run of the first effect does to [callParams]. *)
Inductive CallParamsEffect : Type :=
| SetCallParams (callParams : list string)
| NoChange.

(** The first effect.  A rejected [Promise.all] never calls [then], and a
    cancelled promise resolves with nothing: in both cases [callParams]
    stay as they were. *)
Definition callParamsEffect (amountSpecified : option UniCurrencyAmount)
           (tradeType : SdkCore.TradeType) (routes : list Uni_Route)
           (cancelled : bool) : CallParamsEffect :=
  match amountSpecified with
  | None => SetCallParams []
  | Some amountSpecified =>
      match awaitAll (calldata amountSpecified tradeType)
                                    routes with
      | Throw _ => NoChange
      | Ok params =>
          if cancelled then NoChange
          else SetCallParams (definedParams params)
      end
  end.

End Hook.

End QuoteCalls.

(** ** useRoutingAPITrade: trades quoted by the routing API *)

Module RoutingAPITrade.
Import Js SdkCore.

(** The answer of the routing API, reduced to what the hook reads:
    [Number(data.blockNumber)], which is not a number for a malformed
    string, and the quoted amount. *)
Record GetQuoteResult : Type := mkGetQuoteResult {
  blockNumber : option Z;
  quote : Z
}.

(** [useFreshData]: the data, unless the local block number is unknown or
    the data is more than [maxBlockAge] blocks behind it. *)
Definition useFreshData {T} (localBlockNumber : option Z) (data : option T)
           (dataBlockNumber : Z) (maxBlockAge : Z) : option T :=
  if present truthy_number localBlockNumber
  then
    match localBlockNumber with
    | Some localBlockNumber =>
        if localBlockNumber - dataBlockNumber >? maxBlockAge then None
        else data
    | None => None
    end
  else None.

(** [Number(data?.blockNumber) || 0]. *)
Definition dataBlockNumber (data : option GetQuoteResult) : Z :=
  match data with
  | Some d =>
      match blockNumber d with
      | Some b => if truthy_number b then b else 0
      | None => 0
      end
  | None => 0
  end.

Section Hook.

(** The wrapped token of a currency, of the SDK core. *)
Variable wrapped : Currency -> Currency.

Inductive QueryType : Type := exactIn | exactOut.

Record QueryArgs : Type := mkQueryArgs {
  amount : Z;
  tokenIn : Currency;
  tokenOut : Currency;
  useClientSideRouter : bool;
  type : QueryType
}.

(** The arguments of the query, or nothing when the query is skipped. *)
Definition useRoutingAPIArguments (tokenIn tokenOut : option Currency)
           (amount : option CurrencyAmount) (tradeType : TradeType)
           (clientSideRouter : bool) : option QueryArgs :=
  match tokenIn, tokenOut, amount with
  | Some tokenIn, Some tokenOut, Some amount =>
      if equals tokenIn tokenOut then None
      else Some (mkQueryArgs (quotient amount) (wrapped tokenIn)
                             (wrapped tokenOut) clientSideRouter
                             (match tradeType with
                              | EXACT_INPUT => exactIn
                              | EXACT_OUTPUT => exactOut
                              end))
  | _, _, _ => None
  end.

Variables Route ExtendedTrade GasEstimate : Type.

(** [computeRoutes] and [transformRoutesToTrade] of ./utils, which is not
    among the sources; both are asynchronous and may reject. *)
Variable computeRoutes :
  Currency -> Currency -> TradeType -> option GetQuoteResult
  -> Result (option (list Route)).
Variable transformRoutesToTrade :
  list Route -> TradeType -> option GasEstimate
  -> Result (option ExtendedTrade).

(** The stored result; [gasUseEstimateUSD] is a field that may be left
    out, and may be null when it is there. *)
Record TradeResult : Type := mkTradeResult {
  state : ClientSideV3Trade.TradeState;
  trade : option ExtendedTrade;
  gasUseEstimateUSD : option (option GasEstimate)
}.

Definition loadTrade (currencyIn currencyOut : Currency)
           (tradeType : TradeType) (quoteResult : option GetQuoteResult)
           (gasUseEstimateUSD : option GasEstimate) : Result TradeResult :=
  bind (computeRoutes currencyIn currencyOut tradeType quoteResult)
       (fun route =>
          match route with
          | None | Some [] =>
              Ok (mkTradeResult ClientSideV3Trade.NO_ROUTE_FOUND None None)
          | Some route =>
              match transformRoutesToTrade route tradeType
                                           gasUseEstimateUSD with
              | Ok (Some trade) =>
                  Ok (mkTradeResult ClientSideV3Trade.VALID (Some trade)
                                    None)
              | Ok None | Throw _ =>
                  Ok (mkTradeResult ClientSideV3Trade.INVALID None
                                    (Some gasUseEstimateUSD))
              end
          end).

(** What one run of the effect does to the stored result. *)
Inductive Effect : Type :=
| SetTradeResult (r : TradeResult)
| NoUpdate.

(** The effect of [useRoutingAPITrade], from the inputs of the hook, the
    state of the query, the local block number and whether the promise was
    cancelled before it resolved. *)
Definition useRoutingAPITradeEffect (tradeType : TradeType)
           (amountSpecified : option CurrencyAmount)
           (otherCurrency : option Currency) (clientSideRouter : bool)
           (isLoading isError : bool) (data : option GetQuoteResult)
           (localBlockNumber : option Z)
           (gasUseEstimateUSD : option GasEstimate) (cancelled : bool)
  : Effect :=
  let (currencyIn, currencyOut) :=
    ClientSideV3Trade.endpoints tradeType amountSpecified otherCurrency in
  let queryArgs :=
    useRoutingAPIArguments currencyIn currencyOut amountSpecified tradeType
                           clientSideRouter in
  let quoteResult :=
    useFreshData localBlockNumber data (dataBlockNumber data) 10 in
  match currencyIn, currencyOut with
  | Some currencyIn, Some currencyOut =>
      if isLoading && negb (is_some quoteResult)
      then SetTradeResult
             (mkTradeResult ClientSideV3Trade.LOADING None None)
      else
        let otherAmount :=
          match tradeType with
          | EXACT_INPUT =>
              option_map (fun q => fromRawAmount currencyOut (quote q))
                         quoteResult
          | EXACT_OUTPUT =>
              option_map (fun q => fromRawAmount currencyIn (quote q))
                         quoteResult
          end in
        if isError || negb (is_some otherAmount) || negb (is_some queryArgs)
        then SetTradeResult
               (mkTradeResult ClientSideV3Trade.NO_ROUTE_FOUND None None)
        else
          match loadTrade currencyIn currencyOut tradeType quoteResult
                          gasUseEstimateUSD with
          | Throw _ => NoUpdate
          | Ok res => if cancelled then NoUpdate else SetTradeResult res
          end
  | _, _ =>
      SetTradeResult (mkTradeResult ClientSideV3Trade.INVALID None None)
  end.

End Hook.

End RoutingAPITrade.

(** ** useV3DerivedMintInfo: the range, the deposits and the error *)

Module MintV3.
Import Js PolywrapMapping.

Inductive PoolState : Type := LOADING | NOT_EXISTS | EXISTS | INVALID.

(** The wrapper's pool, reduced to what these tests read. *)
Record Pool : Type := mkPool {
  tickCurrent : Z;
  token0 : Token;
  token1 : Token
}.

(** [typeof tick === 'number'] holds for a tick that is there. *)
Definition invalidRange (tickLower tickUpper : option Z) : bool :=
  match tickLower, tickUpper with
  | Some tickLower, Some tickUpper => tickLower >=? tickUpper
  | _, _ => false
  end.

(** Prices are exact fractions, compared as rationals. *)
Definition priceLessThan (p q : Q) : bool :=
  match (p ?= q)%Q with Lt => true | _ => false end.

Definition priceGreaterThan (p q : Q) : bool :=
  match (p ?= q)%Q with Gt => true | _ => false end.

Definition outOfRange (tickLower tickUpper : option Z)
           (price lowerPrice upperPrice : option Q) : bool :=
  negb (invalidRange tickLower tickUpper)
  && match price, lowerPrice, upperPrice with
     | Some price, Some lowerPrice, Some upperPrice =>
         priceLessThan price lowerPrice || priceGreaterThan price upperPrice
     | _, _, _ => false
     end.

Definition deposit0Disabled (tickUpper : option Z)
           (poolForPosition : option Pool) : bool :=
  match tickUpper, poolForPosition with
  | Some tickUpper, Some pool => tickCurrent pool >=? tickUpper
  | _, _ => false
  end.

Definition deposit1Disabled (tickLower : option Z)
           (poolForPosition : option Pool) : bool :=
  match tickLower, poolForPosition with
  | Some tickLower, Some pool => tickCurrent pool <=? tickLower
  | _, _ => false
  end.

Section Deposits.

(** [currencyEquals] and [tokenEquals] of the polywrap utilities, which
    are not among the sources. *)
Variable currencyEquals : Currency -> Currency -> bool.
Variable tokenEquals : Token -> Token -> bool.

(** [disabled && poolForPosition && token && tokenEquals(side,
    mapToken(token))]: the token is mapped only when everything before it
    holds. *)
Definition sideDisabled (disabled : bool) (poolForPosition : option Pool)
           (side : Pool -> Token) (token : option UniCurrency)
  : Result bool :=
  if disabled
  then
    match poolForPosition, token with
    | Some pool, Some token =>
        bind (mapToken currencyEquals token None) (fun mapped =>
          Ok (tokenEquals (side pool) mapped))
    | _, _ => Ok false
    end
  else Ok false.

(** [depositADisabled] for [tokenA], [depositBDisabled] for [tokenB]. *)
Definition depositDisabled (tickLower tickUpper : option Z)
           (poolForPosition : option Pool) (token : option UniCurrency)
  : Result bool :=
  if invalidRange tickLower tickUpper then Ok true
  else
    bind (sideDisabled (deposit0Disabled tickUpper poolForPosition)
                       poolForPosition token0 token)
         (fun first =>
            if first then Ok true
            else sideDisabled (deposit1Disabled tickLower poolForPosition)
                              poolForPosition token1 token).

End Deposits.

(** The messages of the hook. *)
Inductive Message : Type :=
| ConnectWallet
| InvalidPair
| InvalidPriceInput
| EnterAnAmount
| InsufficientBalance (symbol : option string).

(** [x = x ?? message]. *)
Definition orElse (current : option Message) (message : Message)
  : option Message :=
  match current with
  | Some m => Some m
  | None => Some message
  end.

(** [amount && balance?.lessThan(amount)] on raw amounts. *)
Definition insufficient (amount balance : option Z) : bool :=
  match amount, balance with
  | Some amount, Some balance => balance <? amount
  | _, _ => false
  end.

(** The assignments to [errorMessage], in the order of the source. *)
Definition errorMessage (account : option string) (poolState : PoolState)
           (invalidPrice : bool) (parsedAmountA parsedAmountB : option Z)
           (depositADisabled depositBDisabled : bool)
           (balanceA balanceB : option Z) (symbolA symbolB : option string)
  : option Message :=
  let e0 : option Message := None in
  let e1 :=
    if negb (present truthy_string account) then Some ConnectWallet
    else e0 in
  let e2 :=
    match poolState with INVALID => orElse e1 InvalidPair | _ => e1 end in
  let e3 := if invalidPrice then orElse e2 InvalidPriceInput else e2 in
  let e4 :=
    if (negb (is_some parsedAmountA) && negb depositADisabled)
       || (negb (is_some parsedAmountB) && negb depositBDisabled)
    then orElse e3 EnterAnAmount else e3 in
  let e5 :=
    if insufficient parsedAmountA balanceA
    then Some (InsufficientBalance symbolA) else e4 in
  if insufficient parsedAmountB balanceB
  then Some (InsufficientBalance symbolB) else e5.

End MintV3.

(** ** useClientSideV3Trade: the two effects together *)

Module ClientSideV3TradeHook.
Import Js SdkCore PolywrapMapping QuoteCalls ClientSideV3Trade.

Section Hook.

Variables Uni_Route Uni_Trade : Type.
Variable inputMatches : Uni_Route -> SdkCore.Currency -> bool.
Variable outputMatches : Uni_Route -> SdkCore.Currency -> bool.
Variable currencyEquals :
  PolywrapMapping.Currency -> PolywrapMapping.Currency -> bool.
Variable quoteCallParameters :
  Uni_Route -> option TokenAmount -> TradeTypeEnum -> option string.

(** [useSingleContractWithCallData(quoter, callParams, ...)] of
    lib/hooks/multicall, which is not among the sources: one result for
    each call data, in the order of [callParams]. *)
Variable quoteOf : string -> CallState.

Definition quotesResults (callParams : list string) : list CallState :=
  map quoteOf callParams.

(** The amount as the second effect reads it: its currency and its raw
    number. *)
Definition sdkAmount (a : UniCurrencyAmount) : CurrencyAmount :=
  mkCurrencyAmount (sdk (uni_currency a)) (numerator a).

(** The state [callParams] after a run of the first effect. *)
Definition callParamsAfter (effect : CallParamsEffect)
           (callParams : list string) : list string :=
  match effect with
  | SetCallParams stored => stored
  | NoChange => callParams
  end.

(** The second effect on the render that follows the first effect: the
    quotes are those of the stored call parameters, the routes are the
    routes of the hook. *)
Definition useClientSideV3TradeEffects (tradeType : TradeType)
           (amountSpecified : option UniCurrencyAmount)
           (otherCurrency : option SdkCore.Currency)
           (routes : list Uni_Route) (routesLoading : bool)
           (callParams : list string) (cancelled : bool)
  : Effect Uni_Route Uni_Trade :=
  let callParams :=
    callParamsAfter
      (callParamsEffect Uni_Route currencyEquals quoteCallParameters
                        amountSpecified tradeType routes cancelled)
      callParams in
  deriveTrade Uni_Route Uni_Trade inputMatches outputMatches tradeType
              (option_map sdkAmount amountSpecified) otherCurrency routes
              routesLoading (quotesResults callParams).

End Hook.

End ClientSideV3TradeHook.

(** ** More concrete inputs: a wallet, a provider and contexts with a
       missing input *)

Module Fixtures.
Import Js.

(** A builder context whose transaction deadline has not loaded. *)
Definition contextWithoutDeadline
  : SwapCallback.BuilderContext string unit :=
  SwapCallback.mkBuilderContext string unit
    (Some Samples.holder) (Some 1) (Some tt) SwapCallback.v2 None None
    (Some "v1Exchange"%string).

(** The wrapper encodes a swap by the name of its router method. *)
Definition encode (_ : Trades.W3Trade) (o : SwapCallback.W3TradeOptions)
  : Result SwapCallback.SwapParameters :=
  Ok (if SwapCallback.feeOnTransfer o
      then SwapCallback.parameters string Samples.callB
      else SwapCallback.parameters string Samples.callA).

Definition encodeV1 (_ : Trades.W3Trade) (_ : SwapCallback.V1TradeOptions)
  : SwapCallback.SwapParameters :=
  SwapCallback.mkSwapParameters "tokenToTokenSwapInput"%string [] "0x0"%string.

Definition isZero (s : string) : bool := String.eqb s "0x0".

(** A margin of ten percent on the gas estimate. *)
Definition calculateGasMargin (g : Z) : Z := g * 11000 / 10000.

(** A provider on which the standard call reverts for lack of output and
    the call that tolerates fees on transfer goes through. *)
Definition estimateGas (c : SwapCallback.SwapCall string) : option Z :=
  if String.eqb
       (SwapCallback.methodName (SwapCallback.parameters string c))
       "swapExactTokensForTokens"
  then None else Some 160000.

Definition callStatic (_ : SwapCallback.SwapCall string)
  : SwapCallback.StaticOutcome :=
  SwapCallback.StaticRejected
    (Some "UniswapV2Router: INSUFFICIENT_OUTPUT_AMOUNT"%string).

(** A wallet that signs everything; the hash it answers with names the
    method that was called. *)
Definition send (c : SwapCallback.SwapCall string)
           (o : SwapSubmission.SendOptions)
  : SwapSubmission.SendOutcome :=
  SwapSubmission.Sent
    (SwapCallback.methodName (SwapCallback.parameters string c)).

Definition registerTransaction (_ : string)
  : option (option Z * option string) := None.

(** The permit context of the samples before any signature is stored. *)
Definition unsignedContext : ERC20Permit.HookContext unit unit :=
  ERC20Permit.mkHookContext unit unit (Some Samples.holder) (Some 1)
    (Some tt) false (Some tt) (ERC20Permit.mkCallState true false (Some 7))
    None.

(** A trade over one hop. *)
Definition oneHopSdk : Trades.Trade :=
  Trades.mkSdkTrade [Samples.pool Samples.DAI Samples.USDC]
                    (Trades.TokenAmount Samples.DAI 1000000)
                    (SdkFraction.mkFraction 1 100).

(** 1000 units of USDC as the hook receives them, a wrapper that has no
    call data for the first of the three routes of the samples, and a
    quoter that answers 80 for the direct route, 90 for the route through
    WETH and 100 for the route through DAI. *)
Definition usdcSpecified (q : Z) : PolywrapMapping.UniCurrencyAmount :=
  PolywrapMapping.mkUniCurrencyAmount
    (PolywrapMapping.mkUniCurrency
       (SdkCore.Token 1 Samples.usdcAddress) 6 (Some "USDC"%string)
       (Some "USD Coin"%string))
    q.

Definition neverEther (_ _ : PolywrapMapping.Currency) : bool := false.

Definition callDataOf (route : string) : string :=
  ("quote:" ++ route)%string.

Definition callDataForAll (route : string)
           (_ : option PolywrapMapping.TokenAmount)
           (_ : PolywrapMapping.TradeTypeEnum) : option string :=
  Some (callDataOf route).

Definition callDataExceptDirect (route : string)
           (_ : option PolywrapMapping.TokenAmount)
           (_ : PolywrapMapping.TradeTypeEnum) : option string :=
  if String.eqb route "direct" then None else Some (callDataOf route).

Definition quoteOf (callData : string) : ClientSideV3Trade.CallState :=
  if String.eqb callData "quote:viaDAI" then Samples.quote 100
  else if String.eqb callData "quote:viaWETH" then Samples.quote 90
  else Samples.quote 80.

End Fixtures.

(** * Properties *)

(** ** Decimals and fractions *)

Module ArithmeticFacts.
Import Js DecimalJs SdkFraction.

Lemma lessThan_irrefl (x : Decimal) : lessThan x x = false.
Proof.
  destruct x as [|n|c e]; unfold lessThan, cmp; auto.
  - destruct n; reflexivity.
  - replace (Qval c e ?= Qval c e)%Q with Eq; auto.
    symmetry. apply Qeq_alt. reflexivity.
Qed.

(** On finite decimals [lessThan] is the order of the rationals they
    denote. *)
Lemma lessThan_finite (c1 e1 c2 e2 : Z) :
  lessThan (DFin c1 e1) (DFin c2 e2) = true
  <-> (Qval c1 e1 < Qval c2 e2)%Q.
Proof.
  unfold lessThan, cmp. rewrite Qlt_alt.
  destruct (Qval c1 e1 ?= Qval c2 e2)%Q; split; congruence.
Qed.

Lemma lessThan_NaN_l (x : Decimal) : lessThan DNaN x = false.
Proof. reflexivity. Qed.

Lemma lessThan_NaN_r (x : Decimal) : lessThan x DNaN = false.
Proof. destruct x; reflexivity. Qed.

Lemma le_lessThan_trans (p q t : Decimal) :
  DecimalJs.le p q -> lessThan q t = true -> lessThan p t = true.
Proof.
  destruct p as [|np|c1 e1], q as [|nq|c2 e2], t as [|nt|c3 e3];
    unfold DecimalJs.le, lessThan, cmp;
    try tauto; try congruence;
    repeat match goal with b : bool |- _ => destruct b end; cbn [Bool.eqb];
    try tauto; try congruence.
  destruct (Qval c1 e1 ?= Qval c2 e2)%Q eqn:H12; try tauto; intros _;
  destruct (Qval c2 e2 ?= Qval c3 e3)%Q eqn:H23; try congruence; intros _.
  - apply Qeq_alt in H12. apply Qlt_alt in H23.
    assert (H : (Qval c1 e1 < Qval c3 e3)%Q) by (rewrite H12; exact H23).
    rewrite (proj1 (Qlt_alt _ _) H). reflexivity.
  - apply Qlt_alt in H12. apply Qlt_alt in H23.
    assert (H : (Qval c1 e1 < Qval c3 e3)%Q) by (eapply Qlt_trans; eauto).
    rewrite (proj1 (Qlt_alt _ _) H). reflexivity.
Qed.

Lemma lessThan_exact (x y : Decimal) (qx qy : Q) :
  exact x qx -> exact y qy -> (lessThan x y = true <-> (qx < qy)%Q).
Proof.
  destruct x as [| |c1 e1], y as [| |c2 e2]; simpl; try tauto.
  intros Hx Hy. unfold lessThan, cmp. rewrite <- Hx, <- Hy, Qlt_alt.
  destruct (Qval c1 e1 ?= Qval c2 e2)%Q; split; congruence.
Qed.

Lemma ten_nonzero : ~ ((10 # 1) == 0)%Q.
Proof. discriminate. Qed.

Lemma Qval_shift (c e k : Z) :
  0 <= k -> (Qval (c * 10 ^ k) e == Qval c (e + k))%Q.
Proof.
  intros Hk. unfold Qval.
  rewrite Qpower_plus by exact ten_nonzero.
  rewrite inject_Z_mult, (Zpower_Qpower 10 k Hk).
  change (inject_Z 10) with (10 # 1)%Q. ring.
Qed.

Lemma Qval_zero (e : Z) : (Qval 0 e == 0)%Q.
Proof. unfold Qval. change (inject_Z 0) with 0%Q. ring. Qed.

Lemma Qval_mul (c1 e1 c2 e2 : Z) :
  (Qval (c1 * c2) (e1 + e2) == Qval c1 e1 * Qval c2 e2)%Q.
Proof.
  unfold Qval. rewrite Qpower_plus by exact ten_nonzero.
  rewrite inject_Z_mult. ring.
Qed.

(** Moving trailing zeros into the exponent keeps the value. *)
Lemma strip_fuel_exact (fuel : nat) :
  forall c e, exact (strip_fuel fuel c e) (Qval c e).
Proof.
  induction fuel as [|fuel IH]; intros c e; simpl.
  - reflexivity.
  - destruct (c =? 0) eqn:E0.
    + apply Z.eqb_eq in E0. subst c. simpl. rewrite !Qval_zero. reflexivity.
    + destruct (c mod 10 =? 0) eqn:Em.
      * apply Z.eqb_eq in Em.
        specialize (IH (c / 10) (e + 1)).
        destruct (strip_fuel fuel (c / 10) (e + 1)); simpl in *; auto.
        rewrite IH. rewrite <- (Qval_shift (c / 10) e 1) by lia.
        replace (c / 10 * 10 ^ 1) with c; [reflexivity|].
        change (10 ^ 1) with 10.
        rewrite (Z.div_mod c 10) at 1 by lia. lia.
      * simpl. reflexivity.
Qed.

(** A coefficient of at most [precision] digits is not rounded. *)
Lemma finalise_exact (c e : Z) :
  ndigits c <= precision -> exact (finalise c e) (Qval c e).
Proof.
  intros H. unfold finalise.
  destruct (ndigits c <=? precision) eqn:E; [|apply Z.leb_gt in E; lia].
  apply strip_fuel_exact.
Qed.

(** The product and the sum are exact when their coefficients fit. *)
Lemma mul_exact (c1 e1 c2 e2 : Z) :
  ndigits (c1 * c2) <= precision ->
  exact (mul (DFin c1 e1) (DFin c2 e2)) (Qval c1 e1 * Qval c2 e2).
Proof.
  intros H. simpl. pose proof (finalise_exact (c1 * c2) (e1 + e2) H) as Hf.
  destruct (finalise (c1 * c2) (e1 + e2)); simpl in *; auto.
  rewrite Hf. apply Qval_mul.
Qed.

Lemma add_exact (c1 e1 c2 e2 : Z) :
  let e := Z.min e1 e2 in
  ndigits (c1 * 10 ^ (e1 - e) + c2 * 10 ^ (e2 - e)) <= precision ->
  exact (add (DFin c1 e1) (DFin c2 e2)) (Qval c1 e1 + Qval c2 e2).
Proof.
  intros e H. simpl. fold e.
  pose proof (finalise_exact _ e H) as Hf.
  destruct (finalise (c1 * 10 ^ (e1 - e) + c2 * 10 ^ (e2 - e)) e);
    simpl in *; auto.
  rewrite Hf.
  assert (H1 : (Qval c1 e1 == Qval (c1 * 10 ^ (e1 - e)) e)%Q).
  { rewrite Qval_shift by lia. replace (e + (e1 - e)) with e1 by lia.
    reflexivity. }
  assert (H2 : (Qval c2 e2 == Qval (c2 * 10 ^ (e2 - e)) e)%Q).
  { rewrite Qval_shift by lia. replace (e + (e2 - e)) with e2 by lia.
    reflexivity. }
  rewrite H1, H2. unfold Qval. rewrite inject_Z_plus. ring.
Qed.

Lemma Qpow_compat (q q' : Q) (n : nat) :
  (q == q')%Q -> (Qpow q n == Qpow q' n)%Q.
Proof.
  intros Hq. induction n as [|n IH]; simpl.
  - reflexivity.
  - rewrite IH, Hq. reflexivity.
Qed.

(** The SDK's operations compute the rational product and difference. *)
Lemma toQ_multiply (x y : Fraction) :
  0 < denominator x -> 0 < denominator y ->
  (toQ (multiply x y) == toQ x * toQ y)%Q.
Proof.
  intros Hx Hy. unfold toQ, multiply, Qeq, Qmult; simpl.
  rewrite Z2Pos.inj_mul by assumption. reflexivity.
Qed.

Lemma toQ_subtract (x y : Fraction) :
  0 < denominator x -> 0 < denominator y ->
  (toQ (subtract x y) == toQ x - toQ y)%Q.
Proof.
  intros Hx Hy. unfold subtract.
  destruct (denominator x =? denominator y) eqn:E.
  - apply Z.eqb_eq in E.
    unfold toQ, Qeq, Qminus, Qplus, Qopp; simpl. rewrite <- E.
    rewrite Pos2Z.inj_mul, Z2Pos.id by assumption. ring.
  - unfold toQ, Qeq, Qminus, Qplus, Qopp; simpl.
    rewrite Z2Pos.inj_mul by assumption.
    rewrite !Pos2Z.inj_mul, !Z2Pos.id by assumption. ring.
Qed.

End ArithmeticFacts.

(** ** The trade comparator, the price breakdown and the severity scale *)

Module TradesFacts.
Import Js DecimalJs SdkFraction Trades ArithmeticFacts.

(** *** w3IsTradeBetter *)

(** The comparability test as the source writes it: the third disjunct
    compares the output currency of [tradeB] with itself. *)
Lemma w3currencyEquals_refl (c : W3Currency) : w3currencyEquals c c = true.
Proof.
  unfold w3currencyEquals. rewrite Z.eqb_refl.
  destruct (symbol c), (name c); simpl; rewrite ?String.eqb_refl; reflexivity.
Qed.

(** With both trades present and prices at hand, the comparator throws
    exactly when the trade types or the input currencies differ. *)
Lemma w3IsTradeBetter_throws_iff
      (price : W3Trade -> Result Decimal) (tradeA tradeB : W3Trade)
      (minimumDelta : option Decimal) (pA pB : Decimal) :
  price tradeA = Ok pA -> price tradeB = Ok pB ->
  (w3IsTradeBetter price (Some tradeA) (Some tradeB) minimumDelta
   = Throw "Trades are not comparable"
   <-> (tradeType tradeA <> tradeType tradeB
        \/ w3currencyEquals (currency (token (inputAmount tradeA)))
                            (currency (token (inputAmount tradeB))) = false)).
Proof.
  intros HA HB. unfold w3IsTradeBetter; simpl.
  rewrite w3currencyEquals_refl, HA, HB; simpl.
  destruct (W3TradeType_eqb (tradeType tradeA) (tradeType tradeB)) eqn:Et;
  destruct (w3currencyEquals (currency (token (inputAmount tradeA)))
                             (currency (token (inputAmount tradeB)))) eqn:Ec;
    simpl.
  - split.
    + destruct (equals _ _); discriminate.
    + intros [Hne | Hf]; [|discriminate].
      exfalso. apply Hne.
      destruct (tradeType tradeA), (tradeType tradeB);
        simpl in Et; congruence.
  - split; auto.
  - split; auto. intros _. left. intros Heq. rewrite Heq in Et.
    destruct (tradeType tradeB); discriminate.
  - split; auto.
Qed.

(** C2, at the failing input: two EXACT_INPUT trades that pay in DAI, one
    buying USDC and the other WETH.  Their output currencies differ, yet
    the comparator does not throw: it compares the execution prices and
    answers [false]. *)
Theorem w3IsTradeBetter_output_mismatch_not_detected :
  w3currencyEquals (currency (token (outputAmount Samples.daiUsdcAt1)))
                   (currency (token (outputAmount Samples.daiWeth))) = false
  /\ tradeType Samples.daiUsdcAt1 = tradeType Samples.daiWeth
  /\ w3currencyEquals (currency (token (inputAmount Samples.daiUsdcAt1)))
                      (currency (token (inputAmount Samples.daiWeth))) = true
  /\ w3IsTradeBetter Samples.outputPerInput (Some Samples.daiUsdcAt1)
                     (Some Samples.daiWeth) None
     = Ok (Some false).
Proof. repeat split; vm_compute; reflexivity. Qed.

(** Differing trade types are detected. *)
Example w3IsTradeBetter_type_mismatch :
  w3IsTradeBetter Samples.outputPerInput (Some Samples.daiUsdcAt1)
                  (Some Samples.daiUsdcExactOut) None
  = Throw "Trades are not comparable".
Proof. reflexivity. Qed.

(** C3: when exactly one trade is present the comparator favours it,
    whatever the minimum delta and whatever the price oracle would answer;
    when neither is present it answers undefined. *)
Theorem w3IsTradeBetter_presence :
  forall (price : W3Trade -> Result Decimal) (minimumDelta : option Decimal),
    (forall tradeA,
        w3IsTradeBetter price (Some tradeA) None minimumDelta = Ok (Some false)
        /\ favoured (w3IsTradeBetter price (Some tradeA) None minimumDelta)
           = Some TradeA)
    /\ (forall tradeB,
           w3IsTradeBetter price None (Some tradeB) minimumDelta
           = Ok (Some true)
           /\ favoured (w3IsTradeBetter price None (Some tradeB) minimumDelta)
              = Some TradeB)
    /\ w3IsTradeBetter price None None minimumDelta = Ok None.
Proof.
  intros price minimumDelta. repeat split.
Qed.

(** C4 as stated fails: DAI to USDC at a price of 1 ([tradeA]) against the
    same swap at a price of 2 ([tradeB]), minimum delta 0.  The execution
    price of [tradeA] is strictly lower, and the comparator answers [true],
    the answer it gives when only [tradeB] is present: it favours
    [tradeB], not [tradeA]. *)
Lemma w3IsTradeBetter_lower_price_favours_tradeB :
  Samples.outputPerInput Samples.daiUsdcAt1 = Ok (DFin 1 0)
  /\ Samples.outputPerInput Samples.daiUsdcAt2 = Ok (DFin 2 0)
  /\ lessThan (DFin 1 0) (DFin 2 0) = true
  /\ w3IsTradeBetter Samples.outputPerInput (Some Samples.daiUsdcAt1)
                     (Some Samples.daiUsdcAt2) (Some W3_ZERO_PERCENT)
     = Ok (Some true)
  /\ favoured (w3IsTradeBetter Samples.outputPerInput
                 (Some Samples.daiUsdcAt1) (Some Samples.daiUsdcAt2)
                 (Some W3_ZERO_PERCENT))
     = Some TradeB.
Proof. repeat split; vm_compute; reflexivity. Qed.

(** C4, amended: for two present trades that pass the comparability test
    and have execution prices [pA] and [pB], with a minimum delta equal to
    0 the comparator answers [true], favouring [tradeB], exactly when [pA]
    is strictly lower than [pB], so equal prices give [false]; with any
    other minimum delta it answers [true] exactly when the decimal product
    of [pA] and (minimumDelta + 1) is strictly lower than [pB], which is the
    comparison of the rationals when that product is exact. *)
Theorem w3IsTradeBetter_compares_prices :
  forall (price : W3Trade -> Result Decimal) (tradeA tradeB : W3Trade)
         (minimumDelta : Decimal) (pA pB : Decimal),
    tradeType tradeA = tradeType tradeB ->
    w3currencyEquals (currency (token (inputAmount tradeA)))
                     (currency (token (inputAmount tradeB))) = true ->
    price tradeA = Ok pA ->
    price tradeB = Ok pB ->
    let answer :=
      w3IsTradeBetter price (Some tradeA) (Some tradeB) (Some minimumDelta) in
    let scaled := mul pA (add minimumDelta W3_ONE_HUNDRED_PERCENT) in
    (equals minimumDelta W3_ZERO_PERCENT = true ->
     answer = Ok (Some (lessThan pA pB))
     /\ (favoured answer = Some TradeB <-> lessThan pA pB = true)
     /\ (forall qA qB,
            exact pA qA -> exact pB qB ->
            (favoured answer = Some TradeB <-> (qA < qB)%Q)
            /\ ((qA == qB)%Q -> answer = Ok (Some false))))
    /\ (equals minimumDelta W3_ZERO_PERCENT = false ->
        answer = Ok (Some (lessThan scaled pB))
        /\ (favoured answer = Some TradeB <-> lessThan scaled pB = true)
        /\ (forall qA qB qd,
               exact pA qA -> exact pB qB -> exact minimumDelta qd ->
               exact scaled (qA * (1 + qd)) ->
               (favoured answer = Some TradeB <-> (qA * (1 + qd) < qB)%Q))).
Proof.
  intros price tradeA tradeB minimumDelta pA pB Ht Hc HA HB answer scaled.
  assert (Hanswer :
            answer
            = if equals minimumDelta W3_ZERO_PERCENT
              then Ok (Some (lessThan pA pB))
              else Ok (Some (lessThan scaled pB))).
  { unfold answer, w3IsTradeBetter; simpl.
    rewrite Ht, Hc, w3currencyEquals_refl, HA, HB; simpl.
    destruct (tradeType tradeB); reflexivity. }
  assert (Hfav : forall b : bool,
             favoured (Ok (Some b)) = Some TradeB <-> b = true).
  { intros b. destruct b; simpl; split; congruence. }
  split; intros Hd; rewrite Hd in Hanswer; rewrite Hanswer.
  - split; [reflexivity|]. split; [apply Hfav|].
    intros qA qB HqA HqB. split.
    + rewrite Hfav. apply lessThan_exact; assumption.
    + intros Heq. do 2 f_equal.
      destruct (lessThan pA pB) eqn:Hlt; [|reflexivity].
      apply (lessThan_exact pA pB qA qB HqA HqB) in Hlt.
      rewrite Heq in Hlt. exfalso. exact (Qlt_irrefl qB Hlt).
  - split; [reflexivity|]. split; [apply Hfav|].
    intros qA qB qd HqA HqB Hqd Hscaled.
    rewrite Hfav. apply lessThan_exact; assumption.
Qed.

(** Prices of 1 and 2 with a minimum delta of 0: [true], for [tradeB]. *)
Lemma w3IsTradeBetter_compares_prices_witness :
  w3IsTradeBetter Samples.outputPerInput (Some Samples.daiUsdcAt1)
                  (Some Samples.daiUsdcAt2) (Some W3_ZERO_PERCENT)
  = Ok (Some true).
Proof.
  exact (proj1 (proj1 (w3IsTradeBetter_compares_prices
                         Samples.outputPerInput Samples.daiUsdcAt1
                         Samples.daiUsdcAt2 W3_ZERO_PERCENT (DFin 1 0)
                         (DFin 2 0) eq_refl eq_refl eq_refl eq_refl)
                      eq_refl)).
Defined.

(** With a minimum delta of 1% a price of 1.005 does not beat a price of 1,
    and a price of 2 does. *)
Example w3IsTradeBetter_minimum_delta :
  let onePercent := Some (DFin 1 (-2)) in
  let price (t : W3Trade) :=
    Ok (DFin (amount (outputAmount t)) (-3)) in
  w3IsTradeBetter price
    (Some (Samples.swap EXACT_INPUT [] Samples.DAI 1 Samples.USDC 1000))
    (Some (Samples.swap EXACT_INPUT [] Samples.DAI 1 Samples.USDC 1005))
    onePercent = Ok (Some false)
  /\ w3IsTradeBetter price
       (Some (Samples.swap EXACT_INPUT [] Samples.DAI 1 Samples.USDC 1000))
       (Some (Samples.swap EXACT_INPUT [] Samples.DAI 1 Samples.USDC 2000))
       onePercent = Ok (Some true).
Proof. split; vm_compute; reflexivity. Qed.

(** *** The realized liquidity-provider fee *)

Lemma reduce_fee_fraction (l : list W3Pair) :
  forall (ix : nat) (acc : Fraction),
    0 < denominator acc ->
    let r := reduce_from (fun (currentFee : Fraction) (_ : W3Pair) (_ : nat) =>
                            multiply currentFee INPUT_FRACTION_AFTER_FEE)
                         ix l acc in
    0 < denominator r /\
    (toQ r == toQ acc * Qpow (997 # 1000) (List.length l))%Q.
Proof.
  induction l as [|p l IH]; intros ix acc Hacc; simpl.
  - split; [assumption|]. ring.
  - assert (Hd : 0 < denominator (multiply acc INPUT_FRACTION_AFTER_FEE)).
    { simpl. lia. }
    destruct (IH (S ix) _ Hd) as [Hpos Hval]. split; [exact Hpos|].
    rewrite Hval, toQ_multiply by (assumption || reflexivity).
    assert (HF : (toQ INPUT_FRACTION_AFTER_FEE == 997 # 1000)%Q)
      by reflexivity.
    rewrite HF. ring.
Qed.

(** On the SDK's fractions the fee of [n] hops is 1 - 0.997^n, for every
    [n]. *)
Lemma realizedLPFee_fraction_value (trade : Trade) :
  (toQ (realizedLPFee_fraction trade)
   == 1 - Qpow (997 # 1000) (List.length (sdk_pairs trade)))%Q.
Proof.
  unfold realizedLPFee_fraction, reduce.
  destruct (reduce_fee_fraction (sdk_pairs trade) 0%nat ONE_HUNDRED_PERCENT)
    as [Hpos Hval]; [reflexivity|].
  rewrite toQ_subtract by (assumption || reflexivity).
  rewrite Hval.
  assert (H1 : (toQ ONE_HUNDRED_PERCENT == 1)%Q) by reflexivity.
  rewrite H1. ring.
Qed.

(** On decimals the products 0.997^n are exact while they fit 20
    significant digits, that is up to six hops. *)
Lemma w3realizedLPFee_short (trade : W3Trade) :
  (List.length (pairs (route trade)) <= 6)%nat ->
  exists c e,
    w3realizedLPFee trade = DFin c e /\
    (Qval c e
     == 1 - Qpow (997 # 1000) (List.length (pairs (route trade))))%Q.
Proof.
  unfold w3realizedLPFee, reduce.
  destruct (pairs (route trade))
    as [|p1 [|p2 [|p3 [|p4 [|p5 [|p6 [|p7 l]]]]]]];
    simpl List.length; intros Hn; try lia;
    eexists; eexists;
    (split; [vm_compute; reflexivity | vm_compute; reflexivity]).
Qed.

(** C5 as stated fails for [w3computeTradePriceBreakdown]: over seven hops
    0.997^7 has 21 significant digits, the decimal product is rounded to
    20, and the fee that comes out, 0.02081194217009789919, is above
    1 - 0.997^7 = 0.020811942170097899187. *)
Lemma w3realizedLPFee_seven_hops_rounded :
  List.length (pairs (route Samples.sevenHops)) = 7%nat
  /\ w3realizedLPFee Samples.sevenHops = DFin 2081194217009789919 (-20)
  /\ (1 - Qpow (997 # 1000) 7
      == 20811942170097899187 # 1000000000000000000000)%Q
  /\ (1 - Qpow (997 # 1000) 7 < Qval 2081194217009789919 (-20))%Q.
Proof. repeat split; vm_compute; reflexivity. Qed.

(** C5, amended: the fee [computeTradePriceBreakdown] realizes over the
    [n] hops of a route is 1 - 0.997^n exactly, for every [n], in rational
    arithmetic; the fee [w3computeTradePriceBreakdown] realizes, in decimal
    arithmetic of 20 significant digits, is 1 - 0.997^n for routes of up to
    six hops; over two hops both are 0.005991. *)
Theorem realizedLPFee_compounds :
  forall (trade : Trade) (w3trade : W3Trade),
    (toQ (realizedLPFee_fraction trade)
     == 1 - Qpow (997 # 1000) (List.length (sdk_pairs trade)))%Q
    /\ (List.length (sdk_pairs trade) = 2%nat ->
        (toQ (realizedLPFee_fraction trade) == 5991 # 1000000)%Q)
    /\ ((List.length (pairs (route w3trade)) <= 6)%nat ->
        exists c e,
          w3realizedLPFee w3trade = DFin c e /\
          (Qval c e
           == 1 - Qpow (997 # 1000) (List.length (pairs (route w3trade))))%Q)
    /\ (List.length (pairs (route w3trade)) = 2%nat ->
        w3realizedLPFee w3trade = DFin 5991 (-6)).
Proof.
  intros trade w3trade. repeat split.
  - apply realizedLPFee_fraction_value.
  - intros H2. rewrite realizedLPFee_fraction_value, H2. reflexivity.
  - apply w3realizedLPFee_short.
  - intros H2. unfold w3realizedLPFee, reduce.
    destruct (pairs (route w3trade)) as [|p1 [|p2 [|p3 l]]];
      try discriminate H2.
    vm_compute. reflexivity.
Qed.

(** Two hops, DAI to WETH to USDC: 0.005991 on fractions and on decimals. *)
Lemma realizedLPFee_compounds_witness :
  (toQ (realizedLPFee_fraction Samples.twoHopsSdk) == 5991 # 1000000)%Q
  /\ w3realizedLPFee Samples.twoHops = DFin 5991 (-6).
Proof.
  destruct (realizedLPFee_compounds Samples.twoHopsSdk Samples.twoHops)
    as (_ & Hf & _ & Hd).
  split; [apply Hf | apply Hd]; reflexivity.
Defined.

(** *** warningSeverity *)

Lemma lessThan_le (p q : Decimal) : lessThan p q = true -> DecimalJs.le p q.
Proof.
  unfold lessThan, DecimalJs.le.
  destruct (cmp p q) as [[]|]; intros H; try discriminate H; exact I.
Qed.

(** With ascending thresholds the lowest severity is the band below the
    low threshold. *)
Lemma warningSeverity_zero_band (LOW MEDIUM HIGH BLOCKED p : Decimal) :
  lessThan LOW MEDIUM = true -> lessThan MEDIUM HIGH = true ->
  lessThan HIGH BLOCKED = true ->
  (warningSeverity LOW MEDIUM HIGH BLOCKED (Some p) = 0
   <-> lessThan p LOW = true).
Proof.
  intros H1 H2 H3. unfold warningSeverity, not_lessThan. split.
  - destruct (lessThan p BLOCKED), (lessThan p HIGH), (lessThan p MEDIUM),
      (lessThan p LOW); simpl; intros H; try discriminate H; reflexivity.
  - intros Hp.
    assert (Hm : lessThan p MEDIUM = true)
      by (eapply le_lessThan_trans; [apply lessThan_le; exact Hp|exact H1]).
    assert (Hh : lessThan p HIGH = true)
      by (eapply le_lessThan_trans; [apply lessThan_le; exact Hm|exact H2]).
    assert (Hb : lessThan p BLOCKED = true)
      by (eapply le_lessThan_trans; [apply lessThan_le; exact Hh|exact H3]).
    rewrite Hp, Hm, Hh, Hb. reflexivity.
Qed.

(** C6: [warningSeverity] always returns one of 0, 1, 2, 3, 4; it does not
    decrease when the price impact grows (for any thresholds, so for
    ascending ones); it returns 4 for an undefined price impact, for NaN,
    and for every price impact that is not below the blocking threshold. *)
Theorem warningSeverity_monotone :
  forall (LOW MEDIUM HIGH BLOCKED : Decimal) (p q : Decimal),
    DecimalJs.le p q ->
    warningSeverity LOW MEDIUM HIGH BLOCKED (Some p)
    <= warningSeverity LOW MEDIUM HIGH BLOCKED (Some q)
    /\ (forall x, 0 <= warningSeverity LOW MEDIUM HIGH BLOCKED x <= 4)
    /\ warningSeverity LOW MEDIUM HIGH BLOCKED None = 4
    /\ warningSeverity LOW MEDIUM HIGH BLOCKED (Some DNaN) = 4
    /\ (forall x, lessThan x BLOCKED = false ->
                  warningSeverity LOW MEDIUM HIGH BLOCKED (Some x) = 4).
Proof.
  intros LOW MEDIUM HIGH BLOCKED p q Hpq. repeat split.
  - unfold warningSeverity, not_lessThan.
    destruct (lessThan q BLOCKED) eqn:Hb; simpl.
    2:{ destruct (lessThan p BLOCKED), (lessThan p HIGH),
          (lessThan p MEDIUM), (lessThan p LOW); simpl; lia. }
    rewrite (le_lessThan_trans p q BLOCKED Hpq Hb); simpl.
    destruct (lessThan q HIGH) eqn:Hh; simpl.
    2:{ destruct (lessThan p HIGH), (lessThan p MEDIUM), (lessThan p LOW);
          simpl; lia. }
    rewrite (le_lessThan_trans p q HIGH Hpq Hh); simpl.
    destruct (lessThan q MEDIUM) eqn:Hm; simpl.
    2:{ destruct (lessThan p MEDIUM), (lessThan p LOW); simpl; lia. }
    rewrite (le_lessThan_trans p q MEDIUM Hpq Hm); simpl.
    destruct (lessThan q LOW) eqn:Hl; simpl.
    2:{ destruct (lessThan p LOW); simpl; lia. }
    rewrite (le_lessThan_trans p q LOW Hpq Hl); simpl. lia.
  - unfold warningSeverity.
    destruct (not_lessThan x BLOCKED), (not_lessThan x HIGH),
      (not_lessThan x MEDIUM), (not_lessThan x LOW); lia.
  - unfold warningSeverity.
    destruct (not_lessThan x BLOCKED), (not_lessThan x HIGH),
      (not_lessThan x MEDIUM), (not_lessThan x LOW); lia.
  - intros x Hx. unfold warningSeverity, not_lessThan. rewrite Hx.
    reflexivity.
Qed.

(** A price impact of 2% against one of 4%, with thresholds of 1%, 3%, 5%
    and 15%: severities 1 and 2. *)
Lemma warningSeverity_monotone_witness :
  warningSeverity Samples.LOW Samples.MEDIUM Samples.HIGH Samples.BLOCKED
                  (Some (DFin 2 (-2))) = 1
  /\ warningSeverity Samples.LOW Samples.MEDIUM Samples.HIGH Samples.BLOCKED
                     (Some (DFin 4 (-2))) = 2
  /\ warningSeverity Samples.LOW Samples.MEDIUM Samples.HIGH Samples.BLOCKED
                     (Some (DFin 2 (-2)))
     <= warningSeverity Samples.LOW Samples.MEDIUM Samples.HIGH
                        Samples.BLOCKED (Some (DFin 4 (-2))).
Proof.
  split; [reflexivity|]. split; [reflexivity|].
  exact (proj1 (warningSeverity_monotone
                  Samples.LOW Samples.MEDIUM Samples.HIGH Samples.BLOCKED
                  (DFin 2 (-2)) (DFin 4 (-2)) I)).
Defined.

End TradesFacts.

(** ** The swap-call builder and the gas-estimation orchestrator *)

Module SwapCallbackFacts.
Import Js SwapCallback SelectionRule.

(** [find] returns the first element, in index order, that its callback
    accepts. *)
Lemma find_from_first {A} (pred : A -> nat -> list A -> bool)
      (whole : list A) :
  forall (rest prefix : list A),
    whole = prefix ++ rest ->
    match find_from pred whole (List.length prefix) rest with
    | Some el =>
        exists i, nth_error whole i = Some el
                  /\ pred el i whole = true
                  /\ (forall j e, (List.length prefix <= j < i)%nat ->
                                  nth_error whole j = Some e ->
                                  pred e j whole = false)
                  /\ (List.length prefix <= i)%nat
    | None =>
        forall j e, (List.length prefix <= j)%nat ->
                    nth_error whole j = Some e -> pred e j whole = false
    end.
Proof.
  induction rest as [|el tl IH]; intros prefix Hw; simpl.
  - intros j e Hj Hn. subst whole. rewrite app_nil_r in Hn.
    assert (Hlt : (j < List.length prefix)%nat)
      by (apply nth_error_Some; congruence).
    lia.
  - assert (Hel : nth_error whole (List.length prefix) = Some el).
    { subst whole. rewrite nth_error_app2 by lia.
      rewrite Nat.sub_diag. reflexivity. }
    destruct (pred el (List.length prefix) whole) eqn:Hp.
    + exists (List.length prefix). repeat split; auto. intros; lia.
    + specialize (IH (prefix ++ [el])).
      rewrite length_app in IH; simpl in IH.
      replace (List.length prefix + 1)%nat with (S (List.length prefix))
        in IH by lia.
      assert (Hw' : whole = (prefix ++ [el]) ++ tl)
        by (rewrite <- app_assoc; exact Hw).
      specialize (IH Hw').
      destruct (find_from pred whole (S (List.length prefix)) tl).
      * destruct IH as (i & Hi & Hpi & Hfirst & Hle).
        exists i. repeat split; auto; [|lia].
        intros j e Hj Hn.
        destruct (Nat.eq_dec j (List.length prefix)) as [->|Hne].
        -- rewrite Hel in Hn. injection Hn as <-. exact Hp.
        -- apply (Hfirst j e); [lia|exact Hn].
      * intros j e Hj Hn.
        destruct (Nat.eq_dec j (List.length prefix)) as [->|Hne].
        -- rewrite Hel in Hn. injection Hn as <-. exact Hp.
        -- apply (IH j e); [lia|exact Hn].
Qed.

Section Selection.

Variable Contract : Type.

Lemma hasGasEstimate_succeeded (l : list (EstimatedSwapCall Contract))
      (i : nat) (el : EstimatedSwapCall Contract) :
  nth_error l i = Some el ->
  (hasGasEstimate Contract el = true <-> succeeded Contract l i).
Proof.
  intros Hn. unfold succeeded. split.
  - destruct el as [c g|c e]; simpl; [|discriminate].
    intros _. exists c, g. exact Hn.
  - intros (c & g & Hs). rewrite Hn in Hs. injection Hs as ->.
    reflexivity.
Qed.

(** The callback of [find] accepts exactly the candidates that qualify. *)
Lemma isSuccessfulEstimation_qualifies
      (l : list (EstimatedSwapCall Contract)) (i : nat)
      (el : EstimatedSwapCall Contract) :
  nth_error l i = Some el ->
  (isSuccessfulEstimation Contract el i l = true
   <-> qualifies Contract l i).
Proof.
  intros Hn.
  assert (Hlt : (i < List.length l)%nat)
    by (apply nth_error_Some; congruence).
  unfold isSuccessfulEstimation, qualifies.
  rewrite andb_true_iff, orb_true_iff, Nat.eqb_eq.
  rewrite (hasGasEstimate_succeeded l i el Hn).
  replace (i + 1)%nat with (S i) by lia.
  assert (Hnext :
            match nth_error l (S i) with
            | Some next => hasGasEstimate Contract next
            | None => false
            end = true <-> succeeded Contract l (S i)).
  { destruct (nth_error l (S i)) as [nx|] eqn:Hs.
    - apply hasGasEstimate_succeeded. exact Hs.
    - split; [discriminate|].
      intros (c & g & H). rewrite Hs in H. discriminate. }
  rewrite Hnext. split.
  - intros [Hs [Hlast|Hnx]]; split; auto. left. lia.
  - intros [Hs [Hlast|Hnx]]; split; auto. left. lia.
Qed.

(** The last entry of the filtered list carries the last error. *)
Lemma last_failed (l : list (EstimatedSwapCall Contract)) :
  let errorCalls := filter (hasError Contract) l in
  match lastError Contract l with
  | Some e =>
      exists c k,
        List.length errorCalls = S k
        /\ nth_error errorCalls k = Some (FailedCall Contract c e)
  | None => errorCalls = []
  end.
Proof.
  induction l as [|el tl IH]; simpl.
  - reflexivity.
  - destruct el as [c g|c e]; simpl.
    + destruct (lastError Contract tl); exact IH.
    + destruct (lastError Contract tl) as [e'|].
      * destruct IH as (c' & k & Hlen & Hk).
        exists c', (S k). simpl. rewrite Hlen. split; [reflexivity|exact Hk].
      * simpl in IH. rewrite IH. exists c, 0%nat. split; reflexivity.
Qed.

(** What [selectEstimation] throws when [find] found nothing. *)
Lemma selectEstimation_throws (l : list (EstimatedSwapCall Contract)) :
  find (isSuccessfulEstimation Contract) l = None ->
  selectEstimation Contract l
  = Throw (match lastError Contract l with
           | Some e => e
           | None => noneThrew
           end).
Proof.
  intros Hf. unfold selectEstimation. rewrite Hf.
  pose proof (last_failed l) as Hlast. simpl in Hlast.
  destruct (lastError Contract l) as [e|].
  - destruct Hlast as (c & k & Hlen & Hk).
    rewrite Hlen. simpl Nat.ltb. cbv iota.
    replace (S k - 1)%nat with k by lia. rewrite Hk. reflexivity.
  - rewrite Hlast. reflexivity.
Qed.

Lemma selectEstimation_found (l : list (EstimatedSwapCall Contract))
      (el : EstimatedSwapCall Contract) :
  selectEstimation Contract l = Ok el
  <-> exists i, nth_error l i = Some el
                /\ qualifies Contract l i
                /\ forall j, (j < i)%nat -> ~ qualifies Contract l j.
Proof.
  pose proof (find_from_first (isSuccessfulEstimation Contract) l l []
                              eq_refl) as Hfind.
  simpl in Hfind. fold (find (isSuccessfulEstimation Contract) l) in Hfind.
  destruct (find (isSuccessfulEstimation Contract) l) as [found|] eqn:Hf.
  - destruct Hfind as (i & Hi & Hp & Hfirst & _).
    assert (Hsel : selectEstimation Contract l = Ok found)
      by (unfold selectEstimation; rewrite Hf; reflexivity).
    rewrite Hsel. split.
    + intros H; injection H as <-. exists i. repeat split.
      * exact Hi.
      * apply (isSuccessfulEstimation_qualifies l i found Hi); exact Hp.
      * apply (isSuccessfulEstimation_qualifies l i found Hi); exact Hp.
      * intros j Hj Hq.
        assert (Hlt : (j < List.length l)%nat).
        { assert (i < List.length l)%nat
            by (apply nth_error_Some; congruence). lia. }
        destruct (nth_error l j) as [e|] eqn:Hej;
          [|apply nth_error_None in Hej; lia].
        apply (isSuccessfulEstimation_qualifies l j e Hej) in Hq.
        rewrite (Hfirst j e) in Hq; [discriminate|lia|exact Hej].
    + intros (i' & Hi' & Hq' & Hmin).
      assert (Hq : qualifies Contract l i)
        by (apply (isSuccessfulEstimation_qualifies l i found Hi); exact Hp).
      assert (Hii : i = i').
      { destruct (Nat.lt_trichotomy i i') as [Hlt|[Heq|Hgt]]; auto.
        - exfalso. apply (Hmin i Hlt Hq).
        - exfalso.
          apply (isSuccessfulEstimation_qualifies l i' el Hi') in Hq'.
          rewrite (Hfirst i' el) in Hq'; [discriminate|lia|exact Hi']. }
      subst i'. rewrite Hi in Hi'. congruence.
  - rewrite (selectEstimation_throws l Hf). split; [discriminate|].
    intros (i & Hi & Hq & _). exfalso.
    apply (isSuccessfulEstimation_qualifies l i el Hi) in Hq.
    rewrite (Hfind i el) in Hq; [discriminate|lia|exact Hi].
Qed.

End Selection.

(** A candidate is estimated as successful exactly when the provider
    answers its gas estimation. *)
Lemma estimate_hasGasEstimate (Contract : Type)
      (estimateGas : SwapCall Contract -> option Z)
      (callStatic : SwapCall Contract -> StaticOutcome)
      (call : SwapCall Contract) :
  hasGasEstimate Contract (estimate Contract estimateGas callStatic call) = true
  <-> exists gasEstimate, estimateGas call = Some gasEstimate.
Proof.
  unfold estimate. destruct (estimateGas call) as [g|]; simpl.
  - split; eauto.
  - destruct (callStatic call); simpl; split;
      try discriminate; intros [g H]; discriminate.
Qed.

(** C1 as stated fails: with two candidates that both succeeded, the
    standard call [callA] first and the fee-on-transfer call [callB]
    second, the orchestrator selects [callA], not [callB]; and when
    [callA] succeeded and [callB] failed it selects nothing and throws
    the error of [callB]. *)
Lemma selectEstimation_first_of_two_successes :
  selectEstimation string
    [SuccessfulCall string Samples.callA 150000;
     SuccessfulCall string Samples.callB 160000]
  = Ok (SuccessfulCall string Samples.callA 150000)
  /\ SwapCallback.methodName (parameters string Samples.callA)
     = "swapExactTokensForTokens"%string
  /\ SwapCallback.methodName (parameters string Samples.callB)
     = "swapExactTokensForTokensSupportingFeeOnTransferTokens"%string
  /\ selectEstimation string
       [SuccessfulCall string Samples.callA 150000;
        FailedCall string Samples.callB (slippageMessage)]
     = Throw slippageMessage.
Proof. repeat split. Qed.

(** C1, amended: the orchestrator selects the first candidate, in list
    order, that succeeded gas estimation and is either the last candidate
    or directly followed by a candidate that succeeded too.  For two
    candidates [A, B]: both succeed selects A; A fails and B succeeds
    selects B; A succeeds and B fails, or both fail, throws the error of B.
    When no candidate qualifies, the error of the last failed candidate is
    thrown, or the generic fault when no failure was captured. *)
Theorem selectEstimation_rule :
  forall (Contract : Type) (l : list (EstimatedSwapCall Contract)),
    (forall el,
        selectEstimation Contract l = Ok el
        <-> exists i, nth_error l i = Some el
                      /\ qualifies Contract l i
                      /\ forall j, (j < i)%nat -> ~ qualifies Contract l j)
    /\ ((forall i, ~ qualifies Contract l i) ->
        selectEstimation Contract l
        = Throw (match lastError Contract l with
                 | Some e => e
                 | None => noneThrew
                 end))
    /\ (forall a b ga gb ea eb,
           selectEstimation Contract
             [SuccessfulCall Contract a ga; SuccessfulCall Contract b gb]
           = Ok (SuccessfulCall Contract a ga)
           /\ selectEstimation Contract
                [FailedCall Contract a ea; SuccessfulCall Contract b gb]
              = Ok (SuccessfulCall Contract b gb)
           /\ selectEstimation Contract
                [SuccessfulCall Contract a ga; FailedCall Contract b eb]
              = Throw eb
           /\ selectEstimation Contract
                [FailedCall Contract a ea; FailedCall Contract b eb]
              = Throw eb)
    /\ selectEstimation Contract [] = Throw noneThrew.
Proof.
  intros Contract l. split; [|split; [|split]].
  - intros el. apply selectEstimation_found.
  - intros Hnone. apply selectEstimation_throws.
    destruct (find (isSuccessfulEstimation Contract) l) as [found|] eqn:Hf;
      [|reflexivity].
    exfalso.
    assert (Hsel : selectEstimation Contract l = Ok found)
      by (unfold selectEstimation; rewrite Hf; reflexivity).
    apply selectEstimation_found in Hsel.
    destruct Hsel as (i & _ & Hq & _). exact (Hnone i Hq).
  - intros a b ga gb ea eb. repeat split.
  - reflexivity.
Qed.

(** *** The builder *)

(** C7 as stated fails: on the v1 exchange, with the trade, the recipient,
    the account, the chain and the deadline all present and an EXACT_INPUT
    trade, the builder yields one descriptor, the v1 call, and no
    fee-on-transfer descriptor. *)
Lemma useSwapCallArguments_v1_single_descriptor :
  Trades.tradeType Samples.daiUsdcAt1 = Trades.EXACT_INPUT
  /\ useSwapCallArguments string unit 50 (DecimalJs.ofZ 10000) 10000
       Samples.routerContract (Samples.builderContext v1)
       (Some Samples.daiUsdcAt1) (Some 50) None
     = Ok [mkSwapCallAsync string
             (V1SwapArguments Samples.daiUsdcAt1
                (mkV1Options (SdkFraction.mkFraction 50 10000)
                   "0xd8dA6BF26964aF9D7eEd9e03E53415D37aA96045" 1700000000))
             "v1Exchange"%string].
Proof. split; reflexivity. Qed.

Section Builder.

Variables Contract Library : Type.
Variable INITIAL_ALLOWED_SLIPPAGE : Z.
Variable W3BIPS_BASE : DecimalJs.Decimal.
Variable BIPS_BASE : Z.
Variable getRouterContract : Z -> Library -> string -> Contract.

Let build :=
  useSwapCallArguments Contract Library INITIAL_ALLOWED_SLIPPAGE
                       W3BIPS_BASE BIPS_BASE getRouterContract.

Lemma truthy_string_ne (s : string) :
  s <> EmptyString -> truthy_string s = true.
Proof.
  intros H. unfold truthy_string.
  destruct (String.eqb s "") eqn:E; [|reflexivity].
  apply String.eqb_eq in E. contradiction.
Qed.

Lemma truthy_number_ne (n : Z) : n <> 0 -> truthy_number n = true.
Proof.
  intros H. unfold truthy_number.
  destruct (n =? 0) eqn:E; [|reflexivity].
  apply Z.eqb_eq in E. contradiction.
Qed.

Lemma toNumber_safe (d : Z) :
  Z.abs d <= MAX_SAFE_INTEGER -> toNumber d = Ok d.
Proof.
  intros H. unfold toNumber.
  destruct (Z.abs d <=? MAX_SAFE_INTEGER) eqn:E; [reflexivity|].
  apply Z.leb_gt in E. lia.
Qed.

(** With every input present the builder yields, on the v2 router, the
    standard descriptor followed by the fee-on-transfer one exactly when
    the trade is EXACT_INPUT, and on the v1 exchange one descriptor. *)
Lemma useSwapCallArguments_complete
      (ctx : BuilderContext Contract Library) (trade : Trades.W3Trade)
      (allowedSlippage : Z) (recipientAddressOrName : option string)
      (recipient acct : string) (lib : Library) (cid d : Z) :
  resolveRecipient Contract Library ctx recipientAddressOrName
  = Some recipient ->
  library Contract Library ctx = Some lib ->
  account Contract Library ctx = Some acct ->
  chainId Contract Library ctx = Some cid ->
  deadline Contract Library ctx = Some d ->
  recipient <> EmptyString -> acct <> EmptyString -> cid <> 0 ->
  Z.abs d <= MAX_SAFE_INTEGER ->
  build ctx (Some trade) (Some allowedSlippage) recipientAddressOrName
  = match toggledVersion Contract Library ctx with
    | v2 =>
        let router := getRouterContract cid lib acct in
        let slippage := DecimalJs.div (DecimalJs.ofZ allowedSlippage)
                                      W3BIPS_BASE in
        let standard :=
          mkSwapCallAsync Contract
            (W3SwapCallParameters trade
               (mkW3Options false slippage recipient d)) router in
        let tolerant :=
          mkSwapCallAsync Contract
            (W3SwapCallParameters trade
               (mkW3Options true slippage recipient d)) router in
        match Trades.tradeType trade with
        | Trades.EXACT_INPUT => Ok [standard; tolerant]
        | Trades.EXACT_OUTPUT => Ok [standard]
        end
    | v1 =>
        match v1Exchange Contract Library ctx with
        | Some exchange =>
            Ok [mkSwapCallAsync Contract
                  (V1SwapArguments trade
                     (mkV1Options
                        (SdkFraction.mkFraction allowedSlippage BIPS_BASE)
                        recipient d)) exchange]
        | None => Ok []
        end
    end.
Proof.
  intros Hr Hl Ha Hc Hd Hr0 Ha0 Hc0 Hsafe.
  unfold build, useSwapCallArguments.
  rewrite Hr, Hl, Ha, Hc, Hd.
  rewrite (truthy_string_ne _ Hr0), (truthy_string_ne _ Ha0),
    (truthy_number_ne _ Hc0).
  simpl negb. simpl orb. cbv iota.
  destruct (toggledVersion Contract Library ctx).
  - destruct (v1Exchange Contract Library ctx); [|reflexivity].
    cbn [bind]. rewrite (toNumber_safe d Hsafe). reflexivity.
  - cbn [bind]. rewrite (toNumber_safe d Hsafe). cbn [bind].
    destruct (Trades.tradeType trade); cbn [Trades.W3TradeType_eqb].
    + reflexivity.
    + reflexivity.
Qed.

(** Without a trade, a recipient, a library, an account, a chain or a
    deadline there are no candidates, and no error. *)
Lemma useSwapCallArguments_incomplete
      (ctx : BuilderContext Contract Library)
      (trade : option Trades.W3Trade) (allowedSlippage : option Z)
      (recipientAddressOrName : option string) :
  trade = None
  \/ resolveRecipient Contract Library ctx recipientAddressOrName = None
  \/ library Contract Library ctx = None
  \/ account Contract Library ctx = None
  \/ chainId Contract Library ctx = None
  \/ deadline Contract Library ctx = None ->
  build ctx trade allowedSlippage recipientAddressOrName = Ok [].
Proof.
  unfold build, useSwapCallArguments.
  intros [H|[H|[H|[H|[H|H]]]]]; rewrite H;
    repeat match goal with
           | |- context [match ?x with _ => _ end] =>
               match x with
               | trade => destruct trade
               | resolveRecipient _ _ _ _ => destruct x
               | library _ _ _ => destruct x
               | account _ _ _ => destruct x
               | chainId _ _ _ => destruct x
               | deadline _ _ _ => destruct x
               end
           end; reflexivity.
Qed.

End Builder.

(** C7, amended: with the trade, the recipient, the library, the account,
    the chain and the deadline present (and a deadline that converts to a
    number), the builder yields on the v2 router exactly one standard
    descriptor, followed by exactly one fee-on-transfer descriptor if and
    only if the trade is EXACT_INPUT; on the v1 exchange it yields exactly
    one descriptor whatever the trade type (none when there is no exchange
    contract); when one of these inputs is missing it yields the empty
    list, not an error. *)
Theorem useSwapCallArguments_candidates :
  forall (Contract Library : Type) (INITIAL_ALLOWED_SLIPPAGE : Z)
         (W3BIPS_BASE : DecimalJs.Decimal) (BIPS_BASE : Z)
         (getRouterContract : Z -> Library -> string -> Contract)
         (ctx : BuilderContext Contract Library)
         (recipientAddressOrName : option string),
    let build :=
      useSwapCallArguments Contract Library INITIAL_ALLOWED_SLIPPAGE
                           W3BIPS_BASE BIPS_BASE getRouterContract ctx in
    (forall trade allowedSlippage recipient acct lib cid d,
        resolveRecipient Contract Library ctx recipientAddressOrName
        = Some recipient ->
        library Contract Library ctx = Some lib ->
        account Contract Library ctx = Some acct ->
        chainId Contract Library ctx = Some cid ->
        deadline Contract Library ctx = Some d ->
        recipient <> EmptyString -> acct <> EmptyString -> cid <> 0 ->
        Z.abs d <= MAX_SAFE_INTEGER ->
        exists calls,
          build (Some trade) (Some allowedSlippage) recipientAddressOrName
          = Ok calls
          /\ match toggledVersion Contract Library ctx with
             | v2 =>
                 exists standard,
                 isFeeOnTransfer Contract standard = false
                 /\ ((Trades.tradeType trade = Trades.EXACT_INPUT
                      /\ exists tolerant,
                          isFeeOnTransfer Contract tolerant = true
                          /\ calls = [standard; tolerant])
                     \/ (Trades.tradeType trade = Trades.EXACT_OUTPUT
                         /\ calls = [standard]))
             | v1 =>
                 match v1Exchange Contract Library ctx with
                 | Some _ =>
                     exists only,
                     isFeeOnTransfer Contract only = false
                     /\ calls = [only]
                 | None => calls = []
                 end
             end)
    /\ (forall trade allowedSlippage,
           trade = None
           \/ resolveRecipient Contract Library ctx recipientAddressOrName
              = None
           \/ library Contract Library ctx = None
           \/ account Contract Library ctx = None
           \/ chainId Contract Library ctx = None
           \/ deadline Contract Library ctx = None ->
           build trade allowedSlippage recipientAddressOrName = Ok []).
Proof.
  intros Contract Library INITIAL W3B B router ctx who build. split.
  - intros trade slippage recipient acct lib cid d Hr Hl Ha Hc Hd Hr0 Ha0 Hc0
           Hsafe.
    pose proof (useSwapCallArguments_complete
                  Contract Library INITIAL W3B B router ctx trade slippage
                  who recipient acct lib cid d Hr Hl Ha Hc Hd Hr0 Ha0 Hc0
                  Hsafe) as Hbuild.
    fold build in Hbuild. rewrite Hbuild.
    destruct (toggledVersion Contract Library ctx).
    + destruct (v1Exchange Contract Library ctx).
      * eexists; split; [reflexivity|].
        eexists; split; [|reflexivity]. reflexivity.
      * eexists; split; reflexivity.
    + cbv zeta. destruct (Trades.tradeType trade).
      * eexists; split; [reflexivity|].
        eexists; split; [|left; split; [reflexivity|]].
        2:{ eexists; split; [|reflexivity]. reflexivity. }
        reflexivity.
      * eexists; split; [reflexivity|].
        eexists; split; [|right; split; reflexivity]. reflexivity.
  - intros trade slippage H.
    apply useSwapCallArguments_incomplete. exact H.
Qed.

(** On the v2 router a DAI to USDC swap of exact input gets two
    descriptors, the second one tolerant of fees on transfer. *)
Lemma useSwapCallArguments_candidates_witness :
  exists calls,
    useSwapCallArguments string unit 50 (DecimalJs.ofZ 10000) 10000
      Samples.routerContract (Samples.builderContext v2)
      (Some Samples.daiUsdcAt1) (Some 50) None
    = Ok calls
    /\ List.length calls = 2%nat
    /\ map (isFeeOnTransfer string) calls = [false; true].
Proof.
  destruct (proj1 (useSwapCallArguments_candidates
                     string unit 50 (DecimalJs.ofZ 10000) 10000
                     Samples.routerContract (Samples.builderContext v2) None)
                  Samples.daiUsdcAt1 50
                  "0xd8dA6BF26964aF9D7eEd9e03E53415D37aA96045"%string
                  "0xd8dA6BF26964aF9D7eEd9e03E53415D37aA96045"%string
                  tt 1 1700000000
                  eq_refl eq_refl eq_refl eq_refl eq_refl
                  ltac:(discriminate) ltac:(discriminate) ltac:(discriminate)
                  ltac:(vm_compute; discriminate))
    as (calls & Hcalls & Hshape).
  exists calls. split; [exact Hcalls|].
  vm_compute in Hcalls. injection Hcalls as <-. split; reflexivity.
Defined.

End SwapCallbackFacts.

(** ** The permit signer *)

Module ERC20PermitFacts.
Import Js SdkCore ERC20Permit PermitRule.

Lemma isSignatureDataValid_spec
      (stored : option SignatureData) (account tokenAddress spender : string)
      (transactionDeadline nonceNumber : Z) (amount : CurrencyAmount) :
  Z.abs transactionDeadline <= MAX_SAFE_INTEGER ->
  exists b,
    isSignatureDataValid stored account tokenAddress spender
                         transactionDeadline nonceNumber amount = Ok b
    /\ (b = true
        <-> exists sig,
            stored = Some sig
            /\ matchesContext sig account tokenAddress spender
                              transactionDeadline nonceNumber amount).
Proof.
  intros Hsafe. unfold isSignatureDataValid, matchesContext.
  destruct stored as [sig|].
  2:{ exists false. split; [reflexivity|]. split; [discriminate|].
      intros (sig & H & _). discriminate. }
  destruct (String.eqb (owner sig) account) eqn:Eo; cbn [negb].
  2:{ exists false. split; [reflexivity|]. split; [discriminate|].
      intros (sig' & H & Ho & _). injection H as <-.
      apply String.eqb_neq in Eo. contradiction. }
  apply String.eqb_eq in Eo.
  unfold toNumber.
  destruct (Z.abs transactionDeadline <=? MAX_SAFE_INTEGER) eqn:E;
    [|apply Z.leb_gt in E; lia].
  cbn [bind]. eexists. split; [reflexivity|].
  rewrite !andb_true_iff, Z.leb_le, !String.eqb_eq, Z.eqb_eq.
  split.
  - intros ((((Hd & Ht) & Hn) & Hs) & Hv). exists sig.
    split; [reflexivity|]. repeat split; auto.
    destruct (signedValue sig); [apply Z.eqb_eq; exact Hv|exact I].
  - intros (sig' & H & _ & Ht & Hs & Hn & Hd & Hv). injection H as <-.
    repeat split; auto.
    destruct (signedValue sig); [apply Z.eqb_eq; exact Hv|reflexivity].
Qed.

Section Hook.

Variables Provider Contract : Type.
Variable PERMITTABLE_TOKENS : Z -> string -> option PermitInfo.

Lemma present_some {A} (truthy : A -> bool) (x : option A) :
  present truthy x = true -> exists a, x = Some a.
Proof. destruct x as [a|]; [eauto|discriminate]. Qed.

Lemma is_some_some {A} (x : option A) :
  is_some x = true -> exists a, x = Some a.
Proof. destruct x as [a|]; [eauto|discriminate]. Qed.

(** Past the two gates the hook returns SIGNED with the stored signature
    or NOT_SIGNED without it, according to [isSignatureDataValid]. *)
Lemma useERC20Permit_past_gates
      (ctx : HookContext Provider Contract) (amount : CurrencyAmount)
      (spender : string) (transactionDeadline nonceNumber : Z)
      (overridePermitInfo : option PermitInfo) (acct tok : string) :
  notApplicable Provider Contract PERMITTABLE_TOKENS ctx (Some amount)
                (Some spender) (Some transactionDeadline)
                overridePermitInfo = false ->
  account Provider Contract ctx = Some acct ->
  tokenAddress (Some amount) = Some tok ->
  loading (tokenNonceState Provider Contract ctx) = false ->
  result0 (tokenNonceState Provider Contract ctx) = Some nonceNumber ->
  Z.abs nonceNumber <= MAX_SAFE_INTEGER ->
  forall b,
    isSignatureDataValid (signatureData Provider Contract ctx) acct tok
                         spender transactionDeadline nonceNumber amount
    = Ok b ->
    exists gatherFn,
      useERC20Permit Provider Contract PERMITTABLE_TOKENS ctx (Some amount)
                     (Some spender) (Some transactionDeadline)
                     overridePermitInfo
      = Ok (mkPermitResult
              (if b then signatureData Provider Contract ctx else None)
              (if b then SIGNED else NOT_SIGNED)
              (Some gatherFn)).
Proof.
  intros Happ Hacct Htok Hload Hres Hsafe b Hvalid.
  unfold useERC20Permit. rewrite Happ.
  unfold notApplicable in Happ.
  apply orb_false_iff in Happ; destruct Happ as [Happ Hinfo].
  do 5 (apply orb_false_iff in Happ; destruct Happ as [Happ _]).
  apply orb_false_iff in Happ; destruct Happ as [_ Hcid].
  apply negb_false_iff in Hinfo, Hcid.
  destruct (present_some _ _ Hcid) as [cid Hcid'].
  destruct (is_some_some _ Hinfo) as [info Hinfo'].
  rewrite Hacct, Hcid', Htok, Hinfo', Hres, Hload.
  unfold toNumber at 1.
  destruct (Z.abs nonceNumber <=? MAX_SAFE_INTEGER) eqn:E;
    [|apply Z.leb_gt in E; lia].
  cbn [bind]. rewrite Hvalid. cbn [bind].
  eexists. reflexivity.
Qed.

End Hook.

(** C8: when the permit flow applies and the nonce has resolved, the state
    is SIGNED if and only if there is a stored signature whose owner, token
    address, spender and nonce are those of the current context, whose
    deadline is not before the transaction deadline and, when it signs an
    amount, whose amount is the amount to approve; otherwise the state is
    NOT_SIGNED and no signature is returned. *)
Theorem useERC20Permit_signed_iff :
  forall (Provider Contract : Type)
         (PERMITTABLE_TOKENS : Z -> string -> option PermitInfo)
         (ctx : HookContext Provider Contract) (amount : CurrencyAmount)
         (spender : string) (transactionDeadline nonceNumber : Z)
         (overridePermitInfo : option PermitInfo) (acct tok : string),
    notApplicable Provider Contract PERMITTABLE_TOKENS ctx (Some amount)
                  (Some spender) (Some transactionDeadline)
                  overridePermitInfo = false ->
    account Provider Contract ctx = Some acct ->
    tokenAddress (Some amount) = Some tok ->
    loading (tokenNonceState Provider Contract ctx) = false ->
    result0 (tokenNonceState Provider Contract ctx) = Some nonceNumber ->
    Z.abs nonceNumber <= MAX_SAFE_INTEGER ->
    Z.abs transactionDeadline <= MAX_SAFE_INTEGER ->
    exists out,
      useERC20Permit Provider Contract PERMITTABLE_TOKENS ctx (Some amount)
                     (Some spender) (Some transactionDeadline)
                     overridePermitInfo = Ok out
      /\ (state out = SIGNED
          <-> exists sig,
              signatureData Provider Contract ctx = Some sig
              /\ matchesContext sig acct tok spender transactionDeadline
                                nonceNumber amount)
      /\ (state out = SIGNED
          \/ state out = NOT_SIGNED)
      /\ (state out = SIGNED ->
          out_signatureData out
          = signatureData Provider Contract ctx)
      /\ (state out = NOT_SIGNED ->
          out_signatureData out = None).
Proof.
  intros Provider Contract TABLE ctx amount spender d n override acct tok
         Happ Hacct Htok Hload Hres Hn Hd.
  destruct (isSignatureDataValid_spec
              (signatureData Provider Contract ctx) acct tok spender d n
              amount Hd) as (b & Hvalid & Hb).
  destruct (useERC20Permit_past_gates
              Provider Contract TABLE ctx amount spender d n override acct
              tok Happ Hacct Htok Hload Hres Hn b Hvalid) as (g & Hout).
  eexists. split; [exact Hout|]. cbn [state out_signatureData].
  destruct b.
  - repeat split; auto.
    + intros _. apply Hb. reflexivity.
    + discriminate.
  - repeat split; auto.
    + discriminate.
    + intros H. apply Hb in H. discriminate.
    + discriminate.
Qed.

(** The stored signature over 1000 USDC for the router, nonce 7, good
    until 1700001200, in the context that asks for exactly that with a
    transaction deadline of 1700000000: SIGNED, signature returned. *)
Lemma useERC20Permit_signed_iff_witness :
  exists out,
    useERC20Permit unit unit Samples.permitTable Samples.permitContext
      (Some (Samples.usdcAmount 1000)) (Some Samples.routerAddress)
      (Some 1700000000) None = Ok out
    /\ state out = SIGNED
    /\ out_signatureData out = Some Samples.storedSignature.
Proof.
  destruct (useERC20Permit_signed_iff
              unit unit Samples.permitTable Samples.permitContext
              (Samples.usdcAmount 1000) Samples.routerAddress 1700000000 7
              None Samples.holder Samples.usdcAddress
              eq_refl eq_refl eq_refl eq_refl eq_refl
              ltac:(vm_compute; discriminate)
              ltac:(vm_compute; discriminate))
    as (out & Hout & Hiff & _ & Hsigned & _).
  assert (Hstate : state out = SIGNED).
  { apply Hiff. exists Samples.storedSignature.
    split; [reflexivity|].
    unfold matchesContext; simpl. repeat split; lia. }
  exists out. split; [exact Hout|]. split; [exact Hstate|].
  exact (Hsigned Hstate).
Defined.

(** The same signature when 1001 units are to be approved: NOT_SIGNED and
    no signature, although the deadline has not passed. *)
Example useERC20Permit_amount_drift :
  exists gatherFn,
    useERC20Permit unit unit Samples.permitTable Samples.permitContext
      (Some (Samples.usdcAmount 1001)) (Some Samples.routerAddress)
      (Some 1700000000) None
    = Ok (mkPermitResult None NOT_SIGNED (Some gatherFn)).
Proof. eexists. vm_compute. reflexivity. Qed.

End ERC20PermitFacts.

(** ** Client-side route selection *)

Module ClientSideV3TradeFacts.
Import Js SdkCore ClientSideV3Trade RouteRule.

Section Selection.

Variables Uni_Route Uni_Trade : Type.
Variable inputMatches : Uni_Route -> Currency -> bool.
Variable outputMatches : Uni_Route -> Currency -> bool.
Variable tradeType : TradeType.
Variable amountSpecified : CurrencyAmount.
Variables currencyIn currencyOut : Currency.
Variable routes : list Uni_Route.

Local Abbreviation step :=
  (pickBetter Uni_Route tradeType amountSpecified currencyIn currencyOut
              routes).
Local Abbreviation taken :=
  (RouteRule.taken Uni_Route tradeType amountSpecified currencyIn
                   currencyOut routes).
Local Abbreviation summarizes :=
  (RouteRule.summarizes Uni_Route tradeType amountSpecified currencyIn
                        currencyOut routes).

Lemma step_unquoted (acc : Best Uni_Route) (q : CallState) (i : nat) :
  quoted tradeType q = None -> step acc q i = acc.
Proof.
  unfold quoted, step, pickBetter.
  destruct (result q) as [r|]; [|reflexivity].
  destruct tradeType; intros ->; reflexivity.
Qed.

Lemma step_first (q : CallState) (i : nat) (a : Z) :
  quoted tradeType q = Some a ->
  step (initialBest Uni_Route) q i = taken a i.
Proof.
  unfold quoted, step, pickBetter, taken.
  destruct (result q) as [r|]; [|discriminate].
  destruct tradeType; intros ->; reflexivity.
Qed.

Lemma step_compare (q : CallState) (i k : nat) (a b : Z) :
  quoted tradeType q = Some b ->
  (strictlyBetter tradeType b a /\ step (taken a k) q i = taken b i)
  \/ (noWorse tradeType a b /\ step (taken a k) q i = taken a k).
Proof.
  unfold quoted, step, pickBetter, taken, strictlyBetter, noWorse.
  destruct (result q) as [r|]; [|discriminate].
  destruct tradeType; intros ->; cbn.
  - destruct (a <? b) eqn:E.
    + left. apply Z.ltb_lt in E. split; [exact E|reflexivity].
    + right. apply Z.ltb_ge in E. split; [exact E|reflexivity].
  - destruct (a >? b) eqn:E.
    + left. apply Z.gtb_lt in E. split; [exact E|reflexivity].
    + right. rewrite Z.gtb_ltb in E. apply Z.ltb_ge in E.
      split; [exact E|reflexivity].
Qed.

Lemma noWorse_refl (a : Z) : noWorse tradeType a a.
Proof. unfold noWorse; destruct tradeType; lia. Qed.

Lemma better_trans (a b c : Z) :
  strictlyBetter tradeType b a -> noWorse tradeType a c ->
  strictlyBetter tradeType b c.
Proof. unfold strictlyBetter, noWorse; destruct tradeType; lia. Qed.

Lemma better_noWorse (a b : Z) :
  strictlyBetter tradeType a b -> noWorse tradeType a b.
Proof. unfold strictlyBetter, noWorse; destruct tradeType; lia. Qed.

Lemma nth_error_snoc (seen : list CallState) (q q' : CallState) (j : nat) :
  nth_error (seen ++ [q]) j = Some q' ->
  ((j < List.length seen)%nat /\ nth_error seen j = Some q')
  \/ (j = List.length seen /\ q' = q).
Proof.
  intros H. destruct (Nat.lt_ge_cases j (List.length seen)) as [Hlt|Hge].
  - left. rewrite nth_error_app1 in H by exact Hlt. auto.
  - right. rewrite nth_error_app2 in H by exact Hge.
    destruct (j - List.length seen)%nat as [|n] eqn:E.
    + simpl in H. injection H as <-. split; [lia|reflexivity].
    + simpl in H. destruct n; discriminate.
Qed.

Lemma summarizes_step (seen : list CallState) (acc : Best Uni_Route)
      (q : CallState) :
  summarizes seen acc ->
  summarizes (seen ++ [q]) (step acc q (List.length seen)).
Proof.
  intros Hinv.
  assert (Hq : nth_error (seen ++ [q]) (List.length seen) = Some q).
  { rewrite nth_error_app2 by lia. rewrite Nat.sub_diag. reflexivity. }
  destruct (quoted tradeType q) as [b|] eqn:Hb.
  - destruct Hinv as [[Hnone ->] | (i & qi & a & Hi & Ha & -> & Hmax & Hfirst)].
    + right. exists (List.length seen), q, b.
      rewrite (step_first q _ b Hb). repeat split; auto.
      * intros j q' b' Hj Hb'.
        destruct (nth_error_snoc _ _ _ _ Hj) as [[_ Hj']|[_ ->]].
        -- rewrite (Hnone j q' Hj') in Hb'. discriminate.
        -- rewrite Hb in Hb'. injection Hb' as <-. apply noWorse_refl.
      * intros j q' b' Hlt Hj Hb'.
        destruct (nth_error_snoc _ _ _ _ Hj) as [[_ Hj']|[Heq _]]; [|lia].
        rewrite (Hnone j q' Hj') in Hb'. discriminate.
    + assert (Hilt : (i < List.length seen)%nat)
        by (apply nth_error_Some; congruence).
      destruct (step_compare q (List.length seen) i a b Hb)
        as [[Hbetter ->] | [Hkeep ->]].
      * right. exists (List.length seen), q, b. repeat split; auto.
        -- intros j q' b' Hj Hb'.
           destruct (nth_error_snoc _ _ _ _ Hj) as [[_ Hj']|[_ ->]].
           ++ apply better_noWorse.
              apply (better_trans a b b' Hbetter).
              apply (Hmax j q' b' Hj' Hb').
           ++ rewrite Hb in Hb'. injection Hb' as <-. apply noWorse_refl.
        -- intros j q' b' Hlt Hj Hb'.
           destruct (nth_error_snoc _ _ _ _ Hj) as [[_ Hj']|[Heq _]];
             [|lia].
           apply (better_trans a b b' Hbetter).
           apply (Hmax j q' b' Hj' Hb').
      * right. exists i, qi, a. repeat split; auto.
        -- rewrite nth_error_app1 by exact Hilt. exact Hi.
        -- intros j q' b' Hj Hb'.
           destruct (nth_error_snoc _ _ _ _ Hj) as [[_ Hj']|[_ ->]].
           ++ apply (Hmax j q' b' Hj' Hb').
           ++ rewrite Hb in Hb'. injection Hb' as <-. exact Hkeep.
        -- intros j q' b' Hlt Hj Hb'.
           destruct (nth_error_snoc _ _ _ _ Hj) as [[_ Hj']|[Heq _]];
             [|lia].
           apply (Hfirst j q' b' Hlt Hj' Hb').
  - rewrite (step_unquoted acc q _ Hb).
    destruct Hinv as [[Hnone ->] | (i & qi & a & Hi & Ha & -> & Hmax & Hfirst)].
    + left. split; [|reflexivity]. intros j q' Hj.
      destruct (nth_error_snoc _ _ _ _ Hj) as [[_ Hj']|[_ ->]];
        [apply (Hnone j q' Hj')|exact Hb].
    + assert (Hilt : (i < List.length seen)%nat)
        by (apply nth_error_Some; congruence).
      right. exists i, qi, a. repeat split; auto.
      * rewrite nth_error_app1 by exact Hilt. exact Hi.
      * intros j q' b' Hj Hb'.
        destruct (nth_error_snoc _ _ _ _ Hj) as [[_ Hj']|[_ ->]].
        -- apply (Hmax j q' b' Hj' Hb').
        -- rewrite Hb in Hb'. discriminate.
      * intros j q' b' Hlt Hj Hb'.
        destruct (nth_error_snoc _ _ _ _ Hj) as [[_ Hj']|[Heq _]]; [|lia].
        apply (Hfirst j q' b' Hlt Hj' Hb').
Qed.

Lemma summarizes_reduce (rest : list CallState) :
  forall (seen : list CallState) (acc : Best Uni_Route),
    summarizes seen acc ->
    summarizes (seen ++ rest)
               (reduce_from step (List.length seen) rest acc).
Proof.
  induction rest as [|q rest IH]; intros seen acc Hinv; simpl.
  - rewrite app_nil_r. exact Hinv.
  - pose proof (IH (seen ++ [q]) _ (summarizes_step seen acc q Hinv)) as H.
    rewrite length_app, <- app_assoc in H. simpl in H.
    replace (List.length seen + 1)%nat with (S (List.length seen)) in H
      by lia.
    exact H.
Qed.

(** The accumulator the reduction ends with summarizes all the quotes. *)
Lemma bestQuote_summarizes (quotesResults : list CallState) :
  summarizes quotesResults
             (bestQuote Uni_Route tradeType amountSpecified currencyIn
                        currencyOut routes quotesResults).
Proof.
  unfold bestQuote, reduce.
  apply (summarizes_reduce quotesResults [] (initialBest Uni_Route)).
  left. split; [|reflexivity].
  intros j q H. destruct j; discriminate.
Qed.

End Selection.

(** The reduction, by position: once the amount and both currencies are
    there, the currencies differ, and every quote is valid and loaded,
    either no quote carries an amount and the result is set to
    NO_ROUTE_FOUND with no trade, or the quote that is taken is the first
    one with the largest output amount (exact input) or the smallest input
    amount (exact output), and the trade is requested for the route at the
    index of that quote in the list of quotes.  That route is the one the
    quote was made for only when the quotes are indexed like the routes;
    [RouteAlignmentFacts] shows that the hook does not ensure it. *)
Theorem deriveTrade_best_route :
  forall (Uni_Route Uni_Trade : Type)
         (inputMatches outputMatches : Uni_Route -> Currency -> bool)
         (tradeType : TradeType) (amountSpecified : CurrencyAmount)
         (otherCurrency : Currency) (routes : list Uni_Route)
         (quotesResults : list CallState),
    equals (currency amountSpecified) otherCurrency = false ->
    existsb (fun q => negb (valid q)) quotesResults = false ->
    existsb loading quotesResults = false ->
    let effect :=
      deriveTrade Uni_Route Uni_Trade inputMatches outputMatches tradeType
                  (Some amountSpecified) (Some otherCurrency) routes false
                  quotesResults in
    ((forall j q, nth_error quotesResults j = Some q ->
                  quoted tradeType q = None)
     /\ effect
        = SetResult Uni_Route Uni_Trade
                    (mkTradeResult Uni_Trade NO_ROUTE_FOUND None))
    \/ (exists i q a,
           nth_error quotesResults i = Some q
           /\ quoted tradeType q = Some a
           /\ (forall j q' b, nth_error quotesResults j = Some q' ->
                              quoted tradeType q' = Some b ->
                              noWorse tradeType a b)
           /\ (forall j q' b, (j < i)%nat ->
                              nth_error quotesResults j = Some q' ->
                              quoted tradeType q' = Some b ->
                              strictlyBetter tradeType a b)
           /\ effect
              = match nth_error routes i with
                | Some bestRoute =>
                    let (amountIn, amountOut) :=
                      tradeAmounts tradeType amountSpecified otherCurrency a
                    in
                    if negb (inputMatches bestRoute (currency amountIn))
                    then NoUpdate Uni_Route Uni_Trade
                    else if negb (outputMatches bestRoute
                                                (currency amountOut))
                    then NoUpdate Uni_Route Uni_Trade
                    else CreateUncheckedTrade Uni_Route Uni_Trade bestRoute
                                              amountIn amountOut tradeType
                | None =>
                    SetResult Uni_Route Uni_Trade
                              (mkTradeResult Uni_Trade NO_ROUTE_FOUND None)
                end).
Proof.
  intros Uni_Route Uni_Trade inputMatches outputMatches tradeType
         amountSpecified otherCurrency routes quotesResults Hdiff Hvalid
         Hloaded effect.
  destruct tradeType.
  - pose proof (bestQuote_summarizes
                  Uni_Route EXACT_INPUT amountSpecified
                  (currency amountSpecified) otherCurrency routes
                  quotesResults) as Hsum.
    assert (Heffect :
              effect
              = let best := bestQuote Uni_Route EXACT_INPUT amountSpecified
                                      (currency amountSpecified)
                                      otherCurrency routes quotesResults in
                match bestRoute Uni_Route best, amountIn Uni_Route best,
                      amountOut Uni_Route best with
                | Some bestRoute, Some amountIn, Some amountOut =>
                    if negb (inputMatches bestRoute (currency amountIn))
                    then NoUpdate Uni_Route Uni_Trade
                    else if negb (outputMatches bestRoute
                                                (currency amountOut))
                    then NoUpdate Uni_Route Uni_Trade
                    else CreateUncheckedTrade Uni_Route Uni_Trade bestRoute
                                              amountIn amountOut EXACT_INPUT
                | _, _, _ =>
                    SetResult Uni_Route Uni_Trade
                              (mkTradeResult Uni_Trade NO_ROUTE_FOUND None)
                end).
    { unfold effect, deriveTrade, endpoints; cbn [option_map].
      rewrite Hvalid, Hdiff, Hloaded. reflexivity. }
    rewrite Heffect. cbv zeta.
    destruct Hsum as [[Hnone ->] | (i & q & a & Hi & Ha & -> & Hmax & Hfirst)].
    + left. split; [exact Hnone|reflexivity].
    + right. exists i, q, a.
      split; [exact Hi|]. split; [exact Ha|]. split; [exact Hmax|].
      split; [exact Hfirst|].
      unfold taken, tradeAmounts; cbn.
      destruct (nth_error routes i); reflexivity.
  - pose proof (bestQuote_summarizes
                  Uni_Route EXACT_OUTPUT amountSpecified otherCurrency
                  (currency amountSpecified) routes quotesResults) as Hsum.
    assert (Heffect :
              effect
              = let best := bestQuote Uni_Route EXACT_OUTPUT amountSpecified
                                      otherCurrency
                                      (currency amountSpecified) routes
                                      quotesResults in
                match bestRoute Uni_Route best, amountIn Uni_Route best,
                      amountOut Uni_Route best with
                | Some bestRoute, Some amountIn, Some amountOut =>
                    if negb (inputMatches bestRoute (currency amountIn))
                    then NoUpdate Uni_Route Uni_Trade
                    else if negb (outputMatches bestRoute
                                                (currency amountOut))
                    then NoUpdate Uni_Route Uni_Trade
                    else CreateUncheckedTrade Uni_Route Uni_Trade bestRoute
                                              amountIn amountOut EXACT_OUTPUT
                | _, _, _ =>
                    SetResult Uni_Route Uni_Trade
                              (mkTradeResult Uni_Trade NO_ROUTE_FOUND None)
                end).
    { unfold effect, deriveTrade, endpoints; cbn [option_map].
      rewrite Hvalid, Hdiff, Hloaded. reflexivity. }
    rewrite Heffect. cbv zeta.
    destruct Hsum as [[Hnone ->] | (i & q & a & Hi & Ha & -> & Hmax & Hfirst)].
    + left. split; [exact Hnone|reflexivity].
    + right. exists i, q, a.
      split; [exact Hi|]. split; [exact Ha|]. split; [exact Hmax|].
      split; [exact Hfirst|].
      unfold taken, tradeAmounts; cbn.
      destruct (nth_error routes i); reflexivity.
Qed.

(** Quotes of 90, 100 and 100 out for an exact input of 1000 USDC into
    ether: the trade is requested for the second route, the first of the
    two that give 100. *)
Lemma deriveTrade_best_route_witness :
  deriveTrade string unit Samples.anyRoute Samples.anyRoute EXACT_INPUT
              (Some (Samples.usdcAmount 1000)) (Some (NativeCurrency 1))
              Samples.threeRoutes false Samples.threeQuotes
  = CreateUncheckedTrade string unit "viaWETH"%string
      (Samples.usdcAmount 1000) (fromRawAmount (NativeCurrency 1) 100)
      EXACT_INPUT.
Proof.
  destruct (deriveTrade_best_route
              string unit Samples.anyRoute Samples.anyRoute EXACT_INPUT
              (Samples.usdcAmount 1000) (NativeCurrency 1)
              Samples.threeRoutes Samples.threeQuotes
              eq_refl eq_refl eq_refl)
    as [[Hnone _] | (i & q & a & Hi & Ha & Hmax & Hfirst & Heffect)].
  - specialize (Hnone 0%nat (Samples.quote 90) eq_refl). discriminate Hnone.
  - destruct i as [|[|[|i]]]; simpl in Hi.
    + injection Hi as <-. injection Ha as <-.
      specialize (Hmax 1%nat (Samples.quote 100) 100 eq_refl eq_refl).
      simpl in Hmax. lia.
    + injection Hi as <-. injection Ha as <-. exact Heffect.
    + injection Hi as <-. injection Ha as <-.
      assert (Hlt : (1 < 2)%nat) by lia.
      specialize (Hfirst 1%nat (Samples.quote 100) 100 Hlt eq_refl eq_refl).
      simpl in Hfirst. lia.
    + destruct i; discriminate Hi.
Defined.

(** C10: when the amount or one of the two currencies is missing, or when
    the currency of the amount equals the currency of the other side, the
    result is set to INVALID with no trade, whatever the routes and the
    quotes are: no route is selected and no trade is requested. *)
Theorem deriveTrade_invalid :
  forall (Uni_Route Uni_Trade : Type)
         (inputMatches outputMatches : Uni_Route -> Currency -> bool)
         (tradeType : TradeType) (amountSpecified : option CurrencyAmount)
         (otherCurrency : option Currency) (routes : list Uni_Route)
         (routesLoading : bool) (quotesResults : list CallState),
    amountSpecified = None
    \/ fst (endpoints tradeType amountSpecified otherCurrency) = None
    \/ snd (endpoints tradeType amountSpecified otherCurrency) = None
    \/ (exists amount other,
           amountSpecified = Some amount /\ otherCurrency = Some other
           /\ equals (currency amount) other = true) ->
    deriveTrade Uni_Route Uni_Trade inputMatches outputMatches tradeType
                amountSpecified otherCurrency routes routesLoading
                quotesResults
    = SetResult Uni_Route Uni_Trade (mkTradeResult Uni_Trade INVALID None).
Proof.
  intros Uni_Route Uni_Trade inputMatches outputMatches tradeType
         amountSpecified otherCurrency routes routesLoading quotesResults H.
  unfold deriveTrade, endpoints in *.
  destruct H as [-> | [H | [H | (amount & other & -> & -> & Heq)]]].
  - destruct tradeType; reflexivity.
  - destruct tradeType, amountSpecified, otherCurrency;
      simpl in H; try discriminate H; reflexivity.
  - destruct tradeType, amountSpecified, otherCurrency;
      simpl in H; try discriminate H; reflexivity.
  - destruct tradeType; cbn [option_map]; rewrite Heq, orb_true_r;
      reflexivity.
Qed.

(** A swap of USDC into USDC. *)
Lemma deriveTrade_invalid_witness :
  deriveTrade string unit Samples.anyRoute Samples.anyRoute EXACT_INPUT
              (Some (Samples.usdcAmount 1000))
              (Some (Token 1 Samples.usdcAddress))
              Samples.threeRoutes false Samples.threeQuotes
  = SetResult string unit (mkTradeResult unit INVALID None).
Proof.
  apply deriveTrade_invalid.
  right; right; right.
  exists (Samples.usdcAmount 1000), (Token 1 Samples.usdcAddress).
  repeat split.
Defined.

End ClientSideV3TradeFacts.

(** ** From the candidates to the transaction *)

Module SwapSubmissionFacts.
Import Js Promises SwapCallback SelectionRule SwapSubmission
       SwapCallbackFacts.

(** A case analysis on the two revert reasons the orchestrator knows. *)
Ltac split_head P :=
  lazymatch goal with
  | |- P (match ?x with _ => _ end) => destruct x; split_head P
  | |- _ => assumption
  end.

Lemma reason_cases {A} (P : A -> Prop) (r : string) (s d : A) :
  P s -> P d ->
  P (match r with
     | "UniswapV2Router: INSUFFICIENT_OUTPUT_AMOUNT"%string
     | "UniswapV2Router: EXCESSIVE_INPUT_AMOUNT"%string => s
     | _ => d
     end).
Proof. intros Hs Hd. split_head P. Qed.

(** The message captured for a reverted call is the slippage message or
    the message that quotes the revert reason. *)
Lemma errorMessage_cases (reason : option string) :
  errorMessage reason = slippageMessage
  \/ errorMessage reason
     = ("The transaction cannot succeed due to error: "
          ++ match reason with Some r => r | None => "undefined" end
          ++ ". This is probably an issue with one of the tokens you are swapping.")%string.
Proof.
  destruct reason as [r|]; [|right; reflexivity].
  exact (reason_cases
           (fun m =>
              m = slippageMessage
              \/ m = ("The transaction cannot succeed due to error: "
                        ++ r
                        ++ ". This is probably an issue with one of the tokens you are swapping.")%string)
           r _ _ (or_introl eq_refl) (or_intror eq_refl)).
Qed.

Section Estimation.

Variable Contract : Type.
Variable estimateGas : SwapCall Contract -> option Z.
Variable callStatic : SwapCall Contract -> StaticOutcome.

Lemma lastError_In (l : list (EstimatedSwapCall Contract)) (e : string) :
  lastError Contract l = Some e ->
  exists c, In (FailedCall Contract c e) l.
Proof.
  induction l as [|el tl IH]; simpl; [discriminate|].
  destruct (lastError Contract tl) as [e'|].
  - intros H. injection H as <-. destruct (IH eq_refl) as [c Hc].
    exists c. right. exact Hc.
  - destruct el as [c g|c e']; [discriminate|].
    intros H. injection H as <-. exists c. left. reflexivity.
Qed.

Lemma lastError_None (l : list (EstimatedSwapCall Contract)) :
  lastError Contract l = None ->
  forall el, In el l -> hasGasEstimate Contract el = true.
Proof.
  induction l as [|x tl IH]; simpl; [intros _ el []|].
  destruct (lastError Contract tl) as [e'|]; [discriminate|].
  destruct x as [c g|c e']; [|discriminate].
  intros _ el [<-|Hin]; [reflexivity|apply IH; [reflexivity|exact Hin]].
Qed.

(** When every candidate succeeded, the last one is accepted by the
    callback of [find], so [find] finds something. *)
Lemma all_succeeded_found (l : list (EstimatedSwapCall Contract)) :
  l <> [] -> lastError Contract l = None ->
  find (isSuccessfulEstimation Contract) l <> None.
Proof.
  intros Hne Hnone Hfind.
  pose proof (find_from_first (isSuccessfulEstimation Contract) l l []
                              eq_refl) as H.
  simpl in H. fold (find (isSuccessfulEstimation Contract) l) in H.
  rewrite Hfind in H.
  destruct (nth_error l (List.length l - 1)) as [el|] eqn:Hn.
  - assert (Hs : hasGasEstimate Contract el = true)
      by (apply (lastError_None l Hnone); eapply nth_error_In; exact Hn).
    specialize (H _ el (Nat.le_0_l _) Hn).
    unfold isSuccessfulEstimation in H.
    rewrite Hs, Nat.eqb_refl in H. discriminate H.
  - apply nth_error_None in Hn. destruct l; [congruence|simpl in Hn; lia].
Qed.

Lemma estimate_successful (call c : SwapCall Contract) (g : Z) :
  estimate Contract estimateGas callStatic call
  = SuccessfulCall Contract c g ->
  c = call /\ estimateGas call = Some g.
Proof.
  unfold estimate. destruct (estimateGas call) as [g'|].
  - intros H. injection H as <- <-. split; reflexivity.
  - destruct (callStatic call); discriminate.
Qed.

Lemma estimate_failed (call c : SwapCall Contract) (e : string) :
  estimate Contract estimateGas callStatic call = FailedCall Contract c e ->
  c = call /\ estimateGas call = None /\ e <> noneThrew.
Proof.
  unfold estimate. destruct (estimateGas call) as [g'|]; [discriminate|].
  destruct (callStatic call) as [|reason].
  - intros H. injection H as <- <-.
    split; [reflexivity|]. split; [reflexivity|]. discriminate.
  - intros H. injection H as <- <-.
    split; [reflexivity|]. split; [reflexivity|].
    destruct (errorMessage_cases reason) as [-> | ->]; [discriminate|].
    intros H. cbn in H. discriminate H.
Qed.

(** What [estimateAndSelect] returns is a candidate of the list whose gas
    estimation the provider answered. *)
Lemma estimateAndSelect_ok (calls : list (SwapCall Contract))
      (el : EstimatedSwapCall Contract) :
  estimateAndSelect Contract estimateGas callStatic calls = Ok el ->
  exists call gasEstimate,
    el = SuccessfulCall Contract call gasEstimate
    /\ In call calls /\ estimateGas call = Some gasEstimate.
Proof.
  unfold estimateAndSelect. intros H.
  apply selectEstimation_found in H.
  destruct H as (i & Hi & [(c & g & Hs) _] & _).
  rewrite Hi in Hs. injection Hs as ->.
  apply nth_error_In in Hi. apply in_map_iff in Hi.
  destruct Hi as (call & Hcall & Hin).
  apply estimate_successful in Hcall. destruct Hcall as [-> Hg].
  exists call, g. repeat split; assumption.
Qed.

(** What it throws is the error captured for a candidate of the list
    whose gas estimation failed, or the generic fault when there is no
    candidate. *)
Lemma estimateAndSelect_throw (calls : list (SwapCall Contract))
      (e : string) :
  estimateAndSelect Contract estimateGas callStatic calls = Throw e ->
  (calls = [] /\ e = noneThrew)
  \/ exists call,
      In call calls /\ estimateGas call = None
      /\ estimate Contract estimateGas callStatic call
         = FailedCall Contract call e.
Proof.
  unfold estimateAndSelect. intros H.
  set (l := map (estimate Contract estimateGas callStatic) calls) in *.
  destruct (find (isSuccessfulEstimation Contract) l) as [found|] eqn:Hf.
  { unfold selectEstimation in H. rewrite Hf in H. discriminate H. }
  rewrite (selectEstimation_throws Contract l Hf) in H.
  destruct (lastError Contract l) as [e'|] eqn:Hl.
  - injection H as <-. right.
    destruct (lastError_In l e' Hl) as [c Hc].
    apply in_map_iff in Hc. destruct Hc as (call & Hcall & Hin).
    pose proof (estimate_failed call c e' Hcall) as (-> & Hg & _).
    exists call. repeat split; assumption.
  - injection H as <-. left. split; [|reflexivity].
    destruct calls as [|c tl]; [reflexivity|]. exfalso.
    apply (all_succeeded_found l); [discriminate|exact Hl|exact Hf].
Qed.

End Estimation.

(** X1: outcome of the estimation step in terms of the provider.  The
    call that is selected is always a candidate of the list whose gas
    estimation succeeded, never a failed one; an error that is thrown is
    the error captured for a candidate whose gas estimation failed; and
    the generic fault ("none of the calls threw an error") is thrown if
    and only if there is no candidate at all. *)
Theorem estimateAndSelect_provenance :
  forall (Contract : Type) (estimateGas : SwapCall Contract -> option Z)
         (callStatic : SwapCall Contract -> StaticOutcome)
         (calls : list (SwapCall Contract)),
    (forall el,
        estimateAndSelect Contract estimateGas callStatic calls = Ok el ->
        exists call gasEstimate,
          el = SuccessfulCall Contract call gasEstimate
          /\ In call calls /\ estimateGas call = Some gasEstimate)
    /\ (forall e,
           estimateAndSelect Contract estimateGas callStatic calls = Throw e ->
           (calls = [] /\ e = noneThrew)
           \/ exists call,
               In call calls /\ estimateGas call = None
               /\ estimate Contract estimateGas callStatic call
                  = FailedCall Contract call e)
    /\ (estimateAndSelect Contract estimateGas callStatic calls
        = Throw noneThrew <-> calls = []).
Proof.
  intros Contract estimateGas callStatic calls.
  split; [|split].
  - intros el. apply estimateAndSelect_ok.
  - intros e. apply estimateAndSelect_throw.
  - split.
    + intros H. apply estimateAndSelect_throw in H.
      destruct H as [[Hnil _]|(call & _ & _ & Hcall)]; [exact Hnil|].
      apply estimate_failed in Hcall. destruct Hcall as (_ & _ & Hne).
      contradiction.
    + intros ->. reflexivity.
Qed.

Section Submission.

Variables Contract Library : Type.
Variable w3SwapCallParameters :
  Trades.W3Trade -> W3TradeOptions -> Result SwapParameters.
Variable v1SwapArguments : Trades.W3Trade -> V1TradeOptions -> SwapParameters.
Variable isZero : string -> bool.
Variable calculateGasMargin : Z -> Z.
Variable estimateGas : SwapCall Contract -> option Z.
Variable callStatic : SwapCall Contract -> StaticOutcome.
Variable send : SwapCall Contract -> SendOptions -> SendOutcome.
Variable registerTransaction :
  string -> option (option Z * option string).

Lemma awaitAll_In {A B} (f : A -> Result B) (l : list A) :
  forall ys, awaitAll f l = Ok ys ->
             forall y, In y ys -> exists x, In x l /\ f x = Ok y.
Proof.
  induction l as [|x tl IH]; simpl; intros ys H y Hy.
  - injection H as <-. destruct Hy.
  - destruct (f x) as [y0|m] eqn:Hx; [|discriminate H]. cbn [bind] in H.
    destruct (awaitAll f tl) as [ys0|m]; [|discriminate H].
    cbn [bind] in H. injection H as <-.
    destruct Hy as [<-|Hy].
    + exists x. split; [left; reflexivity|exact Hx].
    + destruct (IH ys0 eq_refl y Hy) as (x' & Hin & Hfx).
      exists x'. split; [right; exact Hin|exact Hfx].
Qed.

Lemma awaitAll_Throw {A B} (f : A -> Result B) (l : list A) (e : string) :
  awaitAll f l = Throw e -> exists x, In x l /\ f x = Throw e.
Proof.
  induction l as [|x tl IH]; simpl; intros H; [discriminate H|].
  destruct (f x) as [y0|m] eqn:Hx.
  - cbn [bind] in H. destruct (awaitAll f tl) as [ys0|m]; [discriminate H|].
    cbn [bind] in H. injection H as <-.
    destruct (IH eq_refl) as (x' & Hin & Hfx).
    exists x'. split; [right; exact Hin|exact Hfx].
  - cbn [bind] in H. injection H as <-.
    exists x. split; [left; reflexivity|exact Hx].
Qed.

End Submission.

(** X2: what [onSwap] sends and what it reports.  When it resolves with
    a hash, a transaction was sent for one of the candidates, one whose
    gas estimation succeeded, with the margin applied to that estimate as
    gas limit and from the account, and the transaction was registered.
    When it rejects, a candidate's parameters could not be obtained, or
    the estimation step threw, or the wallet refused the transaction or
    registering it failed, which is reported as "Transaction rejected."
    for the code 4001 and as "Swap failed: ..." otherwise. *)
Theorem onSwap_outcome :
  forall (Contract : Type)
         (w3SwapCallParameters :
            Trades.W3Trade -> W3TradeOptions -> Result SwapParameters)
         (v1SwapArguments :
            Trades.W3Trade -> V1TradeOptions -> SwapParameters)
         (isZero : string -> bool) (calculateGasMargin : Z -> Z)
         (estimateGas : SwapCall Contract -> option Z)
         (callStatic : SwapCall Contract -> StaticOutcome)
         (send : SwapCall Contract -> SendOptions -> SendOutcome)
         (registerTransaction : string -> option (option Z * option string))
         (account : string) (swapCalls : list (SwapCallAsync Contract)),
    let resolve :=
      awaitParameters Contract w3SwapCallParameters v1SwapArguments in
    let options (call : SwapCall Contract) (gasEstimate : Z) :=
      let value := value (parameters Contract call) in
      mkSendOptions (calculateGasMargin gasEstimate)
                    (if truthy_string value && negb (isZero value)
                     then Some value else None)
                    account in
    let run :=
      onSwap Contract w3SwapCallParameters v1SwapArguments isZero
             calculateGasMargin estimateGas callStatic send
             registerTransaction account swapCalls in
    (forall hash,
        run = Ok hash ->
        exists callAsync call gasEstimate,
          In callAsync swapCalls
          /\ resolve callAsync = Ok call
          /\ estimateGas call = Some gasEstimate
          /\ send call (options call gasEstimate) = Sent hash
          /\ registerTransaction hash = None)
    /\ (forall e,
           run = Throw e ->
           (exists callAsync,
               In callAsync swapCalls /\ resolve callAsync = Throw e)
           \/ (exists calls,
                  awaitAll resolve swapCalls = Ok calls
                  /\ estimateAndSelect Contract estimateGas callStatic calls
                     = Throw e)
           \/ (exists call gasEstimate code message,
                  estimateGas call = Some gasEstimate
                  /\ (send call (options call gasEstimate)
                      = SendRejected code message
                      \/ exists hash,
                          send call (options call gasEstimate) = Sent hash
                          /\ registerTransaction hash
                             = Some (code, message))
                  /\ e = rejectionMessage code message))
    /\ (forall message,
           rejectionMessage (Some 4001) message = "Transaction rejected."%string)
    /\ (forall message,
           rejectionMessage None (Some message)
           = ("Swap failed: " ++ message)%string).
Proof.
  intros Contract w3 v1args isZero margin estimateGas callStatic send
         register account swapCalls resolve options run.
  split; [|split; [|split; reflexivity]].
  - intros hash Hrun. unfold run, onSwap in Hrun. fold resolve in Hrun.
    destruct (awaitAll resolve swapCalls) as [calls|m] eqn:Hall;
      [|discriminate Hrun].
    cbn [bind] in Hrun.
    fold (estimateAndSelect Contract estimateGas callStatic calls) in Hrun.
    destruct (estimateAndSelect Contract estimateGas callStatic calls)
      as [el|m] eqn:Hsel; [|discriminate Hrun].
    cbn [bind] in Hrun.
    destruct (estimateAndSelect_ok Contract estimateGas callStatic calls el
                                   Hsel) as (call & g & -> & Hin & Hg).
    destruct (awaitAll_In resolve swapCalls calls Hall call Hin)
      as (callAsync & Hasync & Hres).
    exists callAsync, call, g.
    split; [exact Hasync|]. split; [exact Hres|]. split; [exact Hg|].
    unfold options.
    destruct (send call _) as [h|code message]; [|discriminate Hrun].
    destruct (register h) as [[code message]|] eqn:Hreg;
      [discriminate Hrun|].
    injection Hrun as ->. split; [reflexivity|exact Hreg].
  - intros e Hrun. unfold run, onSwap in Hrun. fold resolve in Hrun.
    destruct (awaitAll resolve swapCalls) as [calls|m] eqn:Hall.
    2:{ cbn [bind] in Hrun. injection Hrun as ->. left.
        apply awaitAll_Throw. exact Hall. }
    cbn [bind] in Hrun.
    fold (estimateAndSelect Contract estimateGas callStatic calls) in Hrun.
    destruct (estimateAndSelect Contract estimateGas callStatic calls)
      as [el|m] eqn:Hsel.
    2:{ cbn [bind] in Hrun. injection Hrun as ->. right. left.
        exists calls. split; [reflexivity|exact Hsel]. }
    cbn [bind] in Hrun.
    destruct (estimateAndSelect_ok Contract estimateGas callStatic calls el
                                   Hsel) as (call & g & -> & Hin & Hg).
    right. right. exists call, g.
    unfold options.
    destruct (send call _) as [h|code message] eqn:Hsend.
    + destruct (register h) as [[code message]|] eqn:Hreg;
        [|discriminate Hrun].
      injection Hrun as <-. exists code, message.
      split; [exact Hg|]. split; [|reflexivity].
      right. exists h. split; [reflexivity|exact Hreg].
    + injection Hrun as <-. exists code, message.
      split; [exact Hg|]. split; [left; reflexivity|reflexivity].
Qed.

(** X3: the state [useSwapCallback] reports.  It is never LOADING: with
    no recipient name the recipient is the account, which the first test
    already requires.  It is VALID exactly when the trade, the library, a
    non-empty account, a non-zero chain and a non-empty recipient are all
    there, and then there is no error; otherwise it is INVALID, with
    "Missing dependencies", or with "Invalid recipient" when a recipient
    name was given and did not resolve. *)
Theorem useSwapCallbackState_cases :
  forall (Contract Library : Type) (ctx : BuilderContext Contract Library)
         (trade : option Trades.W3Trade)
         (recipientAddressOrName : option string),
    let r := useSwapCallbackState Contract Library ctx trade
                                  recipientAddressOrName in
    (fst r = VALID \/ fst r = INVALID)
    /\ (fst r = VALID
        <-> (is_some trade = true
             /\ is_some (library Contract Library ctx) = true
             /\ present truthy_string (account Contract Library ctx) = true
             /\ present truthy_number (chainId Contract Library ctx) = true
             /\ present truthy_string
                        (resolveRecipient Contract Library ctx
                                          recipientAddressOrName) = true))
    /\ (fst r = VALID -> snd r = None)
    /\ (fst r = INVALID ->
        snd r = Some "Missing dependencies"%string
        \/ ((exists name, recipientAddressOrName = Some name)
            /\ present truthy_string
                       (recipientAddress Contract Library ctx) = false
            /\ snd r = Some "Invalid recipient"%string)).
Proof.
  intros Contract Library ctx trade who r. subst r.
  unfold useSwapCallbackState, resolveRecipient.
  destruct (is_some trade), (is_some (library Contract Library ctx));
    cbn [negb orb fst snd];
    try (split; [right; reflexivity|];
         split; [split; [discriminate|intros (? & ? & _); discriminate]|];
         split; [discriminate|]; intros _; left; reflexivity).
  destruct (account Contract Library ctx) as [acct|]; cbn [present negb orb].
  2:{ split; [right; reflexivity|].
      split; [split; [discriminate|intros (_ & _ & ? & _); discriminate]|].
      split; [discriminate|]. intros _; left; reflexivity. }
  destruct (truthy_string acct) eqn:Ha; cbn [negb orb fst snd].
  2:{ split; [right; reflexivity|].
      split; [split; [discriminate|intros (_ & _ & ? & _); discriminate]|].
      split; [discriminate|]. intros _; left; reflexivity. }
  destruct (present truthy_number (chainId Contract Library ctx)) eqn:Hc;
    cbn [negb orb fst snd].
  2:{ split; [right; reflexivity|].
      split; [split; [discriminate|
                      intros (_ & _ & _ & ? & _); discriminate]|].
      split; [discriminate|]. intros _; left; reflexivity. }
  destruct who as [name|]; cbn [is_some present].
  - destruct (recipientAddress Contract Library ctx) as [addr|] eqn:Hr;
      cbn [present negb].
    + destruct (truthy_string addr) eqn:Hq; cbn [negb fst snd].
      * split; [left; reflexivity|].
        split; [split; [intros _; repeat split|reflexivity]|].
        split; [reflexivity|discriminate].
      * split; [right; reflexivity|].
        split; [split; [discriminate|
                        intros (_ & _ & _ & _ & ?); discriminate]|].
        split; [discriminate|]. intros _. right.
        split; [exists name; reflexivity|]. split; reflexivity.
    + split; [right; reflexivity|].
      split; [split; [discriminate|
                      intros (_ & _ & _ & _ & ?); discriminate]|].
      split; [discriminate|]. intros _. right.
      split; [exists name; reflexivity|]. split; reflexivity.
  - rewrite Ha. cbn [negb fst snd].
    split; [left; reflexivity|].
    split; [split; [intros _; repeat split|reflexivity]|].
    split; [reflexivity|discriminate].
Qed.

Section Composition.

Variables Contract Library : Type.
Variable INITIAL_ALLOWED_SLIPPAGE : Z.
Variable W3BIPS_BASE : DecimalJs.Decimal.
Variable BIPS_BASE : Z.
Variable getRouterContract : Z -> Library -> string -> Contract.

(** On the v1 exchange without an exchange contract there are no
    candidates. *)
Lemma useSwapCallArguments_no_exchange
      (ctx : BuilderContext Contract Library)
      (trade : option Trades.W3Trade) (allowedSlippage : option Z)
      (recipientAddressOrName : option string) :
  toggledVersion Contract Library ctx = v1 ->
  v1Exchange Contract Library ctx = None ->
  useSwapCallArguments Contract Library INITIAL_ALLOWED_SLIPPAGE W3BIPS_BASE
                       BIPS_BASE getRouterContract ctx trade
                       allowedSlippage recipientAddressOrName = Ok [].
Proof.
  intros Hv Hx. unfold useSwapCallArguments. rewrite Hv, Hx.
  destruct trade as [t|]; [|reflexivity].
  destruct (resolveRecipient Contract Library ctx recipientAddressOrName)
    as [recipient|]; [|reflexivity].
  destruct (library Contract Library ctx) as [lib|]; [|reflexivity].
  destruct (account Contract Library ctx) as [acct|]; [|reflexivity].
  destruct (chainId Contract Library ctx) as [cid|]; [|reflexivity].
  destruct (deadline Contract Library ctx) as [d|]; [|reflexivity].
  destruct (negb (truthy_string recipient) || negb (truthy_string acct)
            || negb (truthy_number cid)); reflexivity.
Qed.

End Composition.

(** X4: the builder and the state agree in one direction.  Whenever the
    builder yields at least one candidate, the state of the callback is
    VALID with no error, so candidates are never built for a callback
    that does not exist. *)
Theorem useSwapCallArguments_nonempty_valid :
  forall (Contract Library : Type) (INITIAL_ALLOWED_SLIPPAGE : Z)
         (W3BIPS_BASE : DecimalJs.Decimal) (BIPS_BASE : Z)
         (getRouterContract : Z -> Library -> string -> Contract)
         (ctx : BuilderContext Contract Library)
         (trade : option Trades.W3Trade) (allowedSlippage : option Z)
         (recipientAddressOrName : option string)
         (calls : list (SwapCallAsync Contract)),
    useSwapCallArguments Contract Library INITIAL_ALLOWED_SLIPPAGE
                         W3BIPS_BASE BIPS_BASE getRouterContract ctx trade
                         allowedSlippage recipientAddressOrName = Ok calls ->
    calls <> [] ->
    useSwapCallbackState Contract Library ctx trade recipientAddressOrName
    = (VALID, None).
Proof.
  intros Contract Library INITIAL W3B B router ctx trade slippage who calls
         Hb Hne.
  unfold useSwapCallArguments in Hb.
  unfold useSwapCallbackState.
  destruct trade as [t|]; [|injection Hb as <-; contradiction].
  destruct (resolveRecipient Contract Library ctx who)
    as [recipient|]; [|injection Hb as <-; contradiction].
  destruct (library Contract Library ctx) as [lib|];
    [|injection Hb as <-; contradiction].
  destruct (account Contract Library ctx) as [acct|];
    [|injection Hb as <-; contradiction].
  destruct (chainId Contract Library ctx) as [cid|];
    [|injection Hb as <-; contradiction].
  destruct (deadline Contract Library ctx) as [d|];
    [|injection Hb as <-; contradiction].
  cbn [is_some present negb orb].
  destruct (truthy_string recipient);
    [|injection Hb as <-; contradiction].
  destruct (truthy_string acct); [|injection Hb as <-; contradiction].
  destruct (truthy_number cid); [|injection Hb as <-; contradiction].
  reflexivity.
Qed.

(** The two descriptors of a DAI to USDC swap on the v2 router. *)
Lemma useSwapCallArguments_nonempty_valid_witness :
  useSwapCallbackState string unit (Samples.builderContext v2)
                       (Some Samples.daiUsdcAt1) None
  = (VALID, None).
Proof.
  apply (useSwapCallArguments_nonempty_valid
           string unit 50 (DecimalJs.ofZ 10000) 10000 Samples.routerContract
           (Samples.builderContext v2) (Some Samples.daiUsdcAt1) (Some 50)
           None _ eq_refl).
  discriminate.
Defined.

(** X5: the converse fails, and what happens then.  When the state is
    VALID but the transaction deadline has not loaded, or the v1 exchange
    is selected and has no exchange contract, the hook still hands out a
    callback; there are no candidates, and calling it rejects with the
    generic fault "none of the calls threw an error" without asking the
    provider anything. *)
Theorem useSwapCallback_valid_without_candidates :
  forall (Contract Library : Type)
         (w3SwapCallParameters :
            Trades.W3Trade -> W3TradeOptions -> Result SwapParameters)
         (v1SwapArguments :
            Trades.W3Trade -> V1TradeOptions -> SwapParameters)
         (isZero : string -> bool) (calculateGasMargin : Z -> Z)
         (estimateGas : SwapCall Contract -> option Z)
         (callStatic : SwapCall Contract -> StaticOutcome)
         (send : SwapCall Contract -> SendOptions -> SendOutcome)
         (registerTransaction : string -> option (option Z * option string))
         (INITIAL_ALLOWED_SLIPPAGE : Z) (W3BIPS_BASE : DecimalJs.Decimal)
         (BIPS_BASE : Z)
         (getRouterContract : Z -> Library -> string -> Contract)
         (ctx : BuilderContext Contract Library)
         (trade : option Trades.W3Trade) (allowedSlippage : option Z)
         (recipientAddressOrName : option string),
    useSwapCallbackState Contract Library ctx trade recipientAddressOrName
    = (VALID, None) ->
    deadline Contract Library ctx = None
    \/ (toggledVersion Contract Library ctx = v1
        /\ v1Exchange Contract Library ctx = None) ->
    useSwapCallback Contract Library w3SwapCallParameters v1SwapArguments
                    isZero calculateGasMargin estimateGas callStatic send
                    registerTransaction
                    INITIAL_ALLOWED_SLIPPAGE W3BIPS_BASE BIPS_BASE
                    getRouterContract ctx trade allowedSlippage
                    recipientAddressOrName
    = Ok (mkSwapCallbackResult VALID (Some (Throw noneThrew)) None).
Proof.
  intros Contract Library w3 v1args isZero margin estimateGas callStatic send
         register INITIAL W3B B router ctx trade slippage who Hstate Hempty.
  assert (Hargs :
            useSwapCallArguments Contract Library INITIAL W3B B router ctx
                                 trade slippage who = Ok []).
  { destruct Hempty as [Hd|[Hv Hx]].
    - apply useSwapCallArguments_incomplete. repeat right. exact Hd.
    - apply useSwapCallArguments_no_exchange; assumption. }
  unfold useSwapCallback. rewrite Hargs. cbn [bind]. rewrite Hstate.
  reflexivity.
Qed.

(** A DAI to USDC swap on the v2 router while the deadline is loading. *)
Lemma useSwapCallback_valid_without_candidates_witness :
  useSwapCallback string unit Fixtures.encode Fixtures.encodeV1
                  Fixtures.isZero Fixtures.calculateGasMargin
                  Fixtures.estimateGas Fixtures.callStatic Fixtures.send
                  Fixtures.registerTransaction
                  50 (DecimalJs.ofZ 10000) 10000 Samples.routerContract
                  Fixtures.contextWithoutDeadline (Some Samples.daiUsdcAt1)
                  (Some 50) None
  = Ok (mkSwapCallbackResult VALID (Some (Throw noneThrew)) None).
Proof.
  apply useSwapCallback_valid_without_candidates.
  - reflexivity.
  - left. reflexivity.
Defined.

(** On a provider where the standard call reverts for lack of output and
    the call that tolerates fees on transfer can be estimated, the second
    candidate is the one sent; the margin turns its estimate of 160000
    into a gas limit of 176000. *)
Example onSwap_fee_on_transfer_fallback :
  exists calls,
    useSwapCallArguments string unit 50 (DecimalJs.ofZ 10000) 10000
      Samples.routerContract (Samples.builderContext v2)
      (Some Samples.daiUsdcAt1) (Some 50) None = Ok calls
    /\ onSwap string Fixtures.encode Fixtures.encodeV1 Fixtures.isZero
              Fixtures.calculateGasMargin Fixtures.estimateGas
              Fixtures.callStatic Fixtures.send Fixtures.registerTransaction
              Samples.holder calls
       = Ok "swapExactTokensForTokensSupportingFeeOnTransferTokens"%string
    /\ Fixtures.calculateGasMargin 160000 = 176000.
Proof. eexists. split; [vm_compute; reflexivity|]. split; reflexivity. Qed.

End SwapSubmissionFacts.

(** ** The permit signer across renders *)

Module PermitLifecycleFacts.
Import Js SdkCore ERC20Permit PermitRule ERC20PermitFromTrade
       SwapCallbackFacts ERC20PermitFacts.

Section Hook.

Variables Provider Contract : Type.
Variable PERMITTABLE_TOKENS : Z -> string -> option PermitInfo.

(** A signature that [isSignatureDataValid] accepts is a stored one. *)
Lemma isSignatureDataValid_stored
      (stored : option SignatureData) (account tokenAddress spender : string)
      (transactionDeadline nonceNumber : Z) (amount : CurrencyAmount) :
  isSignatureDataValid stored account tokenAddress spender
                       transactionDeadline nonceNumber amount = Ok true ->
  exists sig, stored = Some sig.
Proof.
  destruct stored as [sig|]; [eauto|discriminate].
Qed.

(** Storing a signature changes none of the inputs of the first test. *)
Lemma notApplicable_setSignatureData
      (ctx : HookContext Provider Contract) (sig : SignatureData)
      (amount : option CurrencyAmount) (spender : option string)
      (d d' : Z) (overridePermitInfo : option PermitInfo) :
  notApplicable Provider Contract PERMITTABLE_TOKENS
                (setSignatureData Provider Contract ctx sig) amount spender
                (Some d') overridePermitInfo
  = notApplicable Provider Contract PERMITTABLE_TOKENS ctx amount spender
                  (Some d) overridePermitInfo.
Proof. destruct ctx. reflexivity. Qed.

(** Past the two tests: the result, with the function that gathers a
    signature spelled out. *)
Lemma useERC20Permit_past_gates_gather
      (ctx : HookContext Provider Contract) (amount : CurrencyAmount)
      (spender : string) (transactionDeadline nonceNumber : Z)
      (overridePermitInfo : option PermitInfo) (acct tok : string) :
  notApplicable Provider Contract PERMITTABLE_TOKENS ctx (Some amount)
                (Some spender) (Some transactionDeadline)
                overridePermitInfo = false ->
  account Provider Contract ctx = Some acct ->
  tokenAddress (Some amount) = Some tok ->
  loading (tokenNonceState Provider Contract ctx) = false ->
  result0 (tokenNonceState Provider Contract ctx) = Some nonceNumber ->
  Z.abs nonceNumber <= MAX_SAFE_INTEGER ->
  exists cid info,
    chainId Provider Contract ctx = Some cid
    /\ permitInfo Provider Contract PERMITTABLE_TOKENS ctx (Some amount)
                  overridePermitInfo = Some info
    /\ forall b,
        isSignatureDataValid (signatureData Provider Contract ctx) acct tok
                             spender transactionDeadline nonceNumber amount
        = Ok b ->
        useERC20Permit Provider Contract PERMITTABLE_TOKENS ctx (Some amount)
                       (Some spender) (Some transactionDeadline)
                       overridePermitInfo
        = Ok (mkPermitResult
                (if b then signatureData Provider Contract ctx else None)
                (if b then SIGNED else NOT_SIGNED)
                (Some (gather info acct spender tok cid transactionDeadline
                              nonceNumber amount))).
Proof.
  intros Happ Hacct Htok Hload Hres Hsafe.
  pose proof Happ as Happ'.
  unfold notApplicable in Happ.
  apply orb_false_iff in Happ; destruct Happ as [Happ Hinfo].
  do 5 (apply orb_false_iff in Happ; destruct Happ as [Happ _]).
  apply orb_false_iff in Happ; destruct Happ as [_ Hcid].
  apply negb_false_iff in Hinfo, Hcid.
  destruct (present_some _ _ Hcid) as [cid Hcid'].
  destruct (is_some_some _ Hinfo) as [info Hinfo'].
  exists cid, info. split; [exact Hcid'|]. split; [exact Hinfo'|].
  intros b Hvalid.
  unfold useERC20Permit. rewrite Happ'.
  rewrite Hacct, Hcid', Htok, Hinfo', Hres, Hload.
  unfold toNumber at 1.
  destruct (Z.abs nonceNumber <=? MAX_SAFE_INTEGER) eqn:E;
    [|apply Z.leb_gt in E; lia].
  cbn [bind]. rewrite Hvalid. cbn [bind]. reflexivity.
Qed.

End Hook.

(** X6: the shape of what the permit hook returns.  A signature is handed
    out only in the state SIGNED, and then it is the stored one; the
    function that gathers a signature is there exactly in the states
    SIGNED and NOT_SIGNED, so never while the flow does not apply or the
    nonce is loading. *)
Theorem useERC20Permit_result_shape :
  forall (Provider Contract : Type)
         (PERMITTABLE_TOKENS : Z -> string -> option PermitInfo)
         (ctx : HookContext Provider Contract)
         (currencyAmount : option CurrencyAmount) (spender : option string)
         (transactionDeadline : option Z)
         (overridePermitInfo : option PermitInfo) (out : PermitResult),
    useERC20Permit Provider Contract PERMITTABLE_TOKENS ctx currencyAmount
                   spender transactionDeadline overridePermitInfo = Ok out ->
    (state out = SIGNED ->
     exists sig, signatureData Provider Contract ctx = Some sig
                 /\ out_signatureData out = Some sig)
    /\ (state out = NOT_APPLICABLE \/ state out = LOADING
        \/ state out = NOT_SIGNED ->
        out_signatureData out = None)
    /\ ((exists gatherFn, gatherPermitSignature out = Some gatherFn)
        <-> state out = SIGNED \/ state out = NOT_SIGNED).
Proof.
  intros Provider Contract TABLE ctx amount spender deadline override out.
  unfold useERC20Permit.
  assert (Hgate :
            forall st, st = NOT_APPLICABLE \/ st = LOADING ->
            Ok (mkPermitResult None st None) = Ok out ->
            (state out = SIGNED ->
             exists sig, signatureData Provider Contract ctx = Some sig
                         /\ out_signatureData out = Some sig)
            /\ (state out = NOT_APPLICABLE \/ state out = LOADING
                \/ state out = NOT_SIGNED ->
                out_signatureData out = None)
            /\ ((exists gatherFn, gatherPermitSignature out = Some gatherFn)
                <-> state out = SIGNED \/ state out = NOT_SIGNED)).
  { intros st Hst H. injection H as <-. cbn [state out_signatureData
                                                 gatherPermitSignature].
    split; [intros ->; destruct Hst; discriminate|].
    split; [reflexivity|].
    split; [intros [g Hg]; discriminate Hg|].
    intros [->| ->]; destruct Hst; discriminate. }
  destruct (notApplicable Provider Contract TABLE ctx amount spender deadline
                          override);
    [apply Hgate; left; reflexivity|].
  destruct amount as [a|]; [|apply Hgate; left; reflexivity].
  destruct (account Provider Contract ctx) as [acct|];
    [|apply Hgate; left; reflexivity].
  destruct (chainId Provider Contract ctx) as [cid|];
    [|apply Hgate; left; reflexivity].
  destruct deadline as [d|]; [|apply Hgate; left; reflexivity].
  destruct (tokenAddress (Some a)) as [tok|];
    [|apply Hgate; left; reflexivity].
  destruct spender as [sp|]; [|apply Hgate; left; reflexivity].
  destruct (permitInfo Provider Contract TABLE ctx (Some a) override)
    as [info|]; [|apply Hgate; left; reflexivity].
  destruct (result0 (tokenNonceState Provider Contract ctx)) as [n|];
    cbn [bind]; [|apply Hgate; right; reflexivity].
  destruct (toNumber n) as [k|m]; cbn [bind]; [|discriminate].
  destruct (loading (tokenNonceState Provider Contract ctx));
    [apply Hgate; right; reflexivity|].
  destruct (isSignatureDataValid (signatureData Provider Contract ctx) acct
                                 tok sp d k a) as [b|m] eqn:Hvalid;
    cbn [bind]; [|discriminate].
  intros H. injection H as <-.
  cbn [state out_signatureData gatherPermitSignature].
  destruct b.
  - split.
    + intros _. destruct (isSignatureDataValid_stored _ _ _ _ _ _ _ Hvalid)
        as [sig Hsig].
      exists sig. split; [exact Hsig|exact Hsig].
    + split; [intros [H|[H|H]]; discriminate H|].
      split; [intros _; left; reflexivity|intros _; eauto].
  - split; [discriminate|]. split; [reflexivity|].
    split; [intros _; right; reflexivity|intros _; eauto].
Qed.

(** The stored signature over 1000 USDC in the context that asks for
    it. *)
Lemma useERC20Permit_result_shape_witness :
  exists out,
    useERC20Permit unit unit Samples.permitTable Samples.permitContext
      (Some (Samples.usdcAmount 1000)) (Some Samples.routerAddress)
      (Some 1700000000) None = Ok out
    /\ state out = SIGNED
    /\ out_signatureData out = Some Samples.storedSignature
    /\ exists gatherFn, gatherPermitSignature out = Some gatherFn.
Proof.
  eexists. split; [vm_compute; reflexivity|].
  match goal with
  | |- state ?o = _ /\ _ =>
      pose proof (useERC20Permit_result_shape
                    unit unit Samples.permitTable Samples.permitContext
                    (Some (Samples.usdcAmount 1000))
                    (Some Samples.routerAddress) (Some 1700000000) None o
                    ltac:(vm_compute; reflexivity)) as (Hs & _ & Hg)
  end.
  split; [reflexivity|].
  destruct (Hs eq_refl) as (sig & Hsig & Hout).
  injection Hsig as <-.
  split; [exact Hout|]. apply Hg. left. reflexivity.
Defined.

(** X7: the round trip of a permit signature.  When the flow applies and
    the nonce has resolved, the hook hands out a gathering function; the
    record it stores for the wallet's signature expires 20 minutes after
    the transaction deadline it was gathered for; and on the next render,
    with that record stored and the same amount, spender and nonce, the
    state is SIGNED with that very record for every transaction deadline
    up to the expiry, and NOT_SIGNED for every later one. *)
Theorem useERC20Permit_round_trip :
  forall (Provider Contract : Type)
         (PERMITTABLE_TOKENS : Z -> string -> option PermitInfo)
         (ctx : HookContext Provider Contract) (amount : CurrencyAmount)
         (spender : string) (transactionDeadline nonceNumber : Z)
         (overridePermitInfo : option PermitInfo) (acct tok : string)
         (sig_v : Z) (sig_r sig_s : string),
    notApplicable Provider Contract PERMITTABLE_TOKENS ctx (Some amount)
                  (Some spender) (Some transactionDeadline)
                  overridePermitInfo = false ->
    account Provider Contract ctx = Some acct ->
    tokenAddress (Some amount) = Some tok ->
    loading (tokenNonceState Provider Contract ctx) = false ->
    result0 (tokenNonceState Provider Contract ctx) = Some nonceNumber ->
    Z.abs nonceNumber <= MAX_SAFE_INTEGER ->
    Z.abs transactionDeadline <= MAX_SAFE_INTEGER - PERMIT_VALIDITY_BUFFER ->
    exists out gatherFn sig,
      useERC20Permit Provider Contract PERMITTABLE_TOKENS ctx (Some amount)
                     (Some spender) (Some transactionDeadline)
                     overridePermitInfo = Ok out
      /\ gatherPermitSignature out = Some gatherFn
      /\ gatherFn sig_v sig_r sig_s = Ok sig
      /\ sig_deadline sig = transactionDeadline + PERMIT_VALIDITY_BUFFER
      /\ forall laterDeadline,
          Z.abs laterDeadline <= MAX_SAFE_INTEGER ->
          exists out',
            useERC20Permit Provider Contract PERMITTABLE_TOKENS
                           (setSignatureData Provider Contract ctx sig)
                           (Some amount) (Some spender) (Some laterDeadline)
                           overridePermitInfo = Ok out'
            /\ (laterDeadline <= transactionDeadline + PERMIT_VALIDITY_BUFFER ->
                state out' = SIGNED /\ out_signatureData out' = Some sig)
            /\ (transactionDeadline + PERMIT_VALIDITY_BUFFER < laterDeadline ->
                state out' = NOT_SIGNED /\ out_signatureData out' = None).
Proof.
  intros Provider Contract TABLE ctx amount spender d n override acct tok
         sv sr ss Happ Hacct Htok Hload Hres Hn Hd.
  assert (HB : PERMIT_VALIDITY_BUFFER = 1200) by reflexivity.
  assert (Hd' : Z.abs d <= MAX_SAFE_INTEGER) by lia.
  destruct (useERC20Permit_past_gates_gather
              Provider Contract TABLE ctx amount spender d n override acct
              tok Happ Hacct Htok Hload Hres Hn)
    as (cid & info & Hcid & Hinfo & Hout).
  destruct (isSignatureDataValid_spec
              (signatureData Provider Contract ctx) acct tok spender d n
              amount Hd') as (b & Hvalid & _).
  specialize (Hout b Hvalid).
  eexists. eexists. eexists.
  split; [exact Hout|]. split; [reflexivity|].
  split; [unfold gather; rewrite (toNumber_safe d Hd'); reflexivity|].
  split; [reflexivity|].
  intros d2 Hd2.
  set (sig := mkSignatureData sv sr ss (d + PERMIT_VALIDITY_BUFFER) n acct
                              spender cid tok (type info)
                              (if match type info with
                                  | ALLOWED => true
                                  | AMOUNT => false
                                  end
                               then Allowed
                               else Amount (quotient amount))).
  set (ctx' := setSignatureData Provider Contract ctx sig).
  assert (Happ2 :
            notApplicable Provider Contract TABLE ctx' (Some amount)
                          (Some spender) (Some d2) override = false).
  { unfold ctx'.
    rewrite (notApplicable_setSignatureData
               Provider Contract TABLE ctx sig (Some amount) (Some spender)
               d d2 override).
    exact Happ. }
  assert (Hacct2 : account Provider Contract ctx' = Some acct)
    by exact Hacct.
  assert (Hload2 : loading (tokenNonceState Provider Contract ctx') = false)
    by exact Hload.
  assert (Hres2 : result0 (tokenNonceState Provider Contract ctx') = Some n)
    by exact Hres.
  assert (Hvalid2 :
            isSignatureDataValid (signatureData Provider Contract ctx') acct
                                 tok spender d2 n amount
            = Ok (d2 <=? d + PERMIT_VALIDITY_BUFFER)).
  { unfold ctx', setSignatureData, isSignatureDataValid, sig.
    cbn [signatureData owner sig_deadline sig_tokenAddress nonce sig_spender
         signedValue].
    rewrite String.eqb_refl. cbn [negb].
    rewrite (toNumber_safe d2 Hd2). cbn [bind].
    rewrite !String.eqb_refl, Z.eqb_refl.
    destruct (type info); cbv beta iota;
      rewrite ?Z.eqb_refl, ?andb_true_r; reflexivity. }
  destruct (useERC20Permit_past_gates
              Provider Contract TABLE ctx' amount spender d2 n override acct
              tok Happ2 Hacct2 Htok Hload2 Hres2 Hn _ Hvalid2)
    as (g & Hout2).
  eexists. split; [exact Hout2|].
  cbn [state out_signatureData].
  split.
  - intros Hle. apply Z.leb_le in Hle. rewrite Hle.
    split; reflexivity.
  - intros Hgt. apply Z.leb_gt in Hgt. rewrite Hgt.
    split; reflexivity.
Qed.

(** 1000 USDC approved to the router before any signature is stored: the
    record gathered for the deadline 1700000000 is good until 1700001200,
    and is accepted at 1700000600. *)
Lemma useERC20Permit_round_trip_witness :
  exists out gatherFn sig out',
    useERC20Permit unit unit Samples.permitTable Fixtures.unsignedContext
      (Some (Samples.usdcAmount 1000)) (Some Samples.routerAddress)
      (Some 1700000000) None = Ok out
    /\ gatherPermitSignature out = Some gatherFn
    /\ gatherFn 27 "0x1"%string "0x2"%string = Ok sig
    /\ sig = Samples.storedSignature
    /\ useERC20Permit unit unit Samples.permitTable
         (setSignatureData unit unit Fixtures.unsignedContext sig)
         (Some (Samples.usdcAmount 1000)) (Some Samples.routerAddress)
         (Some 1700000600) None = Ok out'
    /\ state out' = SIGNED.
Proof.
  destruct (useERC20Permit_round_trip
              unit unit Samples.permitTable Fixtures.unsignedContext
              (Samples.usdcAmount 1000) Samples.routerAddress 1700000000 7
              None Samples.holder Samples.usdcAddress
              27 "0x1"%string "0x2"%string
              eq_refl eq_refl eq_refl eq_refl eq_refl
              ltac:(vm_compute; discriminate)
              ltac:(vm_compute; discriminate))
    as (out & gatherFn & sig & Hout & Hg & Hsig & Hdl & Hlater).
  destruct (Hlater 1700000600 ltac:(vm_compute; discriminate))
    as (out' & Hout' & Hsigned & _).
  exists out, gatherFn, sig, out'.
  split; [exact Hout|]. split; [exact Hg|]. split; [exact Hsig|].
  split.
  - vm_compute in Hout. injection Hout as <-.
    cbn [gatherPermitSignature] in Hg. injection Hg as <-.
    vm_compute in Hsig. injection Hsig as <-. reflexivity.
  - split; [exact Hout'|]. apply Hsigned. vm_compute. discriminate.
Defined.

(** X8: [useERC20PermitFromTrade] never offers a permit for a v2 trade,
    without a chain, or while the amount to approve is undefined or is an
    amount of the native currency: the state is NOT_APPLICABLE, with no
    signature and no gathering function, whatever is stored; and without a
    trade the effect resets the amount to approve to undefined. *)
Theorem useERC20PermitFromTrade_not_applicable :
  forall (Provider Contract : Type)
         (PERMITTABLE_TOKENS : Z -> string -> option PermitInfo)
         (V3_ROUTER_ADDRESS SWAP_ROUTER_ADDRESSES : Z -> option string)
         (V2Trade RouterTrade PolyTrade : Type) (isTradeUndefined : bool)
         (Percent : Type)
         (v2MaximumAmountIn : V2Trade -> Percent -> CurrencyAmount)
         (routerMaximumAmountIn : RouterTrade -> Percent -> CurrencyAmount)
         (tradeMaximumAmountIn :
            PolyTrade -> Percent -> option (option CurrencyAmount))
         (ctx : HookContext Provider Contract)
         (trade : option (AnyTrade V2Trade RouterTrade PolyTrade))
         (allowedSlippage : Percent)
         (amountToApprove : option CurrencyAmount)
         (transactionDeadline : option Z),
    let hook :=
      useERC20PermitFromTrade Provider Contract PERMITTABLE_TOKENS
                              V3_ROUTER_ADDRESS SWAP_ROUTER_ADDRESSES
                              V2Trade RouterTrade PolyTrade isTradeUndefined
                              ctx trade in
    let effect :=
      amountToApproveEffect V2Trade RouterTrade PolyTrade Percent
                            v2MaximumAmountIn routerMaximumAmountIn
                            tradeMaximumAmountIn trade allowedSlippage in
    ((exists t, trade = Some (IsV2Trade V2Trade RouterTrade PolyTrade t))
     \/ present truthy_number (chainId Provider Contract ctx) = false
     \/ tokenAddress amountToApprove = None ->
     hook amountToApprove transactionDeadline
     = Ok (mkPermitResult None NOT_APPLICABLE None))
    /\ (trade = None ->
        effect amountToApprove = None
        /\ hook (effect amountToApprove) transactionDeadline
           = Ok (mkPermitResult None NOT_APPLICABLE None)).
Proof.
  intros Provider Contract TABLE V3 SWAP V2Trade RouterTrade PolyTrade
         isTradeUndefined Percent v2max routermax polymax ctx trade slippage
         amount deadline hook effect.
  assert (Hna :
            forall a spender,
              notApplicable Provider Contract TABLE ctx a spender deadline
                            None = true ->
              useERC20Permit Provider Contract TABLE ctx a spender deadline
                             None
              = Ok (mkPermitResult None NOT_APPLICABLE None)).
  { intros a spender H. unfold useERC20Permit. rewrite H. reflexivity. }
  assert (Hamount :
            forall a spender,
              tokenAddress a = None ->
              notApplicable Provider Contract TABLE ctx a spender deadline
                            None = true).
  { intros a spender H. unfold notApplicable. rewrite H. cbn [present negb].
    rewrite !orb_true_r. reflexivity. }
  split.
  - intros [[t ->]|[Hc|Ha]]; unfold hook, useERC20PermitFromTrade;
      apply Hna.
    + unfold swapRouterAddress, notApplicable.
      destruct (present truthy_number (chainId Provider Contract ctx));
        [destruct (chainId Provider Contract ctx)|];
        cbn [present negb]; rewrite !orb_true_r; reflexivity.
    + unfold notApplicable. rewrite Hc. cbn [negb].
      rewrite !orb_true_r. reflexivity.
    + apply Hamount. exact Ha.
  - intros ->. split; [reflexivity|].
    unfold hook, useERC20PermitFromTrade. apply Hna. apply Hamount.
    reflexivity.
Qed.

End PermitLifecycleFacts.

(** ** What the client-side hook stores and requests *)

Module TradeEffectFacts.
Import Js SdkCore ClientSideV3Trade RouteRule ClientSideV3TradeFacts.

Lemma existsb_false_In {A} (p : A -> bool) (l : list A) :
  existsb p l = false -> forall x, In x l -> p x = false.
Proof.
  induction l as [|y tl IH]; simpl; intros H x Hin; [destruct Hin|].
  apply orb_false_iff in H. destruct H as [Hy Htl].
  destruct Hin as [<-|Hin]; [exact Hy|apply IH; assumption].
Qed.

(** X9: what the second effect stores.  A result stored by the effect
    itself never carries a trade and is INVALID, LOADING or
    NO_ROUTE_FOUND; one quote that is not valid makes it INVALID whatever
    else is loading or missing; LOADING is only stored while the routes or
    a quote are loading and every quote is valid; and the answer of the
    wrapper is stored only when it carries a trade, as VALID with that
    trade.  The state SYNCING is never stored. *)
Theorem deriveTrade_stored_results :
  forall (Uni_Route Uni_Trade : Type)
         (inputMatches outputMatches : Uni_Route -> Currency -> bool)
         (tradeType : TradeType) (amountSpecified : option CurrencyAmount)
         (otherCurrency : option Currency) (routes : list Uni_Route)
         (routesLoading : bool) (quotesResults : list CallState),
    let effect :=
      deriveTrade Uni_Route Uni_Trade inputMatches outputMatches tradeType
                  amountSpecified otherCurrency routes routesLoading
                  quotesResults in
    (forall r,
        effect = SetResult Uni_Route Uni_Trade r ->
        trade Uni_Trade r = None
        /\ (state Uni_Trade r = INVALID \/ state Uni_Trade r = LOADING
            \/ state Uni_Trade r = NO_ROUTE_FOUND))
    /\ (existsb (fun q => negb (valid q)) quotesResults = true ->
        effect
        = SetResult Uni_Route Uni_Trade (mkTradeResult Uni_Trade INVALID None))
    /\ (effect
        = SetResult Uni_Route Uni_Trade (mkTradeResult Uni_Trade LOADING None)
        -> (routesLoading = true \/ existsb loading quotesResults = true)
           /\ existsb (fun q => negb (valid q)) quotesResults = false)
    /\ (forall invoke r,
           settleTrade Uni_Route Uni_Trade invoke
           = SetResult Uni_Route Uni_Trade r ->
           state Uni_Trade r = VALID
           /\ exists data, invoke = Some (Ok data)
                           /\ trade Uni_Trade r = Some data).
Proof.
  intros Uni_Route Uni_Trade inputMatches outputMatches tradeType
         amountSpecified otherCurrency routes routesLoading quotesResults
         effect.
  assert (Hshape :
            forall st, st = INVALID \/ st = LOADING \/ st = NO_ROUTE_FOUND ->
            forall r,
              SetResult Uni_Route Uni_Trade (mkTradeResult Uni_Trade st None)
              = SetResult Uni_Route Uni_Trade r ->
              trade Uni_Trade r = None
              /\ (state Uni_Trade r = INVALID \/ state Uni_Trade r = LOADING
                  \/ state Uni_Trade r = NO_ROUTE_FOUND)).
  { intros st Hst r H. injection H as <-. split; [reflexivity|exact Hst]. }
  split; [|split; [|split]].
  - intros r. unfold effect, deriveTrade, endpoints.
    destruct tradeType, amountSpecified as [spec|], otherCurrency as [other|];
      cbn [option_map];
      try (apply Hshape; left; reflexivity);
      (destruct (existsb (fun q => negb (valid q)) quotesResults || _);
       [apply Hshape; left; reflexivity|];
       destruct (routesLoading || existsb loading quotesResults);
       [apply Hshape; right; left; reflexivity|];
       cbv zeta;
       match goal with
       | |- context [bestQuote ?R ?t ?s ?i ?o ?rs ?qs] =>
           destruct (bestQuote R t s i o rs qs) as [[rt|] [ai|] [ao|]]
       end;
       cbn [bestRoute amountIn amountOut];
       try (apply Hshape; right; right; reflexivity);
       destruct (negb (inputMatches rt _)); [discriminate|];
       destruct (negb (outputMatches rt _)); discriminate).
  - intros Hinv. unfold effect, deriveTrade, endpoints.
    destruct tradeType, amountSpecified as [spec|], otherCurrency as [other|];
      cbn [option_map]; try reflexivity; rewrite Hinv; reflexivity.
  - unfold effect, deriveTrade, endpoints.
    destruct tradeType, amountSpecified as [spec|], otherCurrency as [other|];
      cbn [option_map]; try discriminate;
      (destruct (existsb (fun q => negb (valid q)) quotesResults);
       cbn [orb]; [discriminate|];
       match goal with
       | |- context [if equals ?a ?b then _ else _] => destruct (equals a b)
       end; [discriminate|];
       destruct routesLoading; cbn [orb];
       [intros _; split; [left; reflexivity|reflexivity]|];
       destruct (existsb loading quotesResults);
       [intros _; split; [right; reflexivity|reflexivity]|];
       cbv zeta;
       match goal with
       | |- context [bestQuote ?R ?t ?s ?i ?o ?rs ?qs] =>
           destruct (bestQuote R t s i o rs qs) as [[rt|] [ai|] [ao|]]
       end;
       cbn [bestRoute amountIn amountOut]; try discriminate;
       destruct (negb (inputMatches rt _)); [discriminate|];
       destruct (negb (outputMatches rt _)); discriminate).
  - intros invoke r. unfold settleTrade.
    destruct invoke as [[data|m]|]; try discriminate.
    intros H. injection H as <-. split; [reflexivity|].
    exists data. split; reflexivity.
Qed.

(** X10: what a requested trade guarantees.  When the second effect asks
    the wrapper for a trade, the routes were loaded, every quote was valid
    and loaded, the amount and the other currency were there and differ,
    the route is one of the routes and passed both endpoint tests, the
    trade type is the one asked for, and the amounts are the specified
    amount on its own side and, on the other side, an amount some quote
    carries, in the other currency. *)
Theorem deriveTrade_request_sound :
  forall (Uni_Route Uni_Trade : Type)
         (inputMatches outputMatches : Uni_Route -> Currency -> bool)
         (tradeType : TradeType) (amountSpecified : option CurrencyAmount)
         (otherCurrency : option Currency) (routes : list Uni_Route)
         (routesLoading : bool) (quotesResults : list CallState)
         (route : Uni_Route) (inputAmount outputAmount : CurrencyAmount)
         (requested : TradeType),
    deriveTrade Uni_Route Uni_Trade inputMatches outputMatches tradeType
                amountSpecified otherCurrency routes routesLoading
                quotesResults
    = CreateUncheckedTrade Uni_Route Uni_Trade route inputAmount outputAmount
                           requested ->
    requested = tradeType
    /\ routesLoading = false
    /\ (forall q, In q quotesResults -> valid q = true /\ loading q = false)
    /\ In route routes
    /\ inputMatches route (currency inputAmount) = true
    /\ outputMatches route (currency outputAmount) = true
    /\ exists specified other a q,
        amountSpecified = Some specified
        /\ otherCurrency = Some other
        /\ equals (currency specified) other = false
        /\ In q quotesResults /\ quoted tradeType q = Some a
        /\ (inputAmount, outputAmount)
           = tradeAmounts tradeType specified other a.
Proof.
  intros Uni_Route Uni_Trade inputMatches outputMatches tradeType
         amountSpecified otherCurrency routes routesLoading quotesResults
         route ain aout requested.
  unfold deriveTrade, endpoints.
  destruct tradeType, amountSpecified as [spec|], otherCurrency as [other|];
    cbn [option_map]; try discriminate.
  - destruct (existsb (fun q => negb (valid q)) quotesResults) eqn:Hv;
      cbn [orb]; [discriminate|].
    destruct (equals (currency spec) other) eqn:He; [discriminate|].
    destruct routesLoading; cbn [orb]; [discriminate|].
    destruct (existsb loading quotesResults) eqn:Hl; [discriminate|].
    cbv zeta.
    pose proof (bestQuote_summarizes
                  Uni_Route EXACT_INPUT spec (currency spec) other routes
                  quotesResults) as Hsum.
    destruct Hsum as [[_ ->] | (i & q & a & Hi & Ha & -> & _)];
      [discriminate|].
    unfold taken. cbn [bestRoute amountIn amountOut].
    destruct (nth_error routes i) as [rt|] eqn:Hrt; [|discriminate].
    destruct (inputMatches rt (currency spec)) eqn:Hin; cbn [negb];
      [|discriminate].
    destruct (outputMatches rt (currency (fromRawAmount other a))) eqn:Hout;
      cbn [negb]; [|discriminate].
    intros H. injection H as <- <- <- <-.
    split; [reflexivity|]. split; [reflexivity|].
    split.
    { intros q' Hq'. split.
      - apply negb_false_iff.
        exact (existsb_false_In _ _ Hv q' Hq').
      - exact (existsb_false_In _ _ Hl q' Hq'). }
    split; [eapply nth_error_In; exact Hrt|].
    split; [exact Hin|]. split; [exact Hout|].
    exists spec, other, a, q.
    split; [reflexivity|]. split; [reflexivity|]. split; [exact He|].
    split; [eapply nth_error_In; exact Hi|]. split; [exact Ha|reflexivity].
  - destruct (existsb (fun q => negb (valid q)) quotesResults) eqn:Hv;
      cbn [orb]; [discriminate|].
    destruct (equals (currency spec) other) eqn:He; [discriminate|].
    destruct routesLoading; cbn [orb]; [discriminate|].
    destruct (existsb loading quotesResults) eqn:Hl; [discriminate|].
    cbv zeta.
    pose proof (bestQuote_summarizes
                  Uni_Route EXACT_OUTPUT spec other (currency spec) routes
                  quotesResults) as Hsum.
    destruct Hsum as [[_ ->] | (i & q & a & Hi & Ha & -> & _)];
      [discriminate|].
    unfold taken. cbn [bestRoute amountIn amountOut].
    destruct (nth_error routes i) as [rt|] eqn:Hrt; [|discriminate].
    destruct (inputMatches rt (currency (fromRawAmount other a))) eqn:Hin;
      cbn [negb]; [|discriminate].
    destruct (outputMatches rt (currency spec)) eqn:Hout;
      cbn [negb]; [|discriminate].
    intros H. injection H as <- <- <- <-.
    split; [reflexivity|]. split; [reflexivity|].
    split.
    { intros q' Hq'. split.
      - apply negb_false_iff.
        exact (existsb_false_In _ _ Hv q' Hq').
      - exact (existsb_false_In _ _ Hl q' Hq'). }
    split; [eapply nth_error_In; exact Hrt|].
    split; [exact Hin|]. split; [exact Hout|].
    exists spec, other, a, q.
    split; [reflexivity|]. split; [reflexivity|]. split; [exact He|].
    split; [eapply nth_error_In; exact Hi|]. split; [exact Ha|reflexivity].
Qed.

(** The three quotes of the samples: the request is for one of the three
    routes, with the 1000 USDC specified as input and 100 wei out. *)
Lemma deriveTrade_request_sound_witness :
  In "viaWETH"%string Samples.threeRoutes
  /\ exists specified other a q,
      Some (Samples.usdcAmount 1000) = Some specified
      /\ Some (NativeCurrency 1) = Some other
      /\ equals (currency specified) other = false
      /\ In q Samples.threeQuotes /\ quoted EXACT_INPUT q = Some a
      /\ (Samples.usdcAmount 1000, fromRawAmount (NativeCurrency 1) 100)
         = tradeAmounts EXACT_INPUT specified other a.
Proof.
  pose proof (deriveTrade_request_sound
                string unit Samples.anyRoute Samples.anyRoute EXACT_INPUT
                (Some (Samples.usdcAmount 1000)) (Some (NativeCurrency 1))
                Samples.threeRoutes false Samples.threeQuotes
                "viaWETH"%string (Samples.usdcAmount 1000)
                (fromRawAmount (NativeCurrency 1) 100) EXACT_INPUT eq_refl)
    as (_ & _ & _ & Hroute & _ & _ & Hamounts).
  split; [exact Hroute|exact Hamounts].
Defined.

End TradeEffectFacts.

(** ** The mapping to the wrapper's types and the call data of the quotes *)

Module QuoteCallsFacts.
Import Js Promises PolywrapMapping QuoteCalls.

Lemma mapChainId_supported (chain : Z) :
  In chain [1; 3; 4; 5; 42] -> exists c, mapChainId chain = Ok c.
Proof.
  intros [<-|[<-|[<-|[<-|[<-|[]]]]]]; eexists; reflexivity.
Qed.

Lemma mapChainId_unsupported (chain : Z) :
  ~ In chain [1; 3; 4; 5; 42] ->
  mapChainId chain = Throw "Unknown chain ID. This should never happen.".
Proof.
  intros H.
  destruct chain as [|p|p]; try reflexivity.
  do 6 (try destruct p as [p|p|]); try reflexivity;
    exfalso; apply H; simpl; tauto.
Qed.

(** X11: [mapTokenAmount].  No amount maps to no amount.  An amount of a
    token maps exactly when the token's chain is one of 1, 3, 4, 5 and 42,
    whatever the backup chain is, and is an error otherwise; an amount of
    the native currency without a backup chain (or with 0) always maps, to
    the chain number 999 and the empty address.  Whenever an amount maps,
    the number and the decimals, symbol and name of the currency are
    carried over unchanged. *)
Theorem mapTokenAmount_cases :
  forall (currencyEquals : Currency -> Currency -> bool)
         (input : UniCurrencyAmount),
    let described := mapCurrency (uni_currency input) in
    (forall backupChainId,
        mapTokenAmount currencyEquals None backupChainId = Ok None)
    /\ (forall backupChainId chain tokenAddress,
           sdk (uni_currency input) = SdkCore.Token chain tokenAddress ->
           (In chain [1; 3; 4; 5; 42] ->
            exists c,
              mapChainId chain = Ok c
              /\ mapTokenAmount currencyEquals (Some input) backupChainId
                 = Ok (Some (mkTokenAmount
                               (mkToken (Member c)
                                        (if currencyEquals described ETHER
                                         then EmptyString else tokenAddress)
                                        described)
                               (numerator input))))
           /\ (~ In chain [1; 3; 4; 5; 42] ->
               mapTokenAmount currencyEquals (Some input) backupChainId
               = Throw "Unknown chain ID. This should never happen."))
    /\ (forall chain backupChainId,
           sdk (uni_currency input) = SdkCore.NativeCurrency chain ->
           backupChainId = None \/ backupChainId = Some 0 ->
           mapTokenAmount currencyEquals (Some input) backupChainId
           = Ok (Some (mkTokenAmount
                         (mkToken (Number 999) EmptyString described)
                         (numerator input))))
    /\ (forall backupChainId mapped,
           mapTokenAmount currencyEquals (Some input) backupChainId
           = Ok (Some mapped) ->
           amount mapped = numerator input
           /\ currency (token mapped) = described).
Proof.
  intros currencyEquals input described.
  split; [reflexivity|]. split; [|split].
  - intros backup chain addr Hsdk. split.
    + intros Hin. destruct (mapChainId_supported chain Hin) as [c Hc].
      exists c. split; [exact Hc|].
      unfold mapTokenAmount, mapToken. rewrite Hsdk, Hc. reflexivity.
    + intros Hout. unfold mapTokenAmount, mapToken.
      rewrite Hsdk, (mapChainId_unsupported chain Hout). reflexivity.
  - intros chain backup Hsdk [-> | ->];
      unfold mapTokenAmount, mapToken; rewrite Hsdk; reflexivity.
  - intros backup mapped. unfold mapTokenAmount, mapToken.
    destruct (sdk (uni_currency input)) as [chain|chain addr].
    + destruct (present truthy_number backup);
        [destruct backup as [b|]; [destruct (mapChainId b)|]|];
        cbn [bind]; try discriminate;
        intros H; injection H as <-; split; reflexivity.
    + destruct (mapChainId chain); cbn [bind]; [|discriminate].
      intros H; injection H as <-; split; reflexivity.
Qed.

Section CallData.

Variable Uni_Route : Type.

Lemma awaitAll_Ok_map {A B} (f : A -> Result B) (g : A -> B) (l : list A) :
  (forall x, f x = Ok (g x)) -> awaitAll f l = Ok (map g l).
Proof.
  intros H. induction l as [|x tl IH]; simpl; [reflexivity|].
  rewrite H, IH. reflexivity.
Qed.

Lemma awaitAll_Throw_all {A B} (f : A -> Result B) (m : string)
      (l : list A) :
  l <> [] -> (forall x, f x = Throw m) -> awaitAll f l = Throw m.
Proof.
  intros Hne H. destruct l as [|x tl]; [congruence|].
  simpl. rewrite H. reflexivity.
Qed.

Lemma awaitAll_length {A B} (f : A -> Result B) (l : list A) :
  forall ys, awaitAll f l = Ok ys -> List.length ys = List.length l.
Proof.
  induction l as [|x tl IH]; simpl; intros ys H.
  - injection H as <-. reflexivity.
  - destruct (f x); [|discriminate H]. cbn [bind] in H.
    destruct (awaitAll f tl) as [ys0|]; [|discriminate H].
    cbn [bind] in H. injection H as <-. simpl. rewrite (IH ys0 eq_refl).
    reflexivity.
Qed.

Lemma definedParams_length (params : list (option string)) :
  (List.length (definedParams params) <= List.length params)%nat.
Proof.
  induction params as [|[v|] tl IH]; simpl; lia.
Qed.

(** The call parameter at index [i] belongs to a route at an index
    [j >= i], and [j = i] exactly when no earlier route lacks call
    data. *)
Lemma definedParams_index (data : Uni_Route -> option string)
      (routes : list Uni_Route) :
  forall i cd,
    nth_error (definedParams (map data routes)) i = Some cd ->
    exists j route,
      nth_error routes j = Some route
      /\ data route = Some cd
      /\ (i <= j)%nat
      /\ (j = i <-> forall k r, (k < j)%nat -> nth_error routes k = Some r ->
                                data r <> None).
Proof.
  induction routes as [|x tl IH]; intros i cd; simpl.
  - destruct i; discriminate.
  - destruct (data x) as [v|] eqn:Hx.
    + destruct i as [|i]; simpl.
      * intros H. injection H as <-. exists 0%nat, x.
        split; [reflexivity|]. split; [exact Hx|]. split; [lia|].
        split; [intros _ k r Hk; lia|reflexivity].
      * intros H. destruct (IH i cd H) as (j & r & Hj & Hr & Hle & Hiff).
        exists (S j), r. split; [exact Hj|]. split; [exact Hr|].
        split; [lia|]. split.
        -- intros Heq k r' Hk Hn. destruct k as [|k]; simpl in Hn.
           ++ injection Hn as <-. rewrite Hx. discriminate.
           ++ assert (Hji : j = i) by lia.
              apply (proj1 Hiff Hji k r'); [lia|exact Hn].
        -- intros Hall. f_equal. apply Hiff. intros k r' Hk Hn.
           apply (Hall (S k) r'); [lia|exact Hn].
    + intros H. destruct (IH i cd H) as (j & r & Hj & Hr & Hle & Hiff).
      exists (S j), r. split; [exact Hj|]. split; [exact Hr|].
      split; [lia|]. split.
      * intros Heq. lia.
      * intros Hall. exfalso.
        apply (Hall 0%nat x); [lia|reflexivity|exact Hx].
Qed.

End CallData.

(** X12: what the first effect stores as call parameters.  Without an
    amount it stores the empty list.  For an amount of a token on a chain
    other than 1, 3, 4, 5 and 42 and at least one route, mapping the
    amount fails inside every promise and nothing is stored, whatever the
    wrapper would answer.  When a list is stored for an amount, the
    promise was not cancelled, the list is never longer than the list of
    routes, it holds the call data of the routes that got some, in order,
    and its entry at index [i] is the call data of a route at an index
    [j >= i], with [j = i] exactly when every earlier route got call
    data. *)
Theorem callParamsEffect_cases :
  forall (Uni_Route : Type) (currencyEquals : Currency -> Currency -> bool)
         (quoteCallParameters :
            Uni_Route -> option TokenAmount -> TradeTypeEnum -> option string)
         (amountSpecified : option UniCurrencyAmount)
         (tradeType : SdkCore.TradeType) (routes : list Uni_Route)
         (cancelled : bool),
    let effect :=
      callParamsEffect Uni_Route currencyEquals quoteCallParameters
                       amountSpecified tradeType routes cancelled in
    (amountSpecified = None -> effect = SetCallParams [])
    /\ (forall input chain tokenAddress,
           amountSpecified = Some input ->
           sdk (uni_currency input) = SdkCore.Token chain tokenAddress ->
           ~ In chain [1; 3; 4; 5; 42] ->
           routes <> [] ->
           effect = NoChange)
    /\ (forall input callParams,
           amountSpecified = Some input ->
           effect = SetCallParams callParams ->
           cancelled = false
           /\ (List.length callParams <= List.length routes)%nat
           /\ (routes <> [] ->
               exists mapped,
               mapTokenAmount currencyEquals (Some input) None = Ok mapped
               /\ let data route :=
                    quoteCallParameters route mapped
                                        (mapTradeType tradeType) in
                  callParams = definedParams (map data routes)
                  /\ forall i cd,
                      nth_error callParams i = Some cd ->
                      exists j route,
                        nth_error routes j = Some route
                        /\ data route = Some cd
                        /\ (i <= j)%nat
                        /\ (j = i
                            <-> forall k r,
                                (k < j)%nat -> nth_error routes k = Some r ->
                                data r <> None))).
Proof.
  intros Uni_Route currencyEquals quoteCallParameters amountSpecified
         tradeType routes cancelled effect.
  split; [|split].
  - intros ->. reflexivity.
  - intros input chain addr -> Hsdk Hout Hne.
    unfold effect, callParamsEffect.
    rewrite (awaitAll_Throw_all
               (calldata Uni_Route currencyEquals quoteCallParameters input
                         tradeType)
               "Unknown chain ID. This should never happen." routes Hne).
    + reflexivity.
    + intros route. unfold calldata, mapTokenAmount, mapToken.
      rewrite Hsdk, (mapChainId_unsupported chain Hout). reflexivity.
  - intros input callParams -> Heff.
    unfold effect, callParamsEffect in Heff.
    destruct (awaitAll (calldata Uni_Route currencyEquals
                                 quoteCallParameters input tradeType)
                       routes) as [params|m] eqn:Hall;
      [|discriminate Heff].
    destruct cancelled; [discriminate Heff|].
    injection Heff as <-.
    split; [reflexivity|]. split.
    { rewrite <- (awaitAll_length _ _ _ Hall).
      apply definedParams_length. }
    intros Hne.
    destruct (mapTokenAmount currencyEquals (Some input) None)
      as [mapped|m] eqn:Hmap.
    + rewrite (awaitAll_Ok_map
                 (calldata Uni_Route currencyEquals quoteCallParameters input
                           tradeType)
                 (fun route =>
                    quoteCallParameters route mapped
                                        (mapTradeType tradeType))) in Hall.
      2:{ intros route. unfold calldata. rewrite Hmap. reflexivity. }
      injection Hall as <-.
      exists mapped. split; [reflexivity|]. cbv zeta.
      split; [reflexivity|].
      apply definedParams_index.
    + exfalso.
      rewrite (awaitAll_Throw_all
                 (calldata Uni_Route currencyEquals quoteCallParameters input
                           tradeType) m routes Hne) in Hall.
      * discriminate Hall.
      * intros route. unfold calldata. rewrite Hmap. reflexivity.
Qed.

End QuoteCallsFacts.

(** ** The route a quote is attributed to *)

Module RouteAlignmentFacts.
Import Js SdkCore PolywrapMapping QuoteCalls ClientSideV3Trade
       ClientSideV3TradeHook.

(** C9 fails in the code.  The quotes are indexed like the stored call
    parameters, from which the routes without call data were filtered out,
    while the reduction reads [routes[i]].  With three routes of which the
    first gets no call data, the second quotes 90 and the third quotes 100
    for an exact input of 1000 USDC into ether: the call parameters are
    those of the second and third route, the best quote, 100, sits at
    index 1, and the trade is requested for the route at index 1 of
    [routes], the second route, with the output amount 100 the third route
    quoted.  The route with the maximal output amount is not the one
    selected.  When all three routes get call data the positions agree and
    the third route is selected. *)
Theorem useClientSideV3Trade_route_misattributed :
  let run quoteCallParameters :=
    useClientSideV3TradeEffects
      string unit Samples.anyRoute Samples.anyRoute Fixtures.neverEther
      quoteCallParameters Fixtures.quoteOf SdkCore.EXACT_INPUT
      (Some (Fixtures.usdcSpecified 1000)) (Some (NativeCurrency 1))
      Samples.threeRoutes false [] false in
  Samples.threeRoutes = ["direct"; "viaWETH"; "viaDAI"]%string
  /\ (forall amount tradeType,
         map (fun route =>
                Fixtures.callDataExceptDirect route amount tradeType)
             Samples.threeRoutes
         = [None; Some (Fixtures.callDataOf "viaWETH");
            Some (Fixtures.callDataOf "viaDAI")])
  /\ callParamsEffect string Fixtures.neverEther
                      Fixtures.callDataExceptDirect
                      (Some (Fixtures.usdcSpecified 1000))
                      SdkCore.EXACT_INPUT Samples.threeRoutes false
     = SetCallParams [Fixtures.callDataOf "viaWETH";
                      Fixtures.callDataOf "viaDAI"]
  /\ Fixtures.quoteOf (Fixtures.callDataOf "viaWETH") = Samples.quote 90
  /\ Fixtures.quoteOf (Fixtures.callDataOf "viaDAI") = Samples.quote 100
  /\ run Fixtures.callDataExceptDirect
     = CreateUncheckedTrade string unit "viaWETH"%string
         (Samples.usdcAmount 1000) (fromRawAmount (NativeCurrency 1) 100)
         SdkCore.EXACT_INPUT
  /\ run Fixtures.callDataForAll
     = CreateUncheckedTrade string unit "viaDAI"%string
         (Samples.usdcAmount 1000) (fromRawAmount (NativeCurrency 1) 100)
         SdkCore.EXACT_INPUT.
Proof. repeat split; try intros amount tradeType; vm_compute; reflexivity. Qed.

End RouteAlignmentFacts.

(** ** More on the price breakdown, the severity scale and the comparator *)

Module BreakdownFacts.
Import Js DecimalJs SdkFraction Trades ArithmeticFacts TradesFacts.

(** *** The fee amount and the price impact without fee *)

Lemma reduce_fee_components (l : list W3Pair) :
  forall (ix : nat) (acc : Fraction),
    let r := reduce_from (fun (currentFee : Fraction) (_ : W3Pair) (_ : nat) =>
                            multiply currentFee INPUT_FRACTION_AFTER_FEE)
                         ix l acc in
    numerator r = numerator acc * 9970 ^ Z.of_nat (List.length l)
    /\ denominator r = denominator acc * 10000 ^ Z.of_nat (List.length l).
Proof.
  induction l as [|p l IH]; intros ix acc.
  - simpl. split; ring.
  - cbn [reduce_from List.length]. cbv zeta.
    destruct (IH (S ix) (multiply acc INPUT_FRACTION_AFTER_FEE))
      as [Hn Hd].
    cbv zeta in Hn, Hd. rewrite Hn, Hd.
    rewrite Nat2Z.inj_succ, !Z.pow_succ_r by lia.
    change (numerator (multiply acc INPUT_FRACTION_AFTER_FEE))
      with (numerator acc * 9970).
    change (denominator (multiply acc INPUT_FRACTION_AFTER_FEE))
      with (denominator acc * 10000).
    split; ring.
Qed.

Lemma pow_split (n : Z) :
  0 <= n ->
  10000 ^ n = 1000 ^ n * 10 ^ n /\ 9970 ^ n = 997 ^ n * 10 ^ n.
Proof.
  intros Hn. rewrite <- !Z.pow_mul_l. split; reflexivity.
Qed.

(** The fee fraction, up to a common positive factor of its numerator and
    denominator. *)
Lemma realizedLPFee_fraction_components (trade : Trade) :
  let n := Z.of_nat (List.length (sdk_pairs trade)) in
  exists k,
    0 < k
    /\ numerator (realizedLPFee_fraction trade) = k * (1000 ^ n - 997 ^ n)
    /\ denominator (realizedLPFee_fraction trade) = k * 1000 ^ n.
Proof.
  intros n. unfold realizedLPFee_fraction, reduce.
  destruct (reduce_fee_components (sdk_pairs trade) 0%nat
                                  ONE_HUNDRED_PERCENT) as [Hn Hd].
  cbv zeta in Hn, Hd. fold n in Hn, Hd.
  set (P := reduce_from
              (fun (currentFee : Fraction) (_ : W3Pair) (_ : nat) =>
                 multiply currentFee INPUT_FRACTION_AFTER_FEE)
              0%nat (sdk_pairs trade) ONE_HUNDRED_PERCENT) in *.
  change (numerator ONE_HUNDRED_PERCENT) with 10000 in Hn.
  change (denominator ONE_HUNDRED_PERCENT) with 10000 in Hd.
  assert (Hn0 : 0 <= n) by (unfold n; lia).
  destruct (pow_split n Hn0) as [H1 H2].
  assert (Hp10 : 0 < 10 ^ n) by (apply Z.pow_pos_nonneg; lia).
  assert (Hp1000 : 0 < 1000 ^ n) by (apply Z.pow_pos_nonneg; lia).
  unfold subtract.
  change (denominator ONE_HUNDRED_PERCENT) with 10000.
  change (numerator ONE_HUNDRED_PERCENT) with 10000.
  rewrite Hn, Hd.
  destruct (10000 =? 10000 * 10000 ^ n) eqn:E.
  - apply Z.eqb_eq in E.
    assert (H1n : 10000 ^ n = 1) by lia.
    exists (10000 * 10 ^ n). cbn [numerator denominator].
    split; [lia|]. rewrite H1 in H1n.
    assert (H10 : 10 ^ n = 1) by nia.
    assert (H1000 : 1000 ^ n = 1) by nia.
    assert (H997 : 997 ^ n = 1).
    { destruct (Z.eq_dec n 0) as [->|Hne]; [reflexivity|].
      exfalso.
      assert (1000 ^ 1 <= 1000 ^ n) by (apply Z.pow_le_mono_r; lia).
      simpl in H. lia. }
    rewrite H2, H997, H10, H1000. split; ring.
  - exists (100000000 * 10 ^ n). cbn [numerator denominator].
    split; [lia|]. rewrite H1, H2. split; ring.
Qed.

(** X13: the two values of [computeTradePriceBreakdown].  For a trade
    over [n] hops with a non-negative input amount, the fee amount is the
    input amount times 1 - 0.997^n, rounded down; it lies between 0 and
    the input amount and is an amount of the same token, or of ether, as
    the input; and the price impact without fee is the price impact of the
    trade minus 1 - 0.997^n. *)
Theorem computeTradePriceBreakdown_values :
  forall (trade : Trade),
    let n := List.length (sdk_pairs trade) in
    let input := sdk_inputAmount trade in
    0 <= raw input ->
    0 < denominator (sdk_priceImpact trade) ->
    exists impact fee,
      computeTradePriceBreakdown (Some trade)
      = mkBreakdown (Some impact) (Some fee)
      /\ raw fee
         = raw input * (1000 ^ Z.of_nat n - 997 ^ Z.of_nat n)
           / 1000 ^ Z.of_nat n
      /\ 0 <= raw fee <= raw input
      /\ match input with
         | TokenAmount tok _ => fee = TokenAmount tok (raw fee)
         | EtherAmount _ => fee = EtherAmount (raw fee)
         end
      /\ (toQ impact
          == toQ (sdk_priceImpact trade) - (1 - Qpow (997 # 1000) n))%Q.
Proof.
  intros trade n input Hraw Hden.
  destruct (realizedLPFee_fraction_components trade)
    as (k & Hk & Hnum & Hdenom).
  fold n in Hnum, Hdenom.
  set (N := Z.of_nat n) in *.
  assert (HN : 0 <= N) by (unfold N; lia).
  assert (Hp1000 : 0 < 1000 ^ N) by (apply Z.pow_pos_nonneg; lia).
  assert (Hp997 : 0 < 997 ^ N) by (apply Z.pow_pos_nonneg; lia).
  assert (Hle : 997 ^ N <= 1000 ^ N) by (apply Z.pow_le_mono_l; lia).
  assert (Hfee :
            quotient (multiply (realizedLPFee_fraction trade)
                               (ofInteger (raw input)))
            = raw input * (1000 ^ N - 997 ^ N) / 1000 ^ N).
  { unfold quotient, multiply, ofInteger. cbn [numerator denominator].
    rewrite Hnum, Hdenom, Z.mul_1_r.
    rewrite Z.quot_div_nonneg by nia.
    replace (k * (1000 ^ N - 997 ^ N) * raw input)
      with (k * (raw input * (1000 ^ N - 997 ^ N))) by ring.
    apply Z.div_mul_cancel_l; lia. }
  assert (Hbounds :
            0 <= raw input * (1000 ^ N - 997 ^ N) / 1000 ^ N <= raw input).
  { split.
    - apply Z.div_pos; [nia|lia].
    - apply Z.div_le_upper_bound; [lia|]. nia. }
  eexists. eexists. split; [reflexivity|].
  fold input.
  destruct input as [tok r|r] eqn:Hinput; cbn [raw] in *;
    (split; [exact Hfee|]; split; [rewrite Hfee; exact Hbounds|];
     split; [reflexivity|]).
  all: unfold toQ at 1; cbn [numerator denominator];
    change (Qmake (numerator ?x) (Z.to_pos (denominator ?x))) with (toQ x).
  all: rewrite toQ_subtract;
    [rewrite realizedLPFee_fraction_value; reflexivity
    |exact Hden
    |rewrite Hdenom; nia].
Qed.

(** Two hops on an input of 1000000 units of DAI with a price impact of
    1%: a fee of 5991 units of DAI, and 0.4009% left as price impact. *)
Lemma computeTradePriceBreakdown_values_witness :
  exists impact,
    computeTradePriceBreakdown (Some Samples.twoHopsSdk)
    = mkBreakdown (Some impact) (Some (TokenAmount Samples.DAI 5991))
    /\ (toQ impact == 4009 # 1000000)%Q.
Proof.
  destruct (computeTradePriceBreakdown_values
              Samples.twoHopsSdk ltac:(vm_compute; discriminate)
              ltac:(reflexivity))
    as (impact & fee & Hout & Hraw & _ & Hkind & Himpact).
  exists impact. split.
  - rewrite Hout. f_equal. f_equal.
    cbv zeta in Hkind. cbn [Samples.twoHopsSdk sdk_inputAmount] in Hkind.
    rewrite Hkind, Hraw. reflexivity.
  - rewrite Himpact. reflexivity.
Defined.

(** *** The fee grows with the number of hops *)

Lemma Qpow_pos (q : Q) (n : nat) : (0 < q)%Q -> (0 < Qpow q n)%Q.
Proof.
  intros Hq. induction n as [|n IH]; simpl.
  - reflexivity.
  - apply Qmult_lt_0_compat; assumption.
Qed.

Lemma Qpow_step (q : Q) (n : nat) :
  (0 < q)%Q -> (q < 1)%Q -> (Qpow q (S n) < Qpow q n)%Q.
Proof.
  intros H0 H1. simpl.
  setoid_replace (Qpow q n) with (1 * Qpow q n)%Q at 2 by ring.
  apply Qmult_lt_compat_r; [apply Qpow_pos; exact H0|exact H1].
Qed.

Lemma Qpow_decreasing (q : Q) (n m : nat) :
  (0 < q)%Q -> (q < 1)%Q -> (n < m)%nat -> (Qpow q m < Qpow q n)%Q.
Proof.
  intros H0 H1 Hlt. induction Hlt as [|m Hle IH].
  - apply Qpow_step; assumption.
  - eapply Qlt_trans; [apply Qpow_step; assumption|exact IH].
Qed.

Lemma Qpow_le_1 (q : Q) (n : nat) :
  (0 < q)%Q -> (q < 1)%Q -> (Qpow q n <= 1)%Q.
Proof.
  intros H0 H1. destruct n as [|n].
  - apply Qle_refl.
  - apply Qlt_le_weak.
    exact (Qpow_decreasing q 0 (S n) H0 H1 (Nat.lt_0_succ n)).
Qed.

(** X14: the fee fraction as a function of the route.  It depends on
    the number of hops only, is 0 for a route without hops, stays below
    1, and strictly grows with every hop added. *)
Theorem realizedLPFee_fraction_grows :
  forall (shorter longer : Trade),
    (List.length (sdk_pairs shorter) < List.length (sdk_pairs longer))%nat ->
    (toQ (realizedLPFee_fraction shorter)
     < toQ (realizedLPFee_fraction longer))%Q
    /\ (0 <= toQ (realizedLPFee_fraction shorter))%Q
    /\ (toQ (realizedLPFee_fraction longer) < 1)%Q
    /\ (sdk_pairs shorter = [] ->
        (toQ (realizedLPFee_fraction shorter) == 0)%Q)
    /\ (forall other,
           List.length (sdk_pairs other) = List.length (sdk_pairs shorter) ->
           (toQ (realizedLPFee_fraction other)
            == toQ (realizedLPFee_fraction shorter))%Q).
Proof.
  intros shorter longer Hlt.
  assert (H0 : (0 < 997 # 1000)%Q) by reflexivity.
  assert (H1 : (997 # 1000 < 1)%Q) by reflexivity.
  rewrite !realizedLPFee_fraction_value.
  split; [|split; [|split; [|split]]].
  - pose proof (Qpow_decreasing _ _ _ H0 H1 Hlt) as Hd.
    apply Qplus_lt_r. apply Qopp_lt_compat. exact Hd.
  - pose proof (Qpow_le_1 (997 # 1000)
                          (List.length (sdk_pairs shorter)) H0 H1) as Hle.
    setoid_replace 0%Q with (1 - 1)%Q by ring.
    apply Qplus_le_r. apply Qopp_le_compat. exact Hle.
  - pose proof (Qpow_pos (997 # 1000) (List.length (sdk_pairs longer)) H0)
      as Hp.
    setoid_replace 1%Q with (1 - 0)%Q at 2 by ring.
    apply Qplus_lt_r. apply Qopp_lt_compat. exact Hp.
  - intros ->. reflexivity.
  - intros other Hlen.
    rewrite (realizedLPFee_fraction_value other),
      (realizedLPFee_fraction_value shorter), Hlen.
    reflexivity.
Qed.

(** One hop against two: 0.3% against 0.5991%. *)
Lemma realizedLPFee_fraction_grows_witness :
  (toQ (realizedLPFee_fraction Fixtures.oneHopSdk)
   < toQ (realizedLPFee_fraction Samples.twoHopsSdk))%Q.
Proof.
  apply (realizedLPFee_fraction_grows Fixtures.oneHopSdk Samples.twoHopsSdk).
  simpl. lia.
Defined.

(** *** The bands of the severity scale *)

(** X15: with ascending thresholds the five severities are the five
    bands the thresholds cut: 0 below the low threshold, 1 from the low
    threshold up to the medium one, 2 from the medium up to the high one,
    3 from the high one up to the blocking one, and 4 from the blocking
    threshold on (and for NaN, which is below nothing). *)
Theorem warningSeverity_bands :
  forall (LOW MEDIUM HIGH BLOCKED p : Decimal),
    lessThan LOW MEDIUM = true ->
    lessThan MEDIUM HIGH = true ->
    lessThan HIGH BLOCKED = true ->
    let severity := warningSeverity LOW MEDIUM HIGH BLOCKED (Some p) in
    (severity = 0 <-> lessThan p LOW = true)
    /\ (severity = 1
        <-> lessThan p LOW = false /\ lessThan p MEDIUM = true)
    /\ (severity = 2
        <-> lessThan p MEDIUM = false /\ lessThan p HIGH = true)
    /\ (severity = 3
        <-> lessThan p HIGH = false /\ lessThan p BLOCKED = true)
    /\ (severity = 4 <-> lessThan p BLOCKED = false).
Proof.
  intros LOW MEDIUM HIGH BLOCKED p H1 H2 H3 severity.
  assert (Hlm : lessThan p LOW = true -> lessThan p MEDIUM = true)
    by (intros H; eapply le_lessThan_trans;
        [apply lessThan_le; exact H|exact H1]).
  assert (Hmh : lessThan p MEDIUM = true -> lessThan p HIGH = true)
    by (intros H; eapply le_lessThan_trans;
        [apply lessThan_le; exact H|exact H2]).
  assert (Hhb : lessThan p HIGH = true -> lessThan p BLOCKED = true)
    by (intros H; eapply le_lessThan_trans;
        [apply lessThan_le; exact H|exact H3]).
  unfold severity, warningSeverity, not_lessThan.
  destruct (lessThan p LOW) eqn:El, (lessThan p MEDIUM) eqn:Em,
    (lessThan p HIGH) eqn:Eh, (lessThan p BLOCKED) eqn:Eb;
    try (specialize (Hlm eq_refl); discriminate Hlm);
    try (specialize (Hmh eq_refl); discriminate Hmh);
    try (specialize (Hhb eq_refl); discriminate Hhb);
    cbn [negb];
    repeat split; intros; try discriminate; try reflexivity;
    try match goal with
        | H : _ /\ _ |- _ => destruct H; discriminate
        end.
Qed.

(** A price impact of 4% with thresholds of 1%, 3%, 5% and 15% lies in
    the band of severity 2. *)
Lemma warningSeverity_bands_witness :
  warningSeverity Samples.LOW Samples.MEDIUM Samples.HIGH Samples.BLOCKED
                  (Some (DFin 4 (-2))) = 2.
Proof.
  apply (warningSeverity_bands
           Samples.LOW Samples.MEDIUM Samples.HIGH Samples.BLOCKED
           (DFin 4 (-2)) eq_refl eq_refl eq_refl).
  split; reflexivity.
Defined.

(** *** The comparator: consistency and faults *)

Lemma lessThan_asym (x y : Decimal) :
  lessThan x y = true -> lessThan y x = false.
Proof.
  unfold lessThan, cmp.
  destruct x as [|nx|c1 e1], y as [|ny|c2 e2]; try discriminate;
    try reflexivity.
  - destruct nx, ny; simpl; try discriminate; reflexivity.
  - destruct nx; [reflexivity|discriminate].
  - destruct ny; [discriminate|reflexivity].
  - rewrite <- (Qcompare_antisym (Qval c1 e1) (Qval c2 e2)).
    destruct (Qval c1 e1 ?= Qval c2 e2)%Q; try discriminate. reflexivity.
Qed.

Lemma W3TradeType_eqb_sym (x y : W3TradeType) :
  W3TradeType_eqb x y = W3TradeType_eqb y x.
Proof. destruct x, y; reflexivity. Qed.

Lemma W3TradeType_eqb_eq (x y : W3TradeType) :
  W3TradeType_eqb x y = true <-> x = y.
Proof. destruct x, y; simpl; split; congruence. Qed.

Lemma option_string_eqb_sym (x y : option string) :
  option_eqb String.eqb x y = option_eqb String.eqb y x.
Proof.
  destruct x, y; simpl; try reflexivity. apply String.eqb_sym.
Qed.

Lemma w3currencyEquals_sym (a b : W3Currency) :
  w3currencyEquals a b = w3currencyEquals b a.
Proof.
  unfold w3currencyEquals.
  rewrite (Z.eqb_sym (decimals a)), (option_string_eqb_sym (symbol a)),
    (option_string_eqb_sym (name a)).
  reflexivity.
Qed.

(** X16: with no minimum delta (or one equal to 0) the comparator never
    prefers each of two trades to the other: when it answers [true] for
    [tradeA] against [tradeB], it answers [false], without fault, for
    [tradeB] against [tradeA]. *)
Theorem w3IsTradeBetter_asymmetric :
  forall (price : W3Trade -> Result Decimal) (tradeA tradeB : W3Trade)
         (minimumDelta : option Decimal),
    equals (match minimumDelta with
            | Some d => d
            | None => W3_ZERO_PERCENT
            end) W3_ZERO_PERCENT = true ->
    w3IsTradeBetter price (Some tradeA) (Some tradeB) minimumDelta
    = Ok (Some true) ->
    w3IsTradeBetter price (Some tradeB) (Some tradeA) minimumDelta
    = Ok (Some false).
Proof.
  intros price tradeA tradeB delta Hzero.
  unfold w3IsTradeBetter. cbn [is_some negb andb].
  rewrite !w3currencyEquals_refl. cbn [negb]. rewrite !orb_false_r.
  rewrite (W3TradeType_eqb_sym (tradeType tradeB)),
    (w3currencyEquals_sym (currency (token (inputAmount tradeB)))).
  destruct (negb (W3TradeType_eqb (tradeType tradeA) (tradeType tradeB))
            || negb (w3currencyEquals
                       (currency (token (inputAmount tradeA)))
                       (currency (token (inputAmount tradeB)))));
    [discriminate|].
  destruct (price tradeA) as [pA|m]; [|discriminate].
  destruct (price tradeB) as [pB|m]; [|discriminate].
  cbn [bind]. rewrite Hzero.
  intros H. injection H as H. rewrite (lessThan_asym pA pB H). reflexivity.
Qed.

(** Prices of 1 and 2: the second trade beats the first, the first does
    not beat the second. *)
Lemma w3IsTradeBetter_asymmetric_witness :
  w3IsTradeBetter Samples.outputPerInput (Some Samples.daiUsdcAt2)
                  (Some Samples.daiUsdcAt1) None
  = Ok (Some false).
Proof.
  apply (w3IsTradeBetter_asymmetric
           Samples.outputPerInput Samples.daiUsdcAt1 Samples.daiUsdcAt2 None).
  - reflexivity.
  - vm_compute. reflexivity.
Defined.

(** X17: every way the comparator fails on two trades.  It throws
    "Trades are not comparable" exactly when the trade types differ or the
    input currencies differ; otherwise it fails only when the wrapper does
    not deliver an execution price, with the wrapper's error, the price of
    [tradeA] being asked for first.  The output currencies never cause a
    fault. *)
Theorem w3IsTradeBetter_faults :
  forall (price : W3Trade -> Result Decimal) (tradeA tradeB : W3Trade)
         (minimumDelta : option Decimal) (message : string),
    let comparable :=
      tradeType tradeA = tradeType tradeB
      /\ w3currencyEquals (currency (token (inputAmount tradeA)))
                          (currency (token (inputAmount tradeB))) = true in
    w3IsTradeBetter price (Some tradeA) (Some tradeB) minimumDelta
    = Throw message
    <-> (~ comparable /\ message = "Trades are not comparable"%string)
        \/ (comparable /\ price tradeA = Throw message)
        \/ (comparable /\ (exists pA, price tradeA = Ok pA)
            /\ price tradeB = Throw message).
Proof.
  intros price tradeA tradeB delta message comparable.
  set (same := w3currencyEquals (currency (token (inputAmount tradeA)))
                                (currency (token (inputAmount tradeB))))
    in *.
  unfold w3IsTradeBetter. cbn [is_some negb andb]. fold same.
  rewrite w3currencyEquals_refl. cbn [negb]. rewrite orb_false_r.
  destruct (W3TradeType_eqb (tradeType tradeA) (tradeType tradeB)) eqn:Et;
    cbn [negb orb].
  - apply W3TradeType_eqb_eq in Et.
    destruct same eqn:Ec; cbn [negb].
    + assert (Hc : comparable) by (split; [exact Et|reflexivity]).
      destruct (price tradeA) as [pA|mA]; cbn [bind].
      * destruct (price tradeB) as [pB|mB]; cbn [bind].
        -- split.
           ++ destruct (equals _ W3_ZERO_PERCENT); discriminate.
           ++ intros [[Hn _]|[[_ H]|[_ [_ H]]]];
                [contradiction|discriminate H|discriminate H].
        -- split.
           ++ intros H. injection H as ->. right. right.
              split; [exact Hc|]. split; [eauto|reflexivity].
           ++ intros [[Hn _]|[[_ H]|[_ [_ H]]]];
                [contradiction|discriminate H
                |injection H as ->; reflexivity].
      * split.
        -- intros H. injection H as ->. right. left.
           split; [exact Hc|reflexivity].
        -- intros [[Hn _]|[[_ H]|[_ [[pA H] _]]]];
             [contradiction|injection H as ->; reflexivity|discriminate H].
    + assert (Hn : ~ comparable) by (intros [_ H]; discriminate H).
      split.
      * intros H. injection H as <-. left. split; [exact Hn|reflexivity].
      * intros [[_ ->]|[[Hc _]|[Hc _]]];
          [reflexivity|contradiction|contradiction].
  - assert (Hn : ~ comparable).
    { intros [H _]. apply W3TradeType_eqb_eq in H. rewrite H in Et.
      discriminate Et. }
    split.
    + intros H. injection H as <-. left. split; [exact Hn|reflexivity].
    + intros [[_ ->]|[[Hc _]|[Hc _]]];
        [reflexivity|contradiction|contradiction].
Qed.

End BreakdownFacts.

(** ** Trades quoted by the routing API *)

Module RoutingAPITradeFacts.
Import Js SdkCore RoutingAPITrade.

Lemma equals_sym (a b : Currency) : equals a b = equals b a.
Proof.
  destruct a as [ca|ca aa], b as [cb|cb ab]; simpl; try reflexivity.
  - apply Z.eqb_sym.
  - rewrite (Z.eqb_sym ca cb), (String.eqb_sym aa ab). reflexivity.
Qed.

Lemma useFreshData_fresh {T} (localBlockNumber : option Z) (data : option T)
      (dataBlock maxBlockAge : Z) (d : T) :
  useFreshData localBlockNumber data dataBlock maxBlockAge = Some d ->
  data = Some d
  /\ exists l, localBlockNumber = Some l /\ l <> 0
               /\ l - dataBlock <= maxBlockAge.
Proof.
  unfold useFreshData.
  destruct localBlockNumber as [l|]; cbn [present]; [|discriminate].
  destruct (truthy_number l) eqn:Hl; [|discriminate].
  destruct (l - dataBlock >? maxBlockAge) eqn:Hage; [discriminate|].
  intros ->. split; [reflexivity|]. exists l.
  split; [reflexivity|]. split.
  - intros ->. discriminate Hl.
  - rewrite Z.gtb_ltb in Hage. apply Z.ltb_ge in Hage. exact Hage.
Qed.

Section Hook.

Variable wrapped : Currency -> Currency.
Variables Route ExtendedTrade GasEstimate : Type.
Variable computeRoutes :
  Currency -> Currency -> TradeType -> option GetQuoteResult
  -> Result (option (list Route)).
Variable transformRoutesToTrade :
  list Route -> TradeType -> option GasEstimate
  -> Result (option ExtendedTrade).

(** What [loadTrade] resolves with. *)
Lemma loadTrade_shape (currencyIn currencyOut : Currency)
      (tradeType : TradeType) (quoteResult : option GetQuoteResult)
      (gas : option GasEstimate) (r : TradeResult ExtendedTrade GasEstimate) :
  loadTrade Route ExtendedTrade GasEstimate computeRoutes
            transformRoutesToTrade currencyIn currencyOut tradeType
            quoteResult gas = Ok r ->
  (state ExtendedTrade GasEstimate r = ClientSideV3Trade.VALID
   /\ (exists t, trade ExtendedTrade GasEstimate r = Some t)
   /\ gasUseEstimateUSD ExtendedTrade GasEstimate r = None)
  \/ (state ExtendedTrade GasEstimate r = ClientSideV3Trade.NO_ROUTE_FOUND
      /\ trade ExtendedTrade GasEstimate r = None
      /\ gasUseEstimateUSD ExtendedTrade GasEstimate r = None)
  \/ (state ExtendedTrade GasEstimate r = ClientSideV3Trade.INVALID
      /\ trade ExtendedTrade GasEstimate r = None
      /\ gasUseEstimateUSD ExtendedTrade GasEstimate r = Some gas).
Proof.
  unfold loadTrade.
  destruct (computeRoutes currencyIn currencyOut tradeType quoteResult)
    as [[[|rt tl]|]|m]; cbn [bind]; try discriminate.
  - intros H. injection H as <-. right. left. repeat split.
  - destruct (transformRoutesToTrade (rt :: tl) tradeType gas)
      as [[t|]|m]; intros H; injection H as <-.
    + left. split; [reflexivity|]. split; [eexists; reflexivity|reflexivity].
    + right. right. repeat split.
    + right. right. repeat split.
  - intros H. injection H as <-. right. left. repeat split.
Qed.

End Hook.

(** X18: what [useRoutingAPITrade] stores.  A stored result carries a
    trade exactly when its state is VALID, is never SYNCING, and carries a
    gas estimate only when it is INVALID.  VALID is stored only when the
    query did not fail, the promise was not cancelled, the amount and the
    other currency are there and differ, and the quote is fresh: the local
    block number is known and at most 10 blocks ahead of the quote.  A
    swap of a currency into itself is never INVALID here: it is LOADING
    while the query loads without a fresh quote, and NO_ROUTE_FOUND
    otherwise. *)
Theorem useRoutingAPITradeEffect_cases :
  forall (wrapped : Currency -> Currency)
         (Route ExtendedTrade GasEstimate : Type)
         (computeRoutes :
            Currency -> Currency -> TradeType -> option GetQuoteResult
            -> Result (option (list Route)))
         (transformRoutesToTrade :
            list Route -> TradeType -> option GasEstimate
            -> Result (option ExtendedTrade))
         (tradeType : TradeType) (amountSpecified : option CurrencyAmount)
         (otherCurrency : option Currency) (clientSideRouter : bool)
         (isLoading isError : bool) (data : option GetQuoteResult)
         (localBlockNumber : option Z) (gas : option GasEstimate)
         (cancelled : bool),
    let effect :=
      useRoutingAPITradeEffect wrapped Route ExtendedTrade GasEstimate
                               computeRoutes transformRoutesToTrade
                               tradeType amountSpecified otherCurrency
                               clientSideRouter isLoading isError data
                               localBlockNumber gas cancelled in
    (forall r,
        effect = SetTradeResult ExtendedTrade GasEstimate r ->
        (state ExtendedTrade GasEstimate r = ClientSideV3Trade.VALID
         <-> exists t, trade ExtendedTrade GasEstimate r = Some t)
        /\ state ExtendedTrade GasEstimate r <> ClientSideV3Trade.SYNCING
        /\ (forall g, gasUseEstimateUSD ExtendedTrade GasEstimate r = Some g ->
                      state ExtendedTrade GasEstimate r
                      = ClientSideV3Trade.INVALID))
    /\ (forall r,
           effect = SetTradeResult ExtendedTrade GasEstimate r ->
           state ExtendedTrade GasEstimate r = ClientSideV3Trade.VALID ->
           isError = false /\ cancelled = false
           /\ exists amount other q l,
               amountSpecified = Some amount
               /\ otherCurrency = Some other
               /\ equals (currency amount) other = false
               /\ data = Some q
               /\ localBlockNumber = Some l /\ l <> 0
               /\ l - dataBlockNumber data <= 10)
    /\ (forall amount other,
           amountSpecified = Some amount ->
           otherCurrency = Some other ->
           equals (currency amount) other = true ->
           effect
           = SetTradeResult ExtendedTrade GasEstimate
               (mkTradeResult ExtendedTrade GasEstimate
                  (if isLoading
                      && negb (is_some (useFreshData localBlockNumber data
                                          (dataBlockNumber data) 10))
                   then ClientSideV3Trade.LOADING
                   else ClientSideV3Trade.NO_ROUTE_FOUND)
                  None None)).
Proof.
  intros wrapped Route ExtendedTrade GasEstimate computeRoutes
         transformRoutesToTrade tradeType amountSpecified otherCurrency
         clientSideRouter isLoading isError data localBlockNumber gas
         cancelled effect.
  assert (Hplain :
            forall st r,
              st <> ClientSideV3Trade.VALID ->
              st <> ClientSideV3Trade.SYNCING ->
              SetTradeResult ExtendedTrade GasEstimate
                (mkTradeResult ExtendedTrade GasEstimate st None None)
              = SetTradeResult ExtendedTrade GasEstimate r ->
              ((state ExtendedTrade GasEstimate r = ClientSideV3Trade.VALID
                <-> exists t, trade ExtendedTrade GasEstimate r = Some t)
               /\ state ExtendedTrade GasEstimate r
                  <> ClientSideV3Trade.SYNCING
               /\ (forall g,
                      gasUseEstimateUSD ExtendedTrade GasEstimate r = Some g ->
                      state ExtendedTrade GasEstimate r
                      = ClientSideV3Trade.INVALID))
              /\ state ExtendedTrade GasEstimate r
                 <> ClientSideV3Trade.VALID).
  { intros st r Hv Hs H. injection H as <-.
    cbn [state trade gasUseEstimateUSD].
    split; [|exact Hv]. split; [|split; [exact Hs|discriminate]].
    split; [intros H; contradiction|intros [t H]; discriminate H]. }
  assert (Hmain :
            forall r,
              effect = SetTradeResult ExtendedTrade GasEstimate r ->
              ((state ExtendedTrade GasEstimate r = ClientSideV3Trade.VALID
                <-> exists t, trade ExtendedTrade GasEstimate r = Some t)
               /\ state ExtendedTrade GasEstimate r
                  <> ClientSideV3Trade.SYNCING
               /\ (forall g,
                      gasUseEstimateUSD ExtendedTrade GasEstimate r = Some g ->
                      state ExtendedTrade GasEstimate r
                      = ClientSideV3Trade.INVALID))
              /\ (state ExtendedTrade GasEstimate r = ClientSideV3Trade.VALID ->
                  isError = false /\ cancelled = false
                  /\ exists amount other q l,
                      amountSpecified = Some amount
                      /\ otherCurrency = Some other
                      /\ equals (currency amount) other = false
                      /\ data = Some q
                      /\ localBlockNumber = Some l /\ l <> 0
                      /\ l - dataBlockNumber data <= 10)).
  { intros r. unfold effect, useRoutingAPITradeEffect,
                ClientSideV3Trade.endpoints, useRoutingAPIArguments.
    set (fresh := useFreshData localBlockNumber data (dataBlockNumber data)
                               10).
    assert (Hfresh :
              forall q, fresh = Some q ->
                        data = Some q
                        /\ exists l, localBlockNumber = Some l /\ l <> 0
                                     /\ l - dataBlockNumber data <= 10)
      by (intros q; apply useFreshData_fresh).
    assert (Hno :
              forall st,
                st <> ClientSideV3Trade.VALID ->
                st <> ClientSideV3Trade.SYNCING ->
                SetTradeResult ExtendedTrade GasEstimate
                  (mkTradeResult ExtendedTrade GasEstimate st None None)
                = SetTradeResult ExtendedTrade GasEstimate r ->
                ((state ExtendedTrade GasEstimate r = ClientSideV3Trade.VALID
                  <-> exists t, trade ExtendedTrade GasEstimate r = Some t)
                 /\ state ExtendedTrade GasEstimate r
                    <> ClientSideV3Trade.SYNCING
                 /\ (forall g,
                        gasUseEstimateUSD ExtendedTrade GasEstimate r
                        = Some g ->
                        state ExtendedTrade GasEstimate r
                        = ClientSideV3Trade.INVALID))
                /\ (state ExtendedTrade GasEstimate r
                    = ClientSideV3Trade.VALID ->
                    isError = false /\ cancelled = false
                    /\ exists amount other q l,
                        amountSpecified = Some amount
                        /\ otherCurrency = Some other
                        /\ equals (currency amount) other = false
                        /\ data = Some q
                        /\ localBlockNumber = Some l /\ l <> 0
                        /\ l - dataBlockNumber data <= 10)).
    { intros st Hv Hs H. destruct (Hplain st r Hv Hs H) as [H1 H2].
      split; [exact H1|]. intros Hc. contradiction. }
    destruct tradeType, amountSpecified as [amount|],
      otherCurrency as [other|]; cbn [option_map];
      try (apply Hno; discriminate).
    - destruct (isLoading && negb (is_some fresh));
        [apply Hno; discriminate|].
      destruct fresh as [q|] eqn:Hq; cbn [option_map is_some negb];
        [|rewrite orb_true_r; apply Hno; discriminate].
      destruct isError; cbn [orb]; [apply Hno; discriminate|].
      destruct (equals (currency amount) other) eqn:He;
        cbn [is_some negb]; [apply Hno; discriminate|].
      destruct (loadTrade Route ExtendedTrade GasEstimate computeRoutes
                          transformRoutesToTrade (currency amount) other
                          EXACT_INPUT (Some q) gas) as [res|m] eqn:Hload;
        [|discriminate].
      destruct cancelled; [discriminate|].
      intros H. injection H as <-.
      destruct (Hfresh q eq_refl) as (Hdata & l & Hl & Hl0 & Hage).
      destruct (loadTrade_shape Route ExtendedTrade GasEstimate computeRoutes
                                transformRoutesToTrade _ _ _ _ _ _ Hload)
        as [(Hs & [t Ht] & Hg)|[(Hs & Ht & Hg)|(Hs & Ht & Hg)]];
        rewrite Hs, Ht, Hg.
      + split.
        * split; [split; [intros _; eexists; reflexivity|reflexivity]|].
          split; [discriminate|discriminate].
        * intros _. split; [reflexivity|]. split; [reflexivity|].
          exists amount, other, q, l. repeat split; assumption.
      + split; [|discriminate].
        split; [split; [discriminate|intros [t H]; discriminate H]|].
        split; [discriminate|discriminate].
      + split; [|discriminate].
        split; [split; [discriminate|intros [t H]; discriminate H]|].
        split; [discriminate|reflexivity].
    - destruct (isLoading && negb (is_some fresh));
        [apply Hno; discriminate|].
      destruct fresh as [q|] eqn:Hq; cbn [option_map is_some negb];
        [|rewrite orb_true_r; apply Hno; discriminate].
      destruct isError; cbn [orb]; [apply Hno; discriminate|].
      destruct (equals other (currency amount)) eqn:He;
        cbn [is_some negb]; [apply Hno; discriminate|].
      destruct (loadTrade Route ExtendedTrade GasEstimate computeRoutes
                          transformRoutesToTrade other (currency amount)
                          EXACT_OUTPUT (Some q) gas) as [res|m] eqn:Hload;
        [|discriminate].
      destruct cancelled; [discriminate|].
      intros H. injection H as <-.
      destruct (Hfresh q eq_refl) as (Hdata & l & Hl & Hl0 & Hage).
      rewrite equals_sym in He.
      destruct (loadTrade_shape Route ExtendedTrade GasEstimate computeRoutes
                                transformRoutesToTrade _ _ _ _ _ _ Hload)
        as [(Hs & [t Ht] & Hg)|[(Hs & Ht & Hg)|(Hs & Ht & Hg)]];
        rewrite Hs, Ht, Hg.
      + split.
        * split; [split; [intros _; eexists; reflexivity|reflexivity]|].
          split; [discriminate|discriminate].
        * intros _. split; [reflexivity|]. split; [reflexivity|].
          exists amount, other, q, l. repeat split; assumption.
      + split; [|discriminate].
        split; [split; [discriminate|intros [t H]; discriminate H]|].
        split; [discriminate|discriminate].
      + split; [|discriminate].
        split; [split; [discriminate|intros [t H]; discriminate H]|].
        split; [discriminate|reflexivity]. }
  split; [|split].
  - intros r Hr. exact (proj1 (Hmain r Hr)).
  - intros r Hr. exact (proj2 (Hmain r Hr)).
  - intros amount other -> -> He.
    unfold effect, useRoutingAPITradeEffect, ClientSideV3Trade.endpoints,
      useRoutingAPIArguments.
    destruct tradeType; cbn [option_map];
      rewrite ?(equals_sym other), He;
      destruct (isLoading
                && negb (is_some (useFreshData localBlockNumber data
                                               (dataBlockNumber data) 10)));
      try reflexivity;
      cbn [is_some negb]; rewrite !orb_true_r; reflexivity.
Qed.

End RoutingAPITradeFacts.

(** ** The range, the deposits and the error of the mint form *)

Module MintV3Facts.
Import Js PolywrapMapping MintV3.

Lemma disabled_sides_exclusive (tickLower tickUpper : option Z)
      (poolForPosition : option Pool) :
  invalidRange tickLower tickUpper = false ->
  deposit0Disabled tickUpper poolForPosition
  && deposit1Disabled tickLower poolForPosition = false.
Proof.
  unfold invalidRange, deposit0Disabled, deposit1Disabled.
  destruct tickLower as [lo|], tickUpper as [hi|],
    poolForPosition as [pool|]; try reflexivity;
    intros H; rewrite ?andb_false_r; try reflexivity.
  destruct (tickCurrent pool >=? hi) eqn:E0; [|reflexivity].
  destruct (tickCurrent pool <=? lo) eqn:E1; [|reflexivity].
  exfalso. rewrite Z.geb_leb in H, E0.
  apply Z.leb_le in E0, E1. apply Z.leb_gt in H. lia.
Qed.

Section Deposits.

Variable currencyEquals : Currency -> Currency -> bool.
Variable tokenEquals : Token -> Token -> bool.

Lemma sideDisabled_true (disabled : bool) (poolForPosition : option Pool)
      (side : Pool -> Token) (token : option UniCurrency) :
  sideDisabled currencyEquals tokenEquals disabled poolForPosition side token
  = Ok true ->
  disabled = true
  /\ exists pool t mapped,
      poolForPosition = Some pool /\ token = Some t
      /\ mapToken currencyEquals t None = Ok mapped
      /\ tokenEquals (side pool) mapped = true.
Proof.
  unfold sideDisabled.
  destruct disabled; [|discriminate].
  destruct poolForPosition as [pool|], token as [t|]; try discriminate.
  destruct (mapToken currencyEquals t None) as [mapped|m] eqn:Hm;
    cbn [bind]; [|discriminate].
  intros H. injection H as H. split; [reflexivity|].
  exists pool, t, mapped. repeat split; assumption.
Qed.

End Deposits.

(** X19: the deposits of the mint form.  With an invalid range, a lower
    tick not below the upper tick, both deposits are disabled, nothing is
    mapped, and the price is never reported out of range.  With a valid
    range the pool cannot close both of its sides at once; so both
    deposits are disabled only when both currencies are, for
    [tokenEquals], the token of the one closed side.  Without a pool no
    deposit is disabled. *)
Theorem depositDisabled_cases :
  forall (currencyEquals : Currency -> Currency -> bool)
         (tokenEquals : Token -> Token -> bool)
         (tickLower tickUpper : option Z) (poolForPosition : option Pool)
         (tokenA tokenB : option UniCurrency),
    let disabled :=
      depositDisabled currencyEquals tokenEquals tickLower tickUpper
                      poolForPosition in
    (invalidRange tickLower tickUpper = true ->
     disabled tokenA = Ok true /\ disabled tokenB = Ok true
     /\ forall price lowerPrice upperPrice,
         outOfRange tickLower tickUpper price lowerPrice upperPrice = false)
    /\ (invalidRange tickLower tickUpper = false ->
        deposit0Disabled tickUpper poolForPosition
        && deposit1Disabled tickLower poolForPosition = false)
    /\ (invalidRange tickLower tickUpper = false ->
        disabled tokenA = Ok true -> disabled tokenB = Ok true ->
        exists pool a b mappedA mappedB,
          poolForPosition = Some pool
          /\ tokenA = Some a /\ tokenB = Some b
          /\ mapToken currencyEquals a None = Ok mappedA
          /\ mapToken currencyEquals b None = Ok mappedB
          /\ ((deposit0Disabled tickUpper poolForPosition = true
               /\ tokenEquals (token0 pool) mappedA = true
               /\ tokenEquals (token0 pool) mappedB = true)
              \/ (deposit1Disabled tickLower poolForPosition = true
                  /\ tokenEquals (token1 pool) mappedA = true
                  /\ tokenEquals (token1 pool) mappedB = true)))
    /\ (invalidRange tickLower tickUpper = false ->
        poolForPosition = None ->
        disabled tokenA = Ok false /\ disabled tokenB = Ok false).
Proof.
  intros currencyEquals tokenEquals lo hi pool tokenA tokenB disabled.
  split; [|split; [|split]].
  - intros H. unfold disabled, depositDisabled, outOfRange. rewrite H.
    repeat split.
  - apply disabled_sides_exclusive.
  - intros Hvalid HA HB.
    pose proof (disabled_sides_exclusive lo hi pool Hvalid) as Hex.
    unfold disabled, depositDisabled in HA, HB. rewrite Hvalid in HA, HB.
    destruct (deposit0Disabled hi pool) eqn:E0.
    + (* the side of token0 is closed, so the side of token1 is open *)
      cbn [andb] in Hex. rewrite Hex in HA, HB.
      assert (Hopen : forall t,
                 sideDisabled currencyEquals tokenEquals false pool token1 t
                 = Ok false) by reflexivity.
      destruct (sideDisabled currencyEquals tokenEquals true pool token0
                             tokenA) as [[|]|m] eqn:SA;
        cbn [bind] in HA;
        [|rewrite Hopen in HA; discriminate HA|discriminate HA].
      destruct (sideDisabled currencyEquals tokenEquals true pool token0
                             tokenB) as [[|]|m] eqn:SB;
        cbn [bind] in HB;
        [|rewrite Hopen in HB; discriminate HB|discriminate HB].
      apply sideDisabled_true in SA, SB.
      destruct SA as (_ & p & a & ma & Hp & Ha & Hma & Hea).
      destruct SB as (_ & p' & b & mb & Hp' & Hb & Hmb & Heb).
      rewrite Hp in Hp'. injection Hp' as <-.
      exists p, a, b, ma, mb. repeat split; try assumption.
      left. repeat split; assumption.
    + assert (Hclosed : forall t,
                 sideDisabled currencyEquals tokenEquals false pool token0 t
                 = Ok false) by reflexivity.
      rewrite Hclosed in HA, HB. cbn [bind] in HA, HB.
      apply sideDisabled_true in HA, HB.
      destruct HA as (H1 & p & a & ma & Hp & Ha & Hma & Hea).
      destruct HB as (_ & p' & b & mb & Hp' & Hb & Hmb & Heb).
      rewrite Hp in Hp'. injection Hp' as <-.
      exists p, a, b, ma, mb. repeat split; try assumption.
      right. repeat split; assumption.
  - intros Hvalid ->. unfold disabled, depositDisabled. rewrite Hvalid.
    unfold deposit0Disabled, deposit1Disabled.
    destruct lo, hi; split; reflexivity.
Qed.

(** X20: the error of the mint form, by priority.  An insufficient
    balance of the second currency is reported before everything else,
    then an insufficient balance of the first currency, also when no
    wallet is connected; then, in this order, "Connect Wallet", "Invalid
    pair", "Invalid price input" and "Enter an amount".  So there is no
    error exactly when a wallet is connected, the pool is not invalid, the
    price is valid, each amount is entered or its deposit disabled, and no
    balance is below its amount. *)
Theorem errorMessage_priority :
  forall (account : option string) (poolState : PoolState)
         (invalidPrice : bool) (parsedAmountA parsedAmountB : option Z)
         (depositADisabled depositBDisabled : bool)
         (balanceA balanceB : option Z) (symbolA symbolB : option string),
    let message :=
      errorMessage account poolState invalidPrice parsedAmountA
                   parsedAmountB depositADisabled depositBDisabled balanceA
                   balanceB symbolA symbolB in
    let missing :=
      (negb (is_some parsedAmountA) && negb depositADisabled)
      || (negb (is_some parsedAmountB) && negb depositBDisabled) in
    message
    = (if insufficient parsedAmountB balanceB
       then Some (InsufficientBalance symbolB)
       else if insufficient parsedAmountA balanceA
       then Some (InsufficientBalance symbolA)
       else if negb (present truthy_string account) then Some ConnectWallet
       else match poolState with
            | INVALID => Some InvalidPair
            | _ =>
                if invalidPrice then Some InvalidPriceInput
                else if missing then Some EnterAnAmount
                else None
            end)
    /\ (message = None
        <-> present truthy_string account = true
            /\ poolState <> INVALID
            /\ invalidPrice = false
            /\ missing = false
            /\ insufficient parsedAmountA balanceA = false
            /\ insufficient parsedAmountB balanceB = false).
Proof.
  intros account poolState invalidPrice pa pb da db ba bb sa sb message
         missing.
  assert (Heq :
            message
            = (if insufficient pb bb then Some (InsufficientBalance sb)
               else if insufficient pa ba then Some (InsufficientBalance sa)
               else if negb (present truthy_string account)
               then Some ConnectWallet
               else match poolState with
                    | INVALID => Some InvalidPair
                    | _ =>
                        if invalidPrice then Some InvalidPriceInput
                        else if missing then Some EnterAnAmount
                        else None
                    end)).
  { unfold message, errorMessage. fold missing.
    destruct (insufficient pb bb), (insufficient pa ba),
      (present truthy_string account), poolState, invalidPrice, missing;
      reflexivity. }
  split; [exact Heq|].
  rewrite Heq.
  destruct (insufficient pb bb), (insufficient pa ba),
    (present truthy_string account), poolState, invalidPrice, missing;
    cbn [negb]; split;
    try discriminate;
    try (intros (H1 & H2 & H3 & H4 & H5 & H6);
         first [discriminate | contradiction | (exfalso; apply H2; reflexivity)]);
    try (intros _; repeat split; discriminate);
    try reflexivity.
Qed.

End MintV3Facts.
